(** * dunl_kg_dashboard: the enrichment pipeline, embedded and verified

    The development follows [enrich_metadata.py] (text normaliser, entity
    resolver, market history fetcher, graph assembler, final payload) and
    the file hand-off to [generate_dashboard.py].

    Conventions.
    - A Python [str] is a [string]: a sequence of characters with code
      points below 256.
    - A Python [list] is a [list]; a [dict] whose iteration order is
      observed is an association list in insertion order; a [set] that is
      only tested for membership is a [gset]; the file system is a [gmap]
      from paths to file contents.
    - A function that can raise returns a [pyres]; a loop is a fold over
      its list with the variables it assigns as accumulator.
    - A float is known by its class (finite, infinite, NaN); a finite
      value is held as the rational it denotes.  Similarity scores are
      rationals.
    - The fuzzy scorer of rapidfuzz, the price download of yfinance,
      the rounding of a finite double by numpy and the template engine
      of jinja2 are external collaborators: they enter as Section
      variables.  Calls of [print] are left out.
    - The records of the ingestion stage are typed: every field is a
      string or a number.  Module [Raw] has the resolver on records whose
      free-text fields are arbitrary JSON values. *)

From Stdlib Require Import Ascii String NArith ZArith QArith Qround.
From stdpp Require Import base strings list gmap sets.

Local Open Scope string_scope.
Local Open Scope list_scope.

(** ** Python strings *)

Module PyStr.

(** [str.isspace] on one character, for code points below 256:
    U+0009..U+000D, U+001C..U+001F, U+0020, U+0085 and U+00A0. *)
Definition isspace (c : ascii) : bool :=
  let n := N_of_ascii c in
  ((9 <=? n) && (n <=? 13) || (28 <=? n) && (n <=? 32)
   || (n =? 133) || (n =? 160))%N.

(** [s.lstrip()] *)
Fixpoint lstrip (s : string) : string :=
  match s with
  | String c s' => if isspace c then lstrip s' else s
  | EmptyString => EmptyString
  end.

(** [s.rstrip()] *)
Fixpoint rstrip (s : string) : string :=
  match s with
  | EmptyString => EmptyString
  | String c s' =>
      match rstrip s' with
      | EmptyString => if isspace c then EmptyString else String c EmptyString
      | r => String c r
      end
  end.

(** [s.strip()] *)
Definition strip (s : string) : string := rstrip (lstrip s).

(** [s.replace(old, '')] for a non-empty [old]: one scan from the left;
    where [old] starts at the cursor its characters are dropped and the
    scan resumes after them, so the occurrences removed do not overlap
    and the output is never scanned again.  [skip] counts the characters
    of the current occurrence still to drop. *)
Fixpoint remove_scan (old : string) (skip : nat) (s : string) : string :=
  match s with
  | EmptyString => EmptyString
  | String c s' =>
      match skip with
      | S k => remove_scan old k s'
      | O =>
          if String.prefix old s
          then remove_scan old (Nat.pred (String.length old)) s'
          else String c (remove_scan old 0 s')
      end
  end.

Definition remove (old s : string) : string := remove_scan old 0 s.

(** [old in s] for a non-empty [old]. *)
Fixpoint occurs (old s : string) : bool :=
  String.prefix old s ||
  match s with
  | EmptyString => false
  | String _ s' => occurs old s'
  end.

End PyStr.

(** ** Text normaliser *)

Definition noise_words : list string :=
  ["FOB"; "CIF"; "CFR"; "DES"; "Port Charge"; "Disport Charge";
   "Cargo"; "Blend"; "Strip"; "vs"].

(** [clean_text]: periods are removed first, then every noise word in the
    order of the list, then the result is stripped. *)
Definition clean_text (text : string) : string :=
  let text := PyStr.remove "." text in
  let text := fold_left (fun t word => PyStr.remove word t) noise_words text in
  PyStr.strip text.

(** ** Exceptions

    The exceptions the pipeline can meet all derive from [Exception];
    [KeyboardInterrupt] and [SystemExit], which [except Exception] lets
    through, are outside the model. *)

Inductive pyexn : Type :=
| KeyError (key : string)
| AttributeError (attr : string)
| TypeError (msg : string)
| FileNotFoundError (path : string)
| OtherException (name msg : string).

Inductive pyres (A : Type) : Type :=
| Ok (a : A)
| Raise (e : pyexn).
Arguments Ok {A} a.
Arguments Raise {A} e.

#[global] Instance pyres_ret : MRet pyres := fun A a => Ok a.
#[global] Instance pyres_bind : MBind pyres := fun A B f m =>
  match m with
  | Ok a => f a
  | Raise e => Raise e
  end.

(** [for x in xs: acc = body(acc, x)], leaving the loop at the first
    exception. *)
Fixpoint for_each {A S : Type} (body : S -> A -> pyres S) (xs : list A) (acc : S)
  : pyres S :=
  match xs with
  | [] => Ok acc
  | x :: xs' => acc' ← body acc x; for_each body xs' acc'
  end.

(** [try: body / except Exception: handler] *)
Definition try_except {A : Type} (body : pyres A) (handler : pyexn -> A) : A :=
  match body with
  | Ok a => a
  | Raise e => handler e
  end.

(** ** Python dicts whose order is observed

    Keys stay at the position of their first insertion; assigning to a key
    that is present replaces its value in place. *)

Module PyDict.

Definition t (V : Type) : Type := list (string * V).

Fixpoint set {V : Type} (k : string) (v : V) (d : t V) : t V :=
  match d with
  | [] => [(k, v)]
  | (k', v') :: d' =>
      if decide (k' = k) then (k', v) :: d' else (k', v') :: set k v d'
  end.

Fixpoint get {V : Type} (k : string) (d : t V) : option V :=
  match d with
  | [] => None
  | (k', v') :: d' => if decide (k' = k) then Some v' else get k d'
  end.

(** [d[k]] *)
Definition getitem {V : Type} (k : string) (d : t V) : pyres V :=
  match get k d with
  | Some v => Ok v
  | None => Raise (KeyError k)
  end.

(** [list(d.keys())] *)
Definition keys {V : Type} (d : t V) : list string := map fst d.

(** [list(d.values())] *)
Definition values {V : Type} (d : t V) : list V := map snd d.

(** [k in d] *)
Definition mem {V : Type} (k : string) (d : t V) : bool :=
  bool_decide (k ∈ keys d).

End PyDict.

(** ** Configuration *)

(** [SYMBOL_MAP]: domain identifier to Yahoo Finance ticker. *)
Definition SYMBOL_MAP : PyDict.t string :=
  [("AAGZU00", "CL=F"); ("TS01021", "TI=F"); ("AAIDC00", "HO=F");
   ("AAGJA00", "RB=F"); ("TS01034", "MTF=F"); ("WAUSA00", "ZW=F");
   ("SP500", "^GSPC")].

Definition PROC_DIR : string := "data/processed".
Definition ENRICH_DIR : string := "data/enriched".
Definition TEMPLATE_DIR : string := "templates".
Definition OUTPUT_FILE : string := "index.html".

(** [os.path.join(a, b)] for a relative [b] and an [a] without a trailing
    separator, on POSIX. *)
Definition path_join (a b : string) : string := a +:+ "/" +:+ b.

(** ** Domain records, as [ingest_dunl.py] writes them *)

Record Port : Type := mkPort {
  p_id : string;
  p_name : string;
  p_region : string;
  p_lat : Q;
  p_lng : Q;
  p_dunl_uri : string
}.

Record Benchmark : Type := mkBenchmark {
  b_id : string;
  b_symbol : string;
  b_description : string;
  b_commodity : string;
  b_currency : string;
  b_uom : string;
  b_dunl_uri : string
}.

Record Currency : Type := mkCurrency {
  c_code : string;
  c_label : string;
  c_dunl_uri : string
}.

(** ** Graph records *)

(** The ['group'] tag of a node. *)
Inductive NodeGroup : Type := GBenchmark | GCommodity | GCurrency | GPort.

Record Node : Type := mkNode {
  n_id : string;
  n_label : string;
  n_group : NodeGroup;
  n_title : option string;
  n_value : Z
}.

(** The ['color'] of an edge is a colour name on structural edges and a
    dict of colour and opacity on dynamic links. *)
Inductive EdgeColor : Type :=
| ColorName (c : string)
| ColorSpec (c : string) (opacity : Q).

Record Edge : Type := mkEdge {
  e_from : string;
  e_to : string;
  e_label : option string;
  e_title : option string;
  e_arrows : option string;
  e_color : EdgeColor;
  e_dashes : option bool;
  e_length : option Z
}.

Record Graph : Type := mkGraph {
  g_nodes : list Node;
  g_edges : list Edge
}.

(** ** Entity resolver *)

(** [score > 80] on scores. *)
Definition exceeds (score threshold : Q) : bool := negb (Qle_bool score threshold).

Section Resolver.

(** [fuzz.partial_token_sort_ratio], a score between 0 and 100. *)
Variable scorer : string -> string -> Q.

(** One step of the scan of [process.extractOne]: a choice replaces the
    best one so far only when it scores strictly higher. *)
Definition extract_step (query : string)
    (best : option (string * Q * nat)) (entry : nat * string)
  : option (string * Q * nat) :=
  let '(index, choice) := entry in
  let score := scorer query choice in
  match best with
  | None => Some (choice, score, index)
  | Some (_, best_score, _) =>
      if exceeds score best_score then Some (choice, score, index) else best
  end.

(** [process.extractOne(query, choices, scorer=...)] of rapidfuzz, from
    its documentation: the choice with the highest score, the first one
    among equals, with its score and its index; [None] when there is no
    choice. *)
Definition extractOne (query : string) (choices : list string)
  : option (string * Q * nat) :=
  fold_left (extract_step query) (imap (fun i c => (i, c)) choices) None.

(** [{clean_text(p['name']): p['id'] for p in ports}] *)
Definition port_lookup_of (ports : list Port) : PyDict.t string :=
  fold_left (fun d p => PyDict.set (clean_text (p_name p)) (p_id p) d) ports [].

(** The dict appended to [links]. *)
Definition make_link (bid description port_id best_match_name : string) : Edge :=
  {| e_from := bid;
     e_to := port_id;
     e_label := Some "Pricing Location";
     e_title := Some ("Match Logic: Found '" +:+ best_match_name +:+ "' in '"
                       +:+ description +:+ "'");
     e_arrows := Some "to";
     e_color := ColorSpec "#64748b" (6 # 10);
     e_dashes := Some true;
     e_length := None |}.

(** The loop body from the fuzzy match on, for a benchmark whose
    description has been cleaned to [desc_clean]. *)
Definition match_benchmark (port_lookup : PyDict.t string) (port_names : list string)
    (links : list Edge) (bid description desc_clean : string)
  : pyres (list Edge) :=
  match extractOne desc_clean port_names with
  | Some (best_match_name, score, index) =>
      if exceeds score 80 then
        port_id ← PyDict.getitem best_match_name port_lookup;
        Ok (links ++ [make_link bid description port_id best_match_name])
      else Ok links
  | None => Ok links
  end.

Definition resolve_body (port_lookup : PyDict.t string) (port_names : list string)
    (links : list Edge) (b : Benchmark) : pyres (list Edge) :=
  let desc_clean := clean_text (b_description b) in
  match_benchmark port_lookup port_names links (b_id b) (b_description b) desc_clean.

Definition resolve_logistics_links (benchmarks : list Benchmark) (ports : list Port)
  : pyres (list Edge) :=
  let links := [] in
  let port_lookup := port_lookup_of ports in
  let port_names := PyDict.keys port_lookup in
  for_each (resolve_body port_lookup port_names) benchmarks links.

End Resolver.

(** ** Graph assembler *)

(** The loop state of [build_knowledge_graph]. *)
Record Assembly : Type := mkAssembly {
  nodes : list Node;
  edges : list Edge;
  existing_nodes : gset string
}.

Definition benchmark_node (b : Benchmark) : Node :=
  {| n_id := b_id b;
     n_label := b_symbol b;
     n_group := GBenchmark;
     n_title := Some ("<b>" +:+ b_description b +:+ "</b><br>ID: " +:+ b_id b);
     n_value := 25 |}.

Definition commodity_node (comm_id : string) : Node :=
  {| n_id := comm_id; n_label := comm_id; n_group := GCommodity;
     n_title := None; n_value := 40 |}.

Definition currency_node (code : string) : Node :=
  {| n_id := code; n_label := code; n_group := GCurrency;
     n_title := None; n_value := 15 |}.

Definition port_node (p : Port) : Node :=
  {| n_id := p_id p;
     n_label := PyStr.remove " Disport Charge" (PyStr.remove " Port Charge" (p_name p));
     n_group := GPort;
     n_title := Some ("<b>" +:+ p_name p +:+ "</b><br>Region: " +:+ p_region p);
     n_value := 20 |}.

Definition structural_edge (src dst color : string) (len : option Z) : Edge :=
  {| e_from := src; e_to := dst; e_label := None; e_title := None;
     e_arrows := None; e_color := ColorName color; e_dashes := None;
     e_length := len |}.

(** [if x not in existing_nodes: nodes.append(n); existing_nodes.add(x)] *)
Definition add_if_new (x : string) (n : Node) (st : list Node * gset string)
  : list Node * gset string :=
  if decide (x ∈ st.2) then st else (st.1 ++ [n], st.2 ∪ {[x]}).

(** The body of [for b in benchmarks]. *)
Definition add_benchmark (st : Assembly) (b : Benchmark) : Assembly :=
  if PyDict.mem (b_id b) SYMBOL_MAP then
    let nodes := nodes st ++ [benchmark_node b] in
    let existing := existing_nodes st ∪ {[b_id b]} in
    let comm_id := b_commodity b in
    let '(nodes, existing) :=
      add_if_new comm_id (commodity_node comm_id) (nodes, existing) in
    let edges := edges st ++ [structural_edge comm_id (b_id b) "#f97316" None] in
    let '(nodes, existing) :=
      add_if_new (b_currency b) (currency_node (b_currency b)) (nodes, existing) in
    let edges :=
      edges ++ [structural_edge (b_id b) (b_currency b) "#10b981" (Some 50%Z)] in
    {| nodes := nodes; edges := edges; existing_nodes := existing |}
  else st.

(** The body of [for p in ports]. *)
Definition add_port (linked_port_ids : gset string) (nodes : list Node) (p : Port)
  : list Node :=
  if decide (p_id p ∈ linked_port_ids) then nodes ++ [port_node p] else nodes.

Definition build_knowledge_graph (ports : list Port) (benchmarks : list Benchmark)
    (currencies : list Currency) (dynamic_links : list Edge) : Graph :=
  let st := {| nodes := []; edges := [] ++ dynamic_links; existing_nodes := ∅ |} in
  let st := fold_left add_benchmark benchmarks st in
  let linked_port_ids : gset string := list_to_set (map e_to dynamic_links) in
  let nodes := fold_left (add_port linked_port_ids) ports (nodes st) in
  {| g_nodes := nodes; g_edges := edges st |}.

(** ** Market history fetcher *)

(** A float, by its class: a finite value (held exactly, as a rational),
    an infinity or NaN. *)
Inductive pyfloat : Type :=
| Finite (q : Q)
| PosInf
| NegInf
| NaN.

Definition isnan (x : pyfloat) : bool :=
  match x with NaN => true | _ => false end.

Definition isinf (x : pyfloat) : bool :=
  match x with PosInf | NegInf => true | _ => false end.

(** [Series.round(2)] on a float column is numpy's rounding: on one
    value [x] it is [rint(x * 100) / 100], computed on doubles.  NaN
    gives NaN and an infinity gives itself.  A finite value gives a
    finite value, or, where the product [x * 100] overflows (the
    magnitude of [x] above about 1.797e306), the infinity of the sign of
    [x].  Which finite value it gives depends on the binary
    representation of [x] and on the rounding of the product and of the
    quotient, so it is left to numpy: [round_finite] is that rounding of
    a finite value, [None] where the product overflows. *)
Section Rounding.

Variable round_finite : Q -> option Q.

Definition round2 (x : pyfloat) : pyfloat :=
  match x with
  | Finite q =>
      match round_finite q with
      | Some r => Finite r
      | None => if Qle_bool 0 q then PosInf else NegInf
      end
  | _ => x
  end.

End Rounding.

(** [Series.fillna(method='ffill')]: a NaN takes the last value before it
    that is not NaN; leading NaNs stay. *)
Fixpoint ffill_from (last : option pyfloat) (values : list pyfloat) : list pyfloat :=
  match values with
  | [] => []
  | x :: values' =>
      if isnan x then
        match last with
        | Some v => v :: ffill_from last values'
        | None => x :: ffill_from last values'
        end
      else x :: ffill_from (Some x) values'
  end.

Definition ffill (values : list pyfloat) : list pyfloat := ffill_from None values.

(** [Series.fillna(0)]: NaN becomes 0; an infinity is not a missing value
    for pandas and stays. *)
Definition fillna0 (values : list pyfloat) : list pyfloat :=
  map (fun x => if isnan x then Finite 0 else x) values.

Record MarketHistory : Type := mkMarketHistory {
  dates : list string;
  datasets : PyDict.t (list pyfloat)
}.

Section MarketData.

(** The entries of the frame's [DatetimeIndex], and
    [index.strftime('%b %d')] on one of them. *)
Variable Timestamp : Type.
Variable strftime : Timestamp -> string.

(** A [DataFrame] by rows: every row has its index entry and one value
    for every column name, so every column is as long as the index. *)
Record DataFrame : Type := mkDataFrame {
  df_columns : list string;
  df_rows : list (Timestamp * (string -> pyfloat))
}.

(** [data[ticker]] as a list. *)
Definition df_column (data : DataFrame) (ticker : string) : list pyfloat :=
  map (fun row => row.2 ticker) (df_rows data).

(** [yf.download(tickers, period="3mo", interval="1d",
    progress=False)['Close']]: the frame of closing prices, or the
    exception raised. *)
Variable yf_download : list string -> pyres DataFrame.

(** The rounding of a finite value under [Series.round(2)]. *)
Variable round_finite : Q -> option Q.

(** The body of [for dunl_id, yf_ticker in SYMBOL_MAP.items()]. *)
Definition add_dataset (data : DataFrame) (market_history : MarketHistory)
    (item : string * string) : MarketHistory :=
  let '(dunl_id, yf_ticker) := item in
  if bool_decide (yf_ticker ∈ df_columns data) then
    let clean_data := map (round2 round_finite) (fillna0 (ffill (df_column data yf_ticker))) in
    {| dates := dates market_history;
       datasets := PyDict.set dunl_id clean_data (datasets market_history) |}
  else market_history.

Definition fetch_market_data : MarketHistory :=
  let tickers := PyDict.values SYMBOL_MAP in
  try_except
    (data ← yf_download tickers;
     let index := map (fun row => strftime row.1) (df_rows data) in
     let market_history := {| dates := index; datasets := [] |} in
     Ok (fold_left (add_dataset data) SYMBOL_MAP market_history))
    (fun e => {| dates := []; datasets := [] |}).

End MarketData.

(** ** Final payload and the files between the stages *)

Record Payload : Type := mkPayload {
  pl_ports : list Port;
  pl_benchmarks : list Benchmark;
  pl_market_data : MarketHistory;
  pl_graph : Graph
}.

(** A JSON document of the pipeline, by its shape. *)
Inductive Json : Type :=
| JPorts (ports : list Port)
| JBenchmarks (benchmarks : list Benchmark)
| JCurrencies (currencies : list Currency)
| JPayload (payload : Payload).

Inductive File : Type :=
| JsonFile (doc : Json)
| TextFile (text : string).

(** [with open(path) as f: json.load(f)] *)
Definition load_json (fs : gmap string File) (path : string) : pyres Json :=
  match fs !! path with
  | None => Raise (FileNotFoundError path)
  | Some (JsonFile doc) => Ok doc
  | Some (TextFile _) => Raise (OtherException "JSONDecodeError" path)
  end.

(** The three loads of the enrichment stage.  A document of another shape
    than the one the stage indexes into is reported as [TypeError]. *)
Definition as_ports (doc : Json) : pyres (list Port) :=
  match doc with JPorts l => Ok l | _ => Raise (TypeError "ports") end.

Definition as_benchmarks (doc : Json) : pyres (list Benchmark) :=
  match doc with JBenchmarks l => Ok l | _ => Raise (TypeError "benchmarks") end.

Definition as_currencies (doc : Json) : pyres (list Currency) :=
  match doc with JCurrencies l => Ok l | _ => Raise (TypeError "currencies") end.

Section Pipeline.

Variable scorer : string -> string -> Q.
Variable Timestamp : Type.
Variable strftime : Timestamp -> string.
Variable yf_download : list string -> pyres (DataFrame Timestamp).
Variable round_finite : Q -> option Q.

(** [template.render(payload=payload)] with the template
    [templates/dashboard.html] loaded. *)
Variable render : Json -> string.

(** Steps 1 to 3 of the enrichment script and its [final_payload]. *)
Definition final_payload (ports : list Port) (benchmarks : list Benchmark)
    (currencies : list Currency) : pyres Payload :=
  dynamic_links ← resolve_logistics_links scorer benchmarks ports;
  let market_data := fetch_market_data Timestamp strftime yf_download round_finite in
  let graph_data := build_knowledge_graph ports benchmarks currencies dynamic_links in
  Ok {| pl_ports := ports;
        pl_benchmarks :=
          filter (fun b => PyDict.mem (b_id b) SYMBOL_MAP = true) benchmarks;
        pl_market_data := market_data;
        pl_graph := graph_data |}.

(** The enrichment script: loads, steps, and the dump of the payload. *)
Definition enrich_main (fs : gmap string File) : pyres (gmap string File) :=
  ports ← load_json fs (path_join PROC_DIR "ports.json") ≫= as_ports;
  benchmarks ← load_json fs (path_join PROC_DIR "benchmarks.json") ≫= as_benchmarks;
  currencies ← load_json fs (path_join PROC_DIR "currencies.json") ≫= as_currencies;
  final_payload ← final_payload ports benchmarks currencies;
  Ok (<[path_join ENRICH_DIR "dashboard_payload.json" := JsonFile (JPayload final_payload)]> fs).

(** [generate] of the dashboard renderer. *)
Definition generate (fs : gmap string File) : pyres (gmap string File) :=
  payload ← load_json fs (path_join PROC_DIR "dashboard_data.json");
  let html := render payload in
  Ok (<[OUTPUT_FILE := TextFile html]> fs).

End Pipeline.

(** ** The resolver on records as [json.load] returns them

    The records are those of [ports.json] and [benchmarks.json], which
    the ingestion stage writes: every record has its ['id'], a string,
    and every benchmark its ['symbol'], so the reads [p['id']],
    [b['id']] and [b['symbol']] return.  The two free-text fields the
    resolver cleans are kept as JSON values: a value need not be a
    string, and a key can be absent.  The values are
    the scalars of JSON; arrays and objects, which have no [replace]
    either, are left out. *)

Inductive pyval : Type :=
| PyStr (s : string)
| PyFloat (x : pyfloat)
| PyInt (z : Z)
| PyBool (b : bool)
| PyNone.

Module Raw.

Record Port : Type := mkPort {
  id : string;
  name : option pyval
}.

Record Benchmark : Type := mkBenchmark {
  bid : string;
  symbol : string;
  description : option pyval
}.

(** [d[key]] on a record field. *)
Definition field (key : string) (v : option pyval) : pyres pyval :=
  match v with
  | Some v => Ok v
  | None => Raise (KeyError key)
  end.

(** [clean_text(text)] on any value: only a [str] has [replace]. *)
Definition clean_text (text : pyval) : pyres string :=
  match text with
  | PyStr s => Ok (clean_text s)
  | _ => Raise (AttributeError "replace")
  end.

Section Resolver.

Variable scorer : string -> string -> Q.

(** [{clean_text(p['name']): p['id'] for p in ports}]: the key of an
    item is evaluated before its value. *)
Definition port_lookup_of (ports : list Port) : pyres (PyDict.t string) :=
  for_each
    (fun d p =>
       name ← field "name" (name p);
       key ← clean_text name;
       Ok (PyDict.set key (id p) d))
    ports [].

(** The loop body.  The title of the link formats [b['description']]
    again; [clean_text] has returned by then, so the value is a [str] and
    the last branch is not reached. *)
Definition resolve_body (port_lookup : PyDict.t string) (port_names : list string)
    (links : list Edge) (b : Benchmark) : pyres (list Edge) :=
  description ← field "description" (description b);
  desc_clean ← clean_text description;
  match description with
  | PyStr text =>
      match_benchmark scorer port_lookup port_names links (bid b) text desc_clean
  | _ => Raise (AttributeError "replace")
  end.

Definition resolve_logistics_links (benchmarks : list Benchmark) (ports : list Port)
  : pyres (list Edge) :=
  let links := [] in
  port_lookup ← port_lookup_of ports;
  let port_names := PyDict.keys port_lookup in
  for_each (resolve_body port_lookup port_names) benchmarks links.

End Resolver.

End Raw.

(** A record of the ingestion stage as [json.load] returns it. *)
Definition raw_of_port (p : Port) : Raw.Port :=
  {| Raw.id := p_id p; Raw.name := Some (PyStr (p_name p)) |}.

Definition raw_of_benchmark (b : Benchmark) : Raw.Benchmark :=
  {| Raw.bid := b_id b; Raw.symbol := b_symbol b;
     Raw.description := Some (PyStr (b_description b)) |}.

(** The field is present and holds a string. *)
Definition text_field (v : option pyval) : Prop := exists s, v = Some (PyStr s).

(** ** Record normaliser ([ingest_dunl.py])

    [pd.read_csv] is an external collaborator: it enters as a Section
    variable that gives the rows of a file or raises.  A row is what
    [df.iterrows()] yields: its cells by column name.  A cell is a
    string, a number or a missing value. *)

Module Ingest.

Definition RAW_DIR : string := "data/raw".

(** [PORT_COORDINATES]: identifier to latitude and longitude. *)
Definition PORT_COORDINATES : PyDict.t (Q * Q) :=
  [("TAIPA00", (53600 # 10000, -40083 # 10000));
   ("ALEDC00", (312001 # 10000, 299187 # 10000));
   ("ALGDC00", (361408 # 10000, -54562 # 10000));
   ("TYNPA00", (240891 # 10000, 380637 # 10000));
   ("WILDC00", (535167 # 10000, 81333 # 10000));
   ("TVAPC00", (176868 # 10000, 832185 # 10000));
   ("ROT", (519225 # 10000, 44792 # 10000));
   ("SIN", (13521 # 10000, 1038198 # 10000));
   ("HOU", (297604 # 10000, -953698 # 10000))].

Definition Row : Type := PyDict.t pyval.

(** [pd.isna(v)] on a scalar. *)
Definition isna (v : pyval) : bool :=
  match v with
  | PyNone | PyFloat NaN => true
  | _ => false
  end.

(** [s.split(sep)] for a separator of one character. *)
Fixpoint split (sep : ascii) (s : string) : list string :=
  match s with
  | EmptyString => [EmptyString]
  | String c s' =>
      if decide (c = sep) then EmptyString :: split sep s'
      else
        match split sep s' with
        | seg :: rest => String c seg :: rest
        | [] => [String c EmptyString]
        end
  end.

(** [xs[-1]] *)
Definition last_item {A : Type} (xs : list A) : pyres A :=
  match last xs with
  | Some x => Ok x
  | None => Raise (OtherException "IndexError" "list index out of range")
  end.

(** [clean_dunl_id]: a missing value gives the empty string; a string
    gives what follows its last slash; another value has no [split]. *)
Definition clean_dunl_id (url_id : pyval) : pyres string :=
  if isna url_id then Ok ""
  else
    match url_id with
    | PyStr s => last_item (split "/" s)
    | _ => Raise (AttributeError "split")
    end.

(** [row.get(key, default)] *)
Definition row_get (key : string) (default : pyval) (row : Row) : pyval :=
  match PyDict.get key row with
  | Some v => v
  | None => default
  end.

(** The records the three stages dump. *)
Record PortRecord : Type := mkPortRecord {
  pr_id : string;
  pr_name : pyval;
  pr_region : pyval;
  pr_lat : Q;
  pr_lng : Q;
  pr_dunl_uri : pyval
}.

Record BenchmarkRecord : Type := mkBenchmarkRecord {
  br_id : string;
  br_symbol : pyval;
  br_description : pyval;
  br_commodity : pyval;
  br_currency : pyval;
  br_uom : pyval;
  br_dunl_uri : pyval
}.

Record CurrencyRecord : Type := mkCurrencyRecord {
  cr_code : pyval;
  cr_label : pyval;
  cr_dunl_uri : pyval
}.

(** The body of the loop of [ingest_ports]. *)
Definition ports_body (ports : list PortRecord) (row : Row) : pyres (list PortRecord) :=
  url_id ← PyDict.getitem "ID" row;
  pid ← clean_dunl_id url_id;
  if PyDict.mem pid PORT_COORDINATES then
    coordinates ← PyDict.getitem pid PORT_COORDINATES;
    dunl_uri ← PyDict.getitem "ID" row;
    Ok (ports ++ [{| pr_id := pid;
                     pr_name := row_get "port" (PyStr "Unknown Port") row;
                     pr_region := row_get "region" (PyStr "Global") row;
                     pr_lat := coordinates.1;
                     pr_lng := coordinates.2;
                     pr_dunl_uri := dunl_uri |}])
  else Ok ports.

(** The body of the loop of [ingest_benchmarks]. *)
Definition benchmarks_body (benchmarks : list BenchmarkRecord) (row : Row)
  : pyres (list BenchmarkRecord) :=
  url_id ← PyDict.getitem "ID" row;
  bid ← clean_dunl_id url_id;
  dunl_uri ← PyDict.getitem "ID" row;
  Ok (benchmarks ++ [{| br_id := bid;
                        br_symbol := row_get "symbol" (PyStr "N/A") row;
                        br_description := row_get "description" (PyStr "") row;
                        br_commodity := row_get "commodity" (PyStr "General") row;
                        br_currency := row_get "currency" (PyStr "USD") row;
                        br_uom := row_get "uom" (PyStr "N/A") row;
                        br_dunl_uri := dunl_uri |}]).

(** The body of the loop of [ingest_currencies]. *)
Definition currencies_body (currencies : list CurrencyRecord) (row : Row)
  : pyres (list CurrencyRecord) :=
  dunl_uri ← PyDict.getitem "ID" row;
  Ok (currencies ++ [{| cr_code := row_get "currencyCode" (PyStr "N/A") row;
                        cr_label := row_get "currencyLabel" (PyStr "") row;
                        cr_dunl_uri := dunl_uri |}]).

(** A document of [data/processed] as the ingestion stage dumps it. *)
Inductive Doc : Type :=
| DPorts (ports : list PortRecord)
| DBenchmarks (benchmarks : list BenchmarkRecord)
| DCurrencies (currencies : list CurrencyRecord).

Section Stages.

(** [pd.read_csv(path)]: the rows of the file, or the exception raised
    ([FileNotFoundError] where the file does not exist). *)
Variable read_csv : string -> pyres (list Row).

Definition ingest_ports (fs : gmap string Doc) : pyres (gmap string Doc) :=
  df ← read_csv (path_join RAW_DIR "port_Port Charges Location Data.csv");
  ports ← for_each ports_body df [];
  Ok (<[path_join PROC_DIR "ports.json" := DPorts ports]> fs).

Definition ingest_benchmarks (fs : gmap string Doc) : pyres (gmap string Doc) :=
  df ← read_csv (path_join RAW_DIR "symbols _Platts Benchmarks.csv");
  benchmarks ← for_each benchmarks_body df [];
  Ok (<[path_join PROC_DIR "benchmarks.json" := DBenchmarks benchmarks]> fs).

Definition ingest_currencies (fs : gmap string Doc) : pyres (gmap string Doc) :=
  df ← read_csv (path_join RAW_DIR "currency.csv");
  currencies ← for_each currencies_body df [];
  Ok (<[path_join PROC_DIR "currencies.json" := DCurrencies currencies]> fs).

(** [except FileNotFoundError as e: print(...)]: the exception ends
    there; any other one goes on. *)
Definition except_file_not_found (fs : gmap string Doc) (e : pyexn)
  : gmap string Doc * option pyexn :=
  match e with
  | FileNotFoundError _ => (fs, None)
  | _ => (fs, Some e)
  end.

(** The script: the files when it ends, and the exception it ends with
    if it ends with one. *)
Definition main (fs : gmap string Doc) : gmap string Doc * option pyexn :=
  match ingest_ports fs with
  | Raise e => except_file_not_found fs e
  | Ok fs1 =>
      match ingest_benchmarks fs1 with
      | Raise e => except_file_not_found fs1 e
      | Ok fs2 =>
          match ingest_currencies fs2 with
          | Raise e => except_file_not_found fs2 e
          | Ok fs3 => (fs3, None)
          end
      end
  end.

End Stages.

End Ingest.

(** [clean_dunl_id(row['ID'])] *)
Definition row_id (row : Ingest.Row) : pyres string :=
  PyDict.getitem "ID" row ≫= Ingest.clean_dunl_id.

(** The row has an ID cell, and the cell is missing or is a string. *)
Definition id_readable (row : Ingest.Row) : Prop :=
  exists v, PyDict.get "ID" row = Some v
            /\ (Ingest.isna v = true \/ exists s, v = PyStr s).

(** The cell of the column, where the row has the column, is a string. *)
Definition text_or_absent (key : string) (row : Ingest.Row) : Prop :=
  forall v, PyDict.get key row = Some v -> exists s, v = PyStr s.

(** The cleaned identifier of the row is a key of [PORT_COORDINATES]. *)
Definition located (row : Ingest.Row) : Prop :=
  match row_id row with
  | Ok pid => pid ∈ PyDict.keys Ingest.PORT_COORDINATES
  | Raise _ => False
  end.

#[global] Instance located_dec (row : Ingest.Row) : Decision (located row).
Proof. unfold located. destruct (row_id row); apply _. Defined.

(** What the two loops that keep the row's cells put in a record. *)
Definition port_of_row (row : Ingest.Row) (r : Ingest.PortRecord) : Prop :=
  row_id row = Ok (Ingest.pr_id r)
  /\ PyDict.get (Ingest.pr_id r) Ingest.PORT_COORDINATES
     = Some (Ingest.pr_lat r, Ingest.pr_lng r)
  /\ Ingest.pr_name r = Ingest.row_get "port" (PyStr "Unknown Port") row
  /\ Ingest.pr_region r = Ingest.row_get "region" (PyStr "Global") row
  /\ PyDict.get "ID" row = Some (Ingest.pr_dunl_uri r).

Definition benchmark_of_row (row : Ingest.Row) (r : Ingest.BenchmarkRecord) : Prop :=
  row_id row = Ok (Ingest.br_id r)
  /\ Ingest.br_symbol r = Ingest.row_get "symbol" (PyStr "N/A") row
  /\ Ingest.br_description r = Ingest.row_get "description" (PyStr "") row
  /\ Ingest.br_commodity r = Ingest.row_get "commodity" (PyStr "General") row
  /\ Ingest.br_currency r = Ingest.row_get "currency" (PyStr "USD") row
  /\ Ingest.br_uom r = Ingest.row_get "uom" (PyStr "N/A") row
  /\ PyDict.get "ID" row = Some (Ingest.br_dunl_uri r).

(** A record of [benchmarks.json] as the resolver reads it. *)
Definition read_as (r : Ingest.BenchmarkRecord) (b : Raw.Benchmark) : Prop :=
  Raw.bid b = Ingest.br_id r /\ Raw.description b = Some (Ingest.br_description r).

(** Sample rows of the three files. *)
Module SampleRows.

Definition ports : list Ingest.Row :=
  [[("ID", PyStr "https://dunl.org/port/SIN"); ("port", PyStr "Singapore");
    ("region", PyStr "Asia")];
   [("ID", PyFloat NaN); ("port", PyStr "Nowhere"); ("region", PyFloat NaN)];
   [("ID", PyStr "https://dunl.org/port/XXX"); ("port", PyStr "Atlantis");
    ("region", PyStr "Sea")];
   [("ID", PyStr "ROT"); ("port", PyFloat NaN)]].

Definition port_records : list Ingest.PortRecord :=
  [Ingest.mkPortRecord "SIN" (PyStr "Singapore") (PyStr "Asia")
     (13521 # 10000) (1038198 # 10000) (PyStr "https://dunl.org/port/SIN");
   Ingest.mkPortRecord "ROT" (PyFloat NaN) (PyStr "Global")
     (519225 # 10000) (44792 # 10000) (PyStr "ROT")].

Definition benchmarks : list Ingest.Row :=
  [[("ID", PyStr "https://dunl.org/symbol/AAGZU00"); ("symbol", PyStr "CRUDE-SIN");
    ("description", PyStr "Crude CIF Singapore"); ("currency", PyStr "USD")];
   [("ID", PyStr "https://dunl.org/symbol/B2"); ("symbol", PyStr "GO-ROT");
    ("description", PyFloat NaN); ("currency", PyStr "EUR")]].

Definition benchmark_records : list Ingest.BenchmarkRecord :=
  [Ingest.mkBenchmarkRecord "AAGZU00" (PyStr "CRUDE-SIN") (PyStr "Crude CIF Singapore")
     (PyStr "General") (PyStr "USD") (PyStr "N/A")
     (PyStr "https://dunl.org/symbol/AAGZU00");
   Ingest.mkBenchmarkRecord "B2" (PyStr "GO-ROT") (PyFloat NaN)
     (PyStr "General") (PyStr "EUR") (PyStr "N/A")
     (PyStr "https://dunl.org/symbol/B2")].

(** [benchmark_records] and a port as [json.load] returns them to the
    resolver. *)
Definition raw_benchmarks : list Raw.Benchmark :=
  [Raw.mkBenchmark "AAGZU00" "CRUDE-SIN" (Some (PyStr "Crude CIF Singapore"));
   Raw.mkBenchmark "B2" "GO-ROT" (Some (PyFloat NaN))].

Definition raw_ports : list Raw.Port :=
  [Raw.mkPort "SIN" (Some (PyStr "Singapore"))].

(** [read_csv] where only the ports file exists. *)
Definition only_ports (path : string) : pyres (list Ingest.Row) :=
  if decide (path = "data/raw/port_Port Charges Location Data.csv") then Ok ports
  else Raise (FileNotFoundError path).

End SampleRows.

(** ** Test doubles for the scorer *)

(** 100 when one string occurs in the other and 0 otherwise. *)
Definition substring_scorer (a b : string) : Q :=
  if PyStr.occurs a b || PyStr.occurs b a then 100 else 0.

(** The same score whatever the strings. *)
Definition const_scorer (score : Q) (a b : string) : Q := score.

(** Steps 1 and 3 of the enrichment script on the same lists. *)
Definition resolve_then_build (scorer : string -> string -> Q)
    (ports : list Port) (benchmarks : list Benchmark) (currencies : list Currency)
  : pyres Graph :=
  dynamic_links ← resolve_logistics_links scorer benchmarks ports;
  Ok (build_knowledge_graph ports benchmarks currencies dynamic_links).

(** ** Sample records *)

Module Sample.

Definition sin : Port :=
  mkPort "SIN" "Singapore" "Asia" (13521 # 10000) (1038198 # 10000)
    "https://dunl.org/port/SIN".

Definition rot : Port :=
  mkPort "ROT" "Rotterdam" "Europe" (519225 # 10000) (44792 # 10000)
    "https://dunl.org/port/ROT".

Definition sin_again : Port :=
  mkPort "SIN" "Singapore Port Charge" "Asia" (13521 # 10000) (1038198 # 10000)
    "https://dunl.org/port/SIN".

(** A benchmark whose identifier is not a key of [SYMBOL_MAP]. *)
Definition gasoil_sin : Benchmark :=
  mkBenchmark "B1" "GO-SIN" "Gasoil FOB Singapore Cargo" "GASOIL" "USD" "BBL"
    "https://dunl.org/symbol/B1".

(** Benchmarks whose identifiers are keys of [SYMBOL_MAP]. *)
Definition crude_sin : Benchmark :=
  mkBenchmark "AAGZU00" "CRUDE-SIN" "Crude CIF Singapore" "CRUDE" "USD" "BBL"
    "https://dunl.org/symbol/AAGZU00".

Definition sp500 : Benchmark :=
  mkBenchmark "SP500" "SPX" "S&P 500 Index" "EQUITY" "USD" "PTS"
    "https://dunl.org/symbol/SP500".

Definition sp500_again : Benchmark :=
  mkBenchmark "SP500" "SPX-2" "S&P 500 Index, second row" "EQUITY" "USD" "PTS"
    "https://dunl.org/symbol/SP500".

(** A benchmark whose currency code is spelled like a port identifier. *)
Definition sp500_in_sin : Benchmark :=
  mkBenchmark "SP500" "SPX" "S&P 500 Index" "EQUITY" "SIN" "PTS"
    "https://dunl.org/symbol/SP500".

End Sample.

(** Sample frames of closing prices, a failing download and sample files. *)
Module SampleData.

Definition frame_with_gaps : DataFrame string :=
  {| df_columns := ["CL=F"; "^GSPC"];
     df_rows :=
       [("Jan 02", fun t => if decide (t = "CL=F") then NaN else Finite (470012 # 100));
        ("Jan 03", fun t => if decide (t = "CL=F") then Finite (7123 # 100) else NaN);
        ("Jan 04", fun t => if decide (t = "CL=F") then NaN else Finite (4710 # 1))] |}.


Definition offline (tickers : list string) : pyres (DataFrame string) :=
  Raise (OtherException "ConnectionError" "offline").

(** The files the ingestion stage leaves. *)
Definition processed : gmap string File :=
  <["data/processed/ports.json" := JsonFile (JPorts [Sample.sin])]>
  (<["data/processed/benchmarks.json" := JsonFile (JBenchmarks [Sample.crude_sin])]>
  (<["data/processed/currencies.json" := JsonFile (JCurrencies [])]> ∅)).

(** The payload of the enrichment stage on these files when the
    download fails, and the files after the stage. *)
Definition payload : Payload :=
  {| pl_ports := [Sample.sin];
     pl_benchmarks := [Sample.crude_sin];
     pl_market_data := {| dates := []; datasets := [] |};
     pl_graph :=
       {| g_nodes :=
            [benchmark_node Sample.crude_sin; commodity_node "CRUDE";
             currency_node "USD"; port_node Sample.sin];
          g_edges :=
            [make_link "AAGZU00" "Crude CIF Singapore" "SIN" "Singapore";
             structural_edge "CRUDE" "AAGZU00" "#f97316" None;
             structural_edge "AAGZU00" "USD" "#10b981" (Some 50%Z)] |} |}.

Definition enriched : gmap string File :=
  <["data/enriched/dashboard_payload.json" := JsonFile (JPayload payload)]> processed.

End SampleData.

(** Sample files for the renderer. *)
Module SampleFiles.

Definition with_dashboard_data : gmap string File :=
  <["data/processed/dashboard_data.json" := JsonFile (JPayload SampleData.payload)]> ∅.

Definition rendered : gmap string File :=
  <["index.html" := TextFile "<html></html>"]> with_dashboard_data.

End SampleFiles.

(** ** A stand-in for the rounding *)

(** The nearest integer of a rational, halves to the even one. *)
Definition rint (q : Q) : Z :=
  let f := Qfloor q in
  match Qcompare (q - inject_Z f) (1 # 2) with
  | Lt => f
  | Gt => (f + 1)%Z
  | Eq => if Z.even f then f else (f + 1)%Z
  end.

(** The rounding computed on the rational: scale by 100, [rint], scale
    back, never an overflow.  It is not numpy's rounding in general (a
    double such as 71.235 or 1e307 is rounded otherwise); it agrees with
    it on the values of the samples, which have at most two decimal
    places and are small, and it is used on the samples only. *)
Definition round_finite_exact (q : Q) : option Q :=
  Some (inject_Z (rint (q * 100)) / 100)%Q.

(** ** Predicates of the statements *)

Section ResolverPredicates.

Variable scorer : string -> string -> Q.

(** The similarity of a benchmark's cleaned description and a port's
    cleaned name. *)
Definition score_of (b : Benchmark) (p : Port) : Q :=
  scorer (clean_text (b_description b)) (clean_text (p_name p)).

(** [p] is a port of [ports] whose score against [b] is the highest. *)
Definition best_port (ports : list Port) (b : Benchmark) (p : Port) : Prop :=
  p ∈ ports /\ forall p', p' ∈ ports -> (score_of b p' <= score_of b p)%Q.

(** What the resolver emits for one benchmark: a link exactly when the
    highest score exceeds 80, none when no score exceeds 80, and a link
    that goes from the benchmark to a best port. *)
Definition emission (ports : list Port) (b : Benchmark) (o : option Edge) : Prop :=
  (is_Some o <-> exists p, best_port ports b p /\ (80 < score_of b p)%Q)
  /\ ((forall p, p ∈ ports -> (score_of b p <= 80)%Q) -> o = None)
  /\ (forall l, o = Some l ->
       e_from l = b_id b
       /\ exists p, best_port ports b p /\ e_to l = p_id p
                    /\ (80 < score_of b p)%Q).

End ResolverPredicates.

(** The identifiers of the nodes of a graph. *)
Definition node_ids (g : Graph) : list string := map n_id (g_nodes g).

(** No edge of the graph dangles. *)
Definition no_dangling (g : Graph) : Prop :=
  forall e, e ∈ g_edges g -> e_from e ∈ node_ids g /\ e_to e ∈ node_ids g.

(** The graph has a node with this identifier; a port node with it. *)
Definition has_node (g : Graph) (x : string) : Prop :=
  exists n, n ∈ g_nodes g /\ n_id n = x.

Definition has_port_node (g : Graph) (x : string) : Prop :=
  exists n, n ∈ g_nodes g /\ n_id n = x /\ n_group n = GPort.

(** The identifier is the target of a dynamic link. *)
Definition link_target (dynamic_links : list Edge) (x : string) : Prop :=
  exists l, l ∈ dynamic_links /\ e_to l = x.


Definition inf_free (values : list pyfloat) : Prop :=
  Forall (fun x => isinf x = false) values.

(** Identifiers in [existing_nodes] are identifiers of nodes. *)
Definition existing_are_nodes (st : Assembly) : Prop :=
  forall x, x ∈ existing_nodes st -> x ∈ map n_id (nodes st).

(** The benchmark's identifier is a key of [SYMBOL_MAP]. *)
Definition listed (b : Benchmark) : Prop := PyDict.mem (b_id b) SYMBOL_MAP = true.

#[global] Instance listed_dec (b : Benchmark) : Decision (listed b).
Proof. unfold listed. apply _. Defined.

(** The identifiers of the nodes are distinct and [existing_nodes] holds
    exactly them. *)
Definition ids_tracked (ns : list Node) (ex : gset string) : Prop :=
  NoDup (map n_id ns) /\ forall y, y ∈ ex <-> y ∈ map n_id ns.

(** The two structural edges of a benchmark of [SYMBOL_MAP]. *)
Definition structural_edges (b : Benchmark) : list Edge :=
  [structural_edge (b_commodity b) (b_id b) "#f97316" None;
   structural_edge (b_id b) (b_currency b) "#10b981" (Some 50%Z)].

(** The node is one of the three nodes a benchmark can give. *)
Definition benchmark_part (b : Benchmark) (n : Node) : Prop :=
  n = benchmark_node b \/ n = commodity_node (b_commodity b)
  \/ n = currency_node (b_currency b).

(** The ['value'] of the nodes of a group. *)
Definition group_value (g : NodeGroup) : Z :=
  match g with
  | GBenchmark => 25
  | GCommodity => 40
  | GCurrency => 15
  | GPort => 20
  end.

(** The node is of a group that [existing_nodes] guards. *)
Definition deduplicated (n : Node) : Prop :=
  n_group n = GCommodity \/ n_group n = GCurrency.

(** No node of a guarded group repeats the identifier of a node before
    it. *)
Definition kept_once (ns : list Node) : Prop :=
  forall i n, ns !! i = Some n -> deduplicated n -> n_id n ∉ map n_id (take i ns).

(** The symbol's ticker is a column of the frame; the dataset of a
    symbol is the cleaned column of its ticker. *)
Definition downloaded (Timestamp : Type) (data : DataFrame Timestamp)
    (item : string * string) : Prop :=
  item.2 ∈ df_columns Timestamp data.

#[global] Instance downloaded_dec (Timestamp : Type) (data : DataFrame Timestamp)
    (item : string * string) : Decision (downloaded Timestamp data item).
Proof. unfold downloaded. apply _. Defined.

Definition dataset_of (Timestamp : Type) (round_finite : Q -> option Q)
    (data : DataFrame Timestamp) (item : string * string) : string * list pyfloat :=
  (item.1, map (round2 round_finite) (fillna0 (ffill (df_column Timestamp data item.2)))).

(** The last value of the list that is not NaN. *)
Definition last_observed (values : list pyfloat) : option pyfloat :=
  last (filter (fun x => isnan x = false) values).

(** * Properties *)

(** ** Text normaliser *)

Example clean_text_gasoil :
  clean_text "Gasoil FOB Spore Cargo" = "Gasoil  Spore".
Proof. reflexivity. Qed.

Example clean_text_port_charge :
  clean_text " Rotterdam Port Charge." = "Rotterdam".
Proof. reflexivity. Qed.

Module PyStrFacts.
Import PyStr.

Lemma occurs_cons old c s :
  occurs old (String c s) = String.prefix old (String c s) || occurs old s.
Proof. reflexivity. Qed.

(** Nothing to remove: [replace] returns the string as it is. *)
Lemma remove_absent old s : occurs old s = false -> remove old s = s.
Proof.
  unfold remove. induction s as [|c s IH]; [reflexivity|].
  rewrite occurs_cons. intros [Hp Ho]%orb_false_iff.
  cbn [remove_scan]. rewrite Hp. f_equal. exact (IH Ho).
Qed.

Lemma prefix_dot c s :
  String.prefix "." (String c s) = bool_decide (c = "."%char).
Proof.
  change (String.prefix "." (String c s))
    with (if ascii_dec "." c then String.prefix "" s else false).
  destruct (ascii_dec "." c) as [<-|Hne].
  - destruct s; reflexivity.
  - rewrite bool_decide_eq_false_2; [reflexivity|congruence].
Qed.

(** A scan only drops characters, so it brings no period in. *)
Lemma remove_scan_no_dot old k s :
  occurs "." s = false -> occurs "." (remove_scan old k s) = false.
Proof.
  revert k. induction s as [|c s IH]; intros k; [intros _; reflexivity|].
  rewrite occurs_cons. intros [Hp Ho]%orb_false_iff.
  cbn [remove_scan]. destruct k as [|k]; [|exact (IH _ Ho)].
  destruct (String.prefix old (String c s)); [exact (IH _ Ho)|].
  rewrite occurs_cons, (IH _ Ho), orb_false_r.
  rewrite prefix_dot in Hp |- *. exact Hp.
Qed.

Lemma remove_dot_no_dot s : occurs "." (remove "." s) = false.
Proof.
  unfold remove. induction s as [|c s IH]; [reflexivity|].
  cbn [remove_scan]. rewrite prefix_dot. case_bool_decide as Hc.
  - exact IH.
  - rewrite occurs_cons, IH, orb_false_r, prefix_dot.
    by apply bool_decide_eq_false_2.
Qed.

Lemma lstrip_no_dot s : occurs "." s = false -> occurs "." (lstrip s) = false.
Proof.
  induction s as [|c s IH]; [intros _; reflexivity|].
  intros H. cbn [lstrip]. destruct (isspace c); [|exact H].
  rewrite occurs_cons in H. apply orb_false_iff in H as [_ Ho]. exact (IH Ho).
Qed.

Lemma rstrip_no_dot s : occurs "." s = false -> occurs "." (rstrip s) = false.
Proof.
  induction s as [|c s IH]; [intros _; reflexivity|].
  rewrite occurs_cons, prefix_dot. intros [Hp Ho]%orb_false_iff.
  cbn [rstrip]. specialize (IH Ho). destruct (rstrip s) as [|d r].
  - destruct (isspace c); [reflexivity|].
    rewrite occurs_cons, prefix_dot, Hp. reflexivity.
  - rewrite occurs_cons, prefix_dot, Hp. exact IH.
Qed.

Lemma strip_no_dot s : occurs "." s = false -> occurs "." (strip s) = false.
Proof. intros H. apply rstrip_no_dot, lstrip_no_dot, H. Qed.

Lemma rstrip_idem s : rstrip (rstrip s) = rstrip s.
Proof.
  induction s as [|c s IH]; [reflexivity|].
  cbn [rstrip]. destruct (rstrip s) as [|d r] eqn:Hr.
  - destruct (isspace c) eqn:Hc; [reflexivity|]. cbn. rewrite Hc. reflexivity.
  - cbn [rstrip]. cbn [rstrip] in IH. rewrite IH. reflexivity.
Qed.

(** What [lstrip] leaves does not start with white space. *)
Lemma lstrip_head s :
  lstrip s = "" \/ exists c r, lstrip s = String c r /\ isspace c = false.
Proof.
  induction s as [|c s IH]; [left; reflexivity|].
  cbn [lstrip]. destruct (isspace c) eqn:Hc; [exact IH|].
  right. exists c, s. split; [reflexivity|exact Hc].
Qed.

Lemma lstrip_rstrip_head c r :
  isspace c = false -> lstrip (rstrip (String c r)) = rstrip (String c r).
Proof.
  intros Hc. cbn [rstrip]. destruct (rstrip r); rewrite ?Hc; cbn; rewrite Hc;
    reflexivity.
Qed.

Lemma strip_idem s : strip (strip s) = strip s.
Proof.
  unfold strip. destruct (lstrip_head s) as [->|(c & r & -> & Hc)];
    [reflexivity|].
  rewrite lstrip_rstrip_head by exact Hc. apply rstrip_idem.
Qed.

End PyStrFacts.

(** Removing the noise words from a text that holds none of them changes
    nothing. *)
Lemma remove_words_absent (words : list string) (t : string) :
  Forall (fun w => PyStr.occurs w t = false) words ->
  fold_left (fun t word => PyStr.remove word t) words t = t.
Proof.
  induction 1 as [|w words Hw _ IH]; [reflexivity|].
  cbn [fold_left]. rewrite (PyStrFacts.remove_absent _ _ Hw). exact IH.
Qed.

Lemma remove_words_no_dot (words : list string) (t : string) :
  PyStr.occurs "." t = false ->
  PyStr.occurs "." (fold_left (fun t word => PyStr.remove word t) words t) = false.
Proof.
  revert t. induction words as [|w words IH]; intros t Ht; [exact Ht|].
  cbn [fold_left]. apply IH, PyStrFacts.remove_scan_no_dot, Ht.
Qed.

(** The output of [clean_text] holds no period. *)
Lemma clean_text_no_dot (s : string) : PyStr.occurs "." (clean_text s) = false.
Proof.
  unfold clean_text. apply PyStrFacts.strip_no_dot, remove_words_no_dot,
    PyStrFacts.remove_dot_no_dot.
Qed.

Lemma clean_text_stripped (s : string) : PyStr.strip (clean_text s) = clean_text s.
Proof. unfold clean_text. apply PyStrFacts.strip_idem. Qed.

(** C3, as stated, fails: deleting the occurrence of FOB inside FFOBOB
    joins the characters around it into a new FOB, which the single scan
    of [replace] does not see; cleaning the result again deletes it. *)
Lemma clean_text_not_idempotent :
  clean_text (clean_text "FFOBOB") <> clean_text "FFOBOB".
Proof. vm_compute. discriminate. Qed.

(** C3, amended: [clean_text (clean_text s) = clean_text s] for every [s]
    whose cleaned form contains none of the noise words. *)
Theorem clean_text_idempotent_when_clean (s : string) :
  Forall (fun w => PyStr.occurs w (clean_text s) = false) noise_words ->
  clean_text (clean_text s) = clean_text s.
Proof.
  intros Hclean. unfold clean_text at 1.
  rewrite (PyStrFacts.remove_absent "." _ (clean_text_no_dot s)).
  rewrite (remove_words_absent _ _ Hclean).
  apply clean_text_stripped.
Qed.

Lemma clean_text_idempotent_when_clean_witness :
  Forall (fun w => PyStr.occurs w (clean_text "Gasoil FOB Spore Cargo") = false)
    noise_words
  /\ clean_text (clean_text "Gasoil FOB Spore Cargo")
     = clean_text "Gasoil FOB Spore Cargo".
Proof.
  assert (H : Forall (fun w => PyStr.occurs w (clean_text "Gasoil FOB Spore Cargo") = false)
                noise_words).
  { repeat constructor. }
  split; [exact H|].
  exact (clean_text_idempotent_when_clean "Gasoil FOB Spore Cargo" H).
Defined.

(** ** Error monad and dicts *)

Lemma for_each_app {A S : Type} (body : S -> A -> pyres S) (xs ys : list A) (acc : S) :
  for_each body (xs ++ ys) acc = for_each body xs acc ≫= for_each body ys.
Proof.
  revert acc. induction xs as [|x xs IH]; intros acc; [reflexivity|].
  cbn [for_each app]. destruct (body acc x) as [acc'|e]; cbn; [apply IH|reflexivity].
Qed.

Module PyDictFacts.
Import PyDict.

Section Facts.
Context {V : Type}.
Implicit Types (d : t V) (k : string) (v : V).

Lemma keys_set k v d k' : k' ∈ keys (set k v d) <-> k' = k \/ k' ∈ keys d.
Proof.
  unfold keys. induction d as [|[k0 v0] d IH]; cbn [set map fst].
  - rewrite list_elem_of_singleton, elem_of_nil. tauto.
  - destruct (decide (k0 = k)) as [->|Hne]; cbn [map fst];
      rewrite !elem_of_cons; [tauto|]. rewrite IH. tauto.
Qed.

Lemma get_set k v d k' :
  get k' (set k v d) = if decide (k = k') then Some v else get k' d.
Proof.
  induction d as [|[k0 v0] d IH]; cbn [set get].
  - destruct (decide (k = k')); reflexivity.
  - destruct (decide (k0 = k)) as [->|Hne]; cbn [get].
    + destruct (decide (k = k')); reflexivity.
    + rewrite IH. destruct (decide (k0 = k')) as [->|]; [|reflexivity].
      rewrite decide_False by congruence. reflexivity.
Qed.

Lemma get_is_Some k d : is_Some (get k d) <-> k ∈ keys d.
Proof.
  unfold keys. induction d as [|[k0 v0] d IH]; cbn [get map fst].
  - rewrite elem_of_nil. split; [intros [? [=]]|tauto].
  - rewrite elem_of_cons. destruct (decide (k0 = k)) as [->|Hne].
    + split; eauto.
    + rewrite IH. split; [tauto|]. intros [->|H]; [congruence|exact H].
Qed.

Lemma mem_true k d : mem k d = true <-> k ∈ keys d.
Proof. unfold mem. apply bool_decide_eq_true. Qed.

End Facts.
End PyDictFacts.

(** ** Entity resolver *)

Lemma exceeds_true (score threshold : Q) :
  exceeds score threshold = true <-> (threshold < score)%Q.
Proof.
  unfold exceeds. rewrite negb_true_iff, <- not_true_iff_false, Qle_bool_iff.
  split; [apply Qnot_le_lt|apply Qlt_not_le].
Qed.

Lemma exceeds_false (score threshold : Q) :
  exceeds score threshold = false <-> (score <= threshold)%Q.
Proof. unfold exceeds. rewrite negb_false_iff. apply Qle_bool_iff. Qed.

Example exactly_80_does_not_exceed : exceeds 80 80 = false.
Proof. reflexivity. Qed.

Section ResolverFacts.

Variable scorer : string -> string -> Q.

(** The scan of [extractOne] keeps a choice of the list with its own
    score, and no entry scores higher. *)
Lemma extract_fold (query : string) (entries : list (nat * string))
    (best : option (string * Q * nat)) :
  (forall n s i, best = Some (n, s, i) -> s = scorer query n) ->
  match fold_left (extract_step scorer query) entries best with
  | None => best = None /\ entries = []
  | Some (n, s, i) =>
      s = scorer query n
      /\ (best = Some (n, s, i) \/ (i, n) ∈ entries)
      /\ (forall e, e ∈ entries -> (scorer query e.2 <= s)%Q)
      /\ (forall n0 s0 i0, best = Some (n0, s0, i0) -> (s0 <= s)%Q)
  end.
Proof.
  revert best. induction entries as [|[i0 c0] entries IH]; intros best Hbest.
  - cbn. destruct best as [[[n s] i]|]; [|done].
    split_and!; [eauto|by left|by intros ? ?%elem_of_nil|].
    intros ??? [= <- <- <-]. apply Qle_refl.
  - cbn [fold_left]. set (best' := extract_step scorer query best (i0, c0)).
    assert (Hbest' : forall n s i, best' = Some (n, s, i) -> s = scorer query n).
    { subst best'. cbn. destruct best as [[[n1 s1] i1]|].
      - destruct (exceeds _ s1); [by intros ??? [= <- <- <-]|exact Hbest].
      - by intros ??? [= <- <- <-]. }
    specialize (IH best' Hbest').
    destruct (fold_left _ entries best') as [[[n s] i]|].
    + destruct IH as (Hs & Hfrom & Hmax & Hge). split; [exact Hs|].
      assert (Hc0 : (scorer query c0 <= s)%Q /\
                    (forall n0 s0 i1, best = Some (n0, s0, i1) -> (s0 <= s)%Q) /\
                    (best' = Some (n, s, i) -> best = Some (n, s, i) \/ (i, n) = (i0, c0))).
      { subst best'. cbn in Hge |- *. destruct best as [[[n1 s1] i1]|].
        - destruct (exceeds (scorer query c0) s1) eqn:Hex.
          + apply exceeds_true in Hex. split_and!.
            * by eapply Hge.
            * intros ??? [= <- <- <-]. eapply Qle_trans; [apply Qlt_le_weak, Hex|].
              by eapply Hge.
            * intros [= <- <- <-]. by right.
          + apply exceeds_false in Hex. split_and!.
            * eapply Qle_trans; [exact Hex|]. by eapply Hge.
            * exact Hge.
            * by left.
        - split_and!; [by eapply Hge|done|]. intros [= <- <- <-]. by right. }
      destruct Hc0 as (Hc0 & Hge0 & Hfrom0). split_and!.
      * destruct Hfrom as [Hb|Hin].
        -- destruct (Hfrom0 Hb) as [Hb'|Heq]; [by left|].
           right. rewrite Heq. apply elem_of_cons. by left.
        -- right. apply elem_of_cons. by right.
      * intros e [-> | He]%elem_of_cons; [exact Hc0|exact (Hmax e He)].
      * exact Hge0.
    + destruct IH as [Hnone _]. subst best'. cbn in Hnone.
      destruct best as [[[n1 s1] i1]|]; [destruct (exceeds _ s1)|]; discriminate.
Qed.

Lemma extractOne_None (query : string) (choices : list string) :
  extractOne scorer query choices = None <-> choices = [].
Proof.
  unfold extractOne. split; [|intros ->; reflexivity].
  intros H. pose proof (extract_fold query (imap (fun i c => (i, c)) choices) None) as F.
  rewrite H in F. destruct F as [_ F]; [done|].
  destruct choices; [reflexivity|discriminate].
Qed.

Lemma extractOne_Some (query : string) (choices : list string) n s i :
  extractOne scorer query choices = Some (n, s, i) ->
  s = scorer query n /\ choices !! i = Some n
  /\ forall n', n' ∈ choices -> (scorer query n' <= s)%Q.
Proof.
  unfold extractOne. intros H.
  pose proof (extract_fold query (imap (fun i c => (i, c)) choices) None) as F.
  rewrite H in F. destruct F as (Hs & Hfrom & Hmax & _); [done|].
  split; [exact Hs|]. split.
  - destruct Hfrom as [[=]|Hin].
    apply elem_of_lookup_imap in Hin as (j & y & [= -> ->] & Hj). exact Hj.
  - intros n' [j Hj]%list_elem_of_lookup.
    apply (Hmax (j, n')). apply elem_of_lookup_imap. eauto.
Qed.

End ResolverFacts.

Section ResolverClaims.

Variable scorer : string -> string -> Q.

Lemma port_lookup_snoc (ports : list Port) (p : Port) :
  port_lookup_of (ports ++ [p])
  = PyDict.set (clean_text (p_name p)) (p_id p) (port_lookup_of ports).
Proof. unfold port_lookup_of. rewrite fold_left_app. reflexivity. Qed.

Lemma port_lookup_keys (ports : list Port) (n : string) :
  n ∈ PyDict.keys (port_lookup_of ports)
  <-> exists p, p ∈ ports /\ clean_text (p_name p) = n.
Proof.
  induction ports as [|p ports IH] using rev_ind.
  - cbn. rewrite elem_of_nil. split; [tauto|]. by intros (p & ?%elem_of_nil & _).
  - rewrite port_lookup_snoc, PyDictFacts.keys_set, IH. split.
    + intros [-> | (q & Hq & Hn)].
      * exists p. split; [apply elem_of_app; right; by apply list_elem_of_singleton|done].
      * exists q. split; [apply elem_of_app; by left|done].
    + intros (q & [Hq | ->%list_elem_of_singleton]%elem_of_app & Hn); eauto.
Qed.

(** The identifier found under a name is the identifier of a port with
    that cleaned name. *)
Lemma port_lookup_get (ports : list Port) (n pid : string) :
  PyDict.get n (port_lookup_of ports) = Some pid ->
  exists p, p ∈ ports /\ clean_text (p_name p) = n /\ p_id p = pid.
Proof.
  induction ports as [|p ports IH] using rev_ind; [discriminate|].
  rewrite port_lookup_snoc, PyDictFacts.get_set.
  destruct (decide (clean_text (p_name p) = n)) as [Hn|Hn].
  - intros [= <-]. exists p.
    split; [apply elem_of_app; right; by apply list_elem_of_singleton|done].
  - intros (q & Hq & Hq')%IH. exists q. split; [apply elem_of_app; by left|done].
Qed.

(** Two ports with one cleaned name: the later one is the one found. *)
Lemma port_lookup_last_wins (ports : list Port) (p : Port) :
  PyDict.get (clean_text (p_name p)) (port_lookup_of (ports ++ [p])) = Some (p_id p).
Proof. rewrite port_lookup_snoc, PyDictFacts.get_set, decide_True; done. Qed.

(** One turn of the loop appends what [emission] describes. *)
Lemma resolve_body_emission (ports : list Port) (links : list Edge) (b : Benchmark) :
  exists o : option Edge,
    resolve_body scorer (port_lookup_of ports)
      (PyDict.keys (port_lookup_of ports)) links b = Ok (links ++ option_list o)
    /\ emission scorer ports b o.
Proof.
  unfold resolve_body, match_benchmark.
  destruct (extractOne scorer _ _) as [[[n s] i]|] eqn:Hex.
  - apply extractOne_Some in Hex as (Hs & Hi & Hmax).
    assert (Hn : n ∈ PyDict.keys (port_lookup_of ports))
      by (apply list_elem_of_lookup; eauto).
    assert (Hle : forall p, p ∈ ports -> (score_of scorer b p <= s)%Q).
    { intros p Hp. apply Hmax, port_lookup_keys. eauto. }
    destruct (exceeds s 80) eqn:H80.
    + apply exceeds_true in H80.
      apply PyDictFacts.get_is_Some in Hn as [pid Hpid].
      unfold PyDict.getitem. rewrite Hpid. cbn.
      destruct (port_lookup_get _ _ _ Hpid) as (p & Hp & Hpn & Hpi).
      assert (Hsp : s = score_of scorer b p) by (unfold score_of; congruence).
      assert (Hbest : best_port scorer ports b p).
      { split; [exact Hp|]. intros p' Hp'. rewrite <- Hsp. exact (Hle p' Hp'). }
      eexists (Some _). split; [reflexivity|]. split_and!.
      * split; [|eauto]. intros _. exists p. split; [exact Hbest|by rewrite <- Hsp].
      * intros Hall. exfalso. apply (Qlt_irrefl 80).
        eapply Qlt_le_trans; [exact H80|]. rewrite Hsp. exact (Hall p Hp).
      * intros l [= <-]. split; [reflexivity|]. exists p.
        split_and!; [exact Hbest|by symmetry|by rewrite <- Hsp].
    + apply exceeds_false in H80. exists None. rewrite app_nil_r.
      split; [reflexivity|]. split_and!; [|done|done].
      split; [by intros [? [=]]|]. intros (p & [Hp _] & Hlt). exfalso.
      apply (Qlt_irrefl 80). eapply Qlt_le_trans; [exact Hlt|].
      eapply Qle_trans; [exact (Hle p Hp)|exact H80].
  - apply extractOne_None in Hex. exists None. rewrite app_nil_r.
    split; [reflexivity|]. split_and!; [|done|done].
    split; [by intros [? [=]]|]. intros (p & [Hp _] & _). exfalso.
    assert (Hk : clean_text (p_name p) ∈ PyDict.keys (port_lookup_of ports))
      by (apply port_lookup_keys; eauto).
    rewrite Hex in Hk. by apply elem_of_nil in Hk.
Qed.

Lemma resolve_loop_emission (ports : list Port) (benchmarks : list Benchmark)
    (links : list Edge) :
  exists emitted : list (option Edge),
    for_each (resolve_body scorer (port_lookup_of ports)
                (PyDict.keys (port_lookup_of ports))) benchmarks links
    = Ok (links ++ omap id emitted)
    /\ Forall2 (emission scorer ports) benchmarks emitted.
Proof.
  revert links. induction benchmarks as [|b benchmarks IH]; intros links.
  - exists []. cbn. rewrite app_nil_r. split; [reflexivity|constructor].
  - destruct (resolve_body_emission ports links b) as (o & Hstep & Ho).
    destruct (IH (links ++ option_list o)) as (emitted & Hloop & Hall).
    exists (o :: emitted). split; [|by constructor].
    cbn [for_each]. rewrite Hstep. cbn. rewrite Hloop, <- app_assoc.
    destruct o; reflexivity.
Qed.

(** C1: [resolve_logistics_links] returns, and its links are, in the
    order of the benchmarks, what each benchmark emits: nothing or one
    link; one link exactly when the highest score of its cleaned
    description against the cleaned port names is strictly above 80,
    none when no score exceeds 80 (so none at exactly 80); a link goes
    from its benchmark to a best port, whose score exceeds 80. *)
Theorem resolve_logistics_links_threshold
    (benchmarks : list Benchmark) (ports : list Port) :
  exists emitted : list (option Edge),
    resolve_logistics_links scorer benchmarks ports = Ok (omap id emitted)
    /\ Forall2 (emission scorer ports) benchmarks emitted.
Proof. apply (resolve_loop_emission ports benchmarks []). Qed.

End ResolverClaims.

(** The scenario of the specification: port Singapore, description
    "Gasoil FOB Spore Cargo". *)
Example resolve_at_85 :
  resolve_logistics_links (const_scorer 85)
    [mkBenchmark "B1" "GO-SIN" "Gasoil FOB Spore Cargo" "GASOIL" "USD" "BBL" "u/B1"]
    [mkPort "SIN" "Singapore" "Asia" 1 103 "u/SIN"]
  = Ok [make_link "B1" "Gasoil FOB Spore Cargo" "SIN" "Singapore"].
Proof. reflexivity. Qed.

Example resolve_at_80 :
  resolve_logistics_links (const_scorer 80)
    [mkBenchmark "B1" "GO-SIN" "Gasoil FOB Spore Cargo" "GASOIL" "USD" "BBL" "u/B1"]
    [mkPort "SIN" "Singapore" "Asia" 1 103 "u/SIN"]
  = Ok [].
Proof. reflexivity. Qed.

Example resolve_no_ports :
  resolve_logistics_links (const_scorer 100)
    [mkBenchmark "B1" "GO-SIN" "Gasoil FOB Spore Cargo" "GASOIL" "USD" "BBL" "u/B1"]
    []
  = Ok [].
Proof. reflexivity. Qed.

(** ** The resolver on untyped fields *)

Lemma for_each_ok_inv {A S : Type} (body : S -> A -> pyres S) (P : A -> Prop)
    (xs : list A) (acc r : S) :
  (forall acc x acc', body acc x = Ok acc' -> P x) ->
  for_each body xs acc = Ok r -> Forall P xs.
Proof.
  intros Hbody. revert acc. induction xs as [|x xs IH]; intros acc; [constructor|].
  cbn [for_each]. destruct (body acc x) as [acc'|e] eqn:Hx; [|discriminate].
  cbn. intros Hrest. constructor; [exact (Hbody _ _ _ Hx)|exact (IH _ Hrest)].
Qed.

Lemma for_each_ok {A S : Type} (body : S -> A -> pyres S) (P : A -> Prop)
    (xs : list A) (acc : S) :
  (forall acc x, P x -> exists acc', body acc x = Ok acc') ->
  Forall P xs -> exists r, for_each body xs acc = Ok r.
Proof.
  intros Hbody Hxs. revert acc. induction Hxs as [|x xs Hx _ IH]; intros acc.
  - exists acc. reflexivity.
  - destruct (Hbody acc x Hx) as [acc' Hacc']. cbn [for_each].
    rewrite Hacc'. cbn. apply IH.
Qed.

Section RawResolver.

Variable scorer : string -> string -> Q.

(** The lookup after the fuzzy match cannot miss: the name matched is a
    key of the dict the names were taken from. *)
Lemma match_benchmark_ok (d : PyDict.t string) (links : list Edge)
    (bid description desc_clean : string) :
  exists links',
    match_benchmark scorer d (PyDict.keys d) links bid description desc_clean
    = Ok links'.
Proof.
  unfold match_benchmark.
  destruct (extractOne scorer _ _) as [[[n s] i]|] eqn:Hex; [|eauto].
  destruct (exceeds s 80); [|eauto].
  apply extractOne_Some in Hex as (_ & Hi & _).
  assert (Hn : n ∈ PyDict.keys d) by (apply list_elem_of_lookup; eauto).
  apply PyDictFacts.get_is_Some in Hn as [pid Hpid].
  unfold PyDict.getitem. rewrite Hpid. cbn. eauto.
Qed.

Lemma raw_lookup_typed (ports : list Port) (d : PyDict.t string) :
  for_each
    (fun d p =>
       name ← Raw.field "name" (Raw.name p);
       key ← Raw.clean_text name;
       Ok (PyDict.set key (Raw.id p) d))
    (map raw_of_port ports) d
  = Ok (fold_left (fun d p => PyDict.set (clean_text (p_name p)) (p_id p) d) ports d).
Proof.
  revert d. induction ports as [|p ports IH]; intros d; [reflexivity|].
  cbn [map for_each fold_left]. cbn. apply IH.
Qed.

Lemma raw_loop_typed (d : PyDict.t string) (names : list string)
    (benchmarks : list Benchmark) (links : list Edge) :
  for_each (Raw.resolve_body scorer d names) (map raw_of_benchmark benchmarks) links
  = for_each (resolve_body scorer d names) benchmarks links.
Proof.
  revert links. induction benchmarks as [|b benchmarks IH]; intros links;
    [reflexivity|].
  cbn [map for_each].
  change (Raw.resolve_body scorer d names links (raw_of_benchmark b))
    with (resolve_body scorer d names links b).
  destruct (resolve_body scorer d names links b); cbn; [apply IH|reflexivity].
Qed.

(** On records whose fields are strings the untyped resolver is the
    typed one. *)
Lemma raw_resolve_typed (benchmarks : list Benchmark) (ports : list Port) :
  Raw.resolve_logistics_links scorer
    (map raw_of_benchmark benchmarks) (map raw_of_port ports)
  = resolve_logistics_links scorer benchmarks ports.
Proof.
  unfold Raw.resolve_logistics_links, Raw.port_lookup_of, resolve_logistics_links.
  rewrite raw_lookup_typed. cbn. apply raw_loop_typed.
Qed.

Lemma raw_lookup_ok_iff (ports : list Raw.Port) :
  (exists d, Raw.port_lookup_of ports = Ok d)
  <-> Forall (fun p => text_field (Raw.name p)) ports.
Proof.
  unfold Raw.port_lookup_of. split.
  - intros [d Hd]. refine (for_each_ok_inv _ _ _ _ _ _ Hd).
    intros acc p acc'. destruct (Raw.name p) as [[]|]; cbn; try discriminate.
    intros _. eexists. reflexivity.
  - apply for_each_ok. intros acc p [s Hs]. rewrite Hs. cbn. eauto.
Qed.

Lemma raw_loop_ok_iff (d : PyDict.t string) (benchmarks : list Raw.Benchmark)
    (links : list Edge) :
  (exists r, for_each (Raw.resolve_body scorer d (PyDict.keys d)) benchmarks links = Ok r)
  <-> Forall (fun b => text_field (Raw.description b)) benchmarks.
Proof.
  split.
  - intros [r Hr]. refine (for_each_ok_inv _ _ _ _ _ _ Hr).
    intros acc b acc'. unfold Raw.resolve_body.
    destruct (Raw.description b) as [[]|]; cbn; try discriminate.
    intros _. eexists. reflexivity.
  - apply for_each_ok. intros acc b [s Hs]. unfold Raw.resolve_body.
    rewrite Hs. cbn. apply match_benchmark_ok.
Qed.

End RawResolver.

(** C4: a benchmark row whose description cell is empty comes out of
    the ingestion stage with NaN as its description, and NaN is not
    treated as the empty string: on the records of such rows
    [clean_text] raises [AttributeError], whatever the scorer, and the
    call returns no links, not those of the benchmarks before it
    either.  With the empty string in the place of NaN the call
    returns. *)
Theorem empty_description_cell_stops_the_pass (scorer : string -> string -> Q) :
  for_each Ingest.benchmarks_body SampleRows.benchmarks []
  = Ok SampleRows.benchmark_records
  /\ Forall2 read_as SampleRows.benchmark_records SampleRows.raw_benchmarks
  /\ Raw.resolve_logistics_links scorer SampleRows.raw_benchmarks SampleRows.raw_ports
     = Raise (AttributeError "replace")
  /\ exists links,
       Raw.resolve_logistics_links scorer
         [Raw.mkBenchmark "AAGZU00" "CRUDE-SIN" (Some (PyStr "Crude CIF Singapore"));
          Raw.mkBenchmark "B2" "GO-ROT" (Some (PyStr ""))]
         SampleRows.raw_ports
       = Ok links.
Proof.
  split_and!; [reflexivity|repeat constructor| |].
  - unfold Raw.resolve_logistics_links, SampleRows.raw_benchmarks, SampleRows.raw_ports.
    change (Raw.port_lookup_of [Raw.mkPort "SIN" (Some (PyStr "Singapore"))])
      with (Ok [("Singapore", "SIN")] : pyres (PyDict.t string)).
    cbn [mbind pyres_bind for_each].
    destruct (match_benchmark_ok scorer [("Singapore", "SIN")] []
                "AAGZU00" "Crude CIF Singapore" (clean_text "Crude CIF Singapore"))
      as [links Hlinks].
    change (Raw.resolve_body scorer [("Singapore", "SIN")]
              (PyDict.keys [("Singapore", "SIN")]) []
              (Raw.mkBenchmark "AAGZU00" "CRUDE-SIN" (Some (PyStr "Crude CIF Singapore"))))
      with (match_benchmark scorer [("Singapore", "SIN")]
              (PyDict.keys [("Singapore", "SIN")]) []
              "AAGZU00" "Crude CIF Singapore" (clean_text "Crude CIF Singapore")).
    rewrite Hlinks. reflexivity.
  - unfold Raw.resolve_logistics_links, SampleRows.raw_ports.
    change (Raw.port_lookup_of [Raw.mkPort "SIN" (Some (PyStr "Singapore"))])
      with (Ok [("Singapore", "SIN")] : pyres (PyDict.t string)).
    cbn [mbind pyres_bind].
    apply (raw_loop_ok_iff scorer [("Singapore", "SIN")]).
    repeat constructor; eexists; reflexivity.
Qed.

(** A description that is [None], the [null] of JSON, has no [replace]
    either. *)
Example resolve_raises_on_null_description :
  Raw.resolve_logistics_links substring_scorer
    [Raw.mkBenchmark "B1" "GO-SIN" (Some PyNone)]
    [Raw.mkPort "SIN" (Some (PyStr "Singapore"))]
  = Raise (AttributeError "replace").
Proof. reflexivity. Qed.

Example resolve_raises_on_missing_name :
  Raw.resolve_logistics_links substring_scorer [] [Raw.mkPort "SIN" None]
  = Raise (KeyError "name").
Proof. reflexivity. Qed.

Example resolve_raises_on_nan_description :
  Raw.resolve_logistics_links substring_scorer
    [Raw.mkBenchmark "B1" "GO-SIN" (Some (PyStr "Singapore"));
     Raw.mkBenchmark "B2" "GO-ROT" (Some (PyFloat NaN));
     Raw.mkBenchmark "B3" "GO-HOU" (Some (PyStr "Singapore"))]
    [Raw.mkPort "SIN" (Some (PyStr "Singapore"))]
  = Raise (AttributeError "replace").
Proof. reflexivity. Qed.

(** ** Graph assembler *)

Lemma add_port_fold (linked : gset string) (ports : list Port) (ns : list Node) :
  fold_left (add_port linked) ports ns
  = ns ++ map port_node (filter (fun p => p_id p ∈ linked) ports).
Proof.
  revert ns. induction ports as [|p ports IH]; intros ns.
  - cbn. by rewrite app_nil_r.
  - cbn [fold_left]. rewrite IH, filter_cons. unfold add_port.
    destruct (decide (p_id p ∈ linked)); [|reflexivity].
    cbn [map]. by rewrite <- app_assoc.
Qed.

(** A turn of the benchmark loop appends nodes, none of group port. *)
Lemma add_benchmark_nodes (st : Assembly) (b : Benchmark) :
  exists extra,
    nodes (add_benchmark st b) = nodes st ++ extra
    /\ Forall (fun n => n_group n <> GPort) extra.
Proof.
  unfold add_benchmark, add_if_new.
  destruct (PyDict.mem (b_id b) SYMBOL_MAP);
    [|exists []; by rewrite app_nil_r].
  cbn [fst snd]. repeat case_decide; cbn [fst snd nodes]; rewrite <- ?app_assoc;
    eexists; (split; [reflexivity|]); repeat constructor; discriminate.
Qed.

Lemma add_benchmarks_nodes (benchmarks : list Benchmark) (st : Assembly) :
  exists extra,
    nodes (fold_left add_benchmark benchmarks st) = nodes st ++ extra
    /\ Forall (fun n => n_group n <> GPort) extra.
Proof.
  revert st. induction benchmarks as [|b benchmarks IH]; intros st.
  - exists []. by rewrite app_nil_r.
  - cbn [fold_left]. destruct (IH (add_benchmark st b)) as (extra2 & -> & H2).
    destruct (add_benchmark_nodes st b) as (extra1 & -> & H1).
    exists (extra1 ++ extra2). rewrite <- app_assoc. split; [reflexivity|].
    by apply Forall_app.
Qed.

Lemma linked_port_ids_spec (dynamic_links : list Edge) (x : string) :
  x ∈ (list_to_set (map e_to dynamic_links) : gset string)
  <-> link_target dynamic_links x.
Proof.
  rewrite elem_of_list_to_set, list_elem_of_In, in_map_iff. unfold link_target.
  split; intros (l & H1 & H2); exists l.
  - by rewrite list_elem_of_In.
  - by rewrite <- list_elem_of_In.
Qed.

(** The nodes of the graph: those of the benchmark loop, none of group
    port, then one port node for every port that is the target of a
    link, in the order of the port list. *)
Lemma build_knowledge_graph_nodes (ports : list Port) (benchmarks : list Benchmark)
    (currencies : list Currency) (dynamic_links : list Edge) :
  exists inner,
    g_nodes (build_knowledge_graph ports benchmarks currencies dynamic_links)
    = inner
      ++ map port_node
           (filter (fun p => p_id p ∈ (list_to_set (map e_to dynamic_links) : gset string))
              ports)
    /\ Forall (fun n => n_group n <> GPort) inner.
Proof.
  unfold build_knowledge_graph. cbn [g_nodes]. rewrite add_port_fold.
  destruct (add_benchmarks_nodes benchmarks
              {| nodes := []; edges := [] ++ dynamic_links; existing_nodes := ∅ |})
    as (extra & -> & Hextra).
  exists extra. split; [reflexivity|exact Hextra].
Qed.

(** C6, as stated, fails: a port that no link targets has no port node,
    yet the graph can hold a node with its identifier, here the currency
    node of a benchmark whose currency code is spelled like the port's
    identifier. *)
Lemma node_with_port_id_without_link :
  ~ (forall p, p ∈ [Sample.sin] ->
       has_node (build_knowledge_graph [Sample.sin] [Sample.sp500_in_sin] [] []) (p_id p)
       <-> link_target [] (p_id p)).
Proof.
  intros H. destruct (H Sample.sin) as [Hlink _].
  { apply elem_of_cons. by left. }
  destruct Hlink as (l & Hl & _).
  - exists (currency_node "SIN"). split; [|reflexivity].
    vm_compute. apply elem_of_cons. right. apply elem_of_cons. right.
    apply elem_of_cons. by left.
  - by apply elem_of_nil in Hl.
Qed.

(** C6, amended: for every port of the port list, the graph has a port
    node with the port's identifier if and only if that identifier is the
    target of a dynamic link passed in. *)
Theorem port_node_iff_link_target (ports : list Port) (benchmarks : list Benchmark)
    (currencies : list Currency) (dynamic_links : list Edge) (p : Port) :
  p ∈ ports ->
  has_port_node (build_knowledge_graph ports benchmarks currencies dynamic_links) (p_id p)
  <-> link_target dynamic_links (p_id p).
Proof.
  intros Hp.
  destruct (build_knowledge_graph_nodes ports benchmarks currencies dynamic_links)
    as (inner & Hnodes & Hinner).
  unfold has_port_node. rewrite Hnodes. split.
  - intros (n & [Hn|Hn]%elem_of_app & Hid & Hgroup).
    + rewrite Forall_forall in Hinner. by destruct (Hinner n Hn).
    + apply list_elem_of_In, in_map_iff in Hn as (q & <- & Hq).
      apply list_elem_of_In, list_elem_of_filter in Hq as [Hq _].
      apply linked_port_ids_spec in Hq. cbn in Hid. by rewrite <- Hid.
  - intros Hlink. exists (port_node p). split; [|done].
    apply elem_of_app. right. apply list_elem_of_In, in_map_iff. exists p.
    split; [reflexivity|]. apply list_elem_of_In, list_elem_of_filter.
    split; [by apply linked_port_ids_spec|exact Hp].
Qed.

Lemma port_node_iff_link_target_witness :
  Sample.sin ∈ [Sample.sin; Sample.rot]
  /\ (has_port_node
        (build_knowledge_graph [Sample.sin; Sample.rot] [] []
           [make_link "B1" "Gasoil FOB Singapore Cargo" "SIN" "Singapore"])
        (p_id Sample.sin)
      <-> link_target [make_link "B1" "Gasoil FOB Singapore Cargo" "SIN" "Singapore"]
            (p_id Sample.sin)).
Proof.
  assert (H : Sample.sin ∈ [Sample.sin; Sample.rot]) by (apply elem_of_cons; by left).
  split; [exact H|].
  exact (port_node_iff_link_target [Sample.sin; Sample.rot] [] []
           [make_link "B1" "Gasoil FOB Singapore Cargo" "SIN" "Singapore"]
           Sample.sin H).
Defined.

Example build_unlinked_port_excluded :
  node_ids (build_knowledge_graph [Sample.sin; Sample.rot] [Sample.crude_sin] []
              [make_link "AAGZU00" "Crude CIF Singapore" "SIN" "Singapore"])
  = ["AAGZU00"; "CRUDE"; "USD"; "SIN"].
Proof. reflexivity. Qed.

(** C5: two rows of the benchmark file with one identifier give two
    benchmark nodes with that identifier, each with the attributes of its
    own row; the benchmark branch appends without asking
    [existing_nodes], which the commodity and currency branches do ask. *)
Theorem duplicate_benchmark_row_duplicates_node :
  g_nodes (build_knowledge_graph [] [Sample.sp500; Sample.sp500_again] [] [])
  = [benchmark_node Sample.sp500; commodity_node "EQUITY"; currency_node "USD";
     benchmark_node Sample.sp500_again]
  /\ ~ NoDup (node_ids (build_knowledge_graph [] [Sample.sp500; Sample.sp500_again] [] [])).
Proof.
  split; [reflexivity|].
  intros [Hnot _]%NoDup_cons. apply Hnot.
  vm_compute. apply elem_of_cons. right. apply elem_of_cons. right.
  apply elem_of_cons. by left.
Qed.

(** The port branch does not ask [existing_nodes] either. *)
Example duplicate_port_row_duplicates_node :
  node_ids (build_knowledge_graph [Sample.sin; Sample.sin_again] [] []
              [make_link "B1" "Gasoil FOB Singapore Cargo" "SIN" "Singapore"])
  = ["SIN"; "SIN"].
Proof. reflexivity. Qed.

(** ** Which ends of an edge are nodes *)

Lemma elem_of_map {A B : Type} (f : A -> B) (l : list A) (y : B) :
  y ∈ map f l <-> exists x, y = f x /\ x ∈ l.
Proof. exact (list_elem_of_fmap f l y). Qed.

(** [add_if_new] keeps the nodes it finds, leaves [x] among them and
    keeps the identifiers of the set among those of the nodes. *)
Lemma add_if_new_spec (x : string) (n : Node) (ns ns' : list Node) (ex ex' : gset string) :
  n_id n = x ->
  add_if_new x n (ns, ex) = (ns', ex') ->
  (forall y, y ∈ ex -> y ∈ map n_id ns) ->
  (forall y, y ∈ ex' -> y ∈ map n_id ns')
  /\ x ∈ map n_id ns'
  /\ (forall y, y ∈ map n_id ns -> y ∈ map n_id ns').
Proof.
  intros Hid Heq Hinv. unfold add_if_new in Heq. cbn [fst snd] in Heq.
  destruct (decide (x ∈ ex)) as [Hin|Hnot]; injection Heq as <- <-.
  - split_and!; [exact Hinv|by apply Hinv|done].
  - assert (Hx : x ∈ map n_id (ns ++ [n])).
    { rewrite map_app, elem_of_app. right. cbn [map]. rewrite Hid.
      apply elem_of_cons. by left. }
    split_and!; [|exact Hx|].
    + intros y [Hy | Hy]%elem_of_union.
      * rewrite map_app, elem_of_app. left. by apply Hinv.
      * apply elem_of_singleton in Hy. by rewrite Hy.
    + intros y Hy. rewrite map_app, elem_of_app. by left.
Qed.

(** A turn of the benchmark loop keeps [existing_are_nodes], gives a node
    to a benchmark of [SYMBOL_MAP], and appends edges whose two ends are
    nodes. *)
Lemma add_benchmark_edges (st : Assembly) (b : Benchmark) :
  existing_are_nodes st ->
  existing_are_nodes (add_benchmark st b)
  /\ (PyDict.mem (b_id b) SYMBOL_MAP = true ->
      b_id b ∈ map n_id (nodes (add_benchmark st b)))
  /\ exists es,
       edges (add_benchmark st b) = edges st ++ es
       /\ forall e, e ∈ es ->
            e_from e ∈ map n_id (nodes (add_benchmark st b))
            /\ e_to e ∈ map n_id (nodes (add_benchmark st b)).
Proof.
  intros Hinv. unfold add_benchmark, existing_are_nodes in *.
  destruct (PyDict.mem (b_id b) SYMBOL_MAP).
  2:{ split_and!; [exact Hinv|discriminate|].
      exists []. rewrite app_nil_r. split; [reflexivity|]. by intros e ?%elem_of_nil. }
  cbv zeta.
  destruct (add_if_new (b_commodity b) _ _) as [ns2 ex2] eqn:H2.
  destruct (add_if_new (b_currency b) _ _) as [ns3 ex3] eqn:H3.
  cbn [nodes edges existing_nodes].
  assert (Hb1 : b_id b ∈ map n_id (nodes st ++ [benchmark_node b])).
  { rewrite map_app, elem_of_app. right. apply elem_of_cons. by left. }
  assert (Hinv1 : forall y, y ∈ existing_nodes st ∪ {[b_id b]} ->
                            y ∈ map n_id (nodes st ++ [benchmark_node b])).
  { intros y [Hy | Hy]%elem_of_union.
    - rewrite map_app, elem_of_app. left. by apply Hinv.
    - apply elem_of_singleton in Hy. by rewrite Hy. }
  destruct (add_if_new_spec (b_commodity b) (commodity_node (b_commodity b))
              _ _ _ _ eq_refl H2 Hinv1) as (Hinv2 & Hc2 & Hmono2).
  destruct (add_if_new_spec (b_currency b) (currency_node (b_currency b))
              _ _ _ _ eq_refl H3 Hinv2) as (Hinv3 & Hc3 & Hmono3).
  split_and!; [exact Hinv3|intros _; by apply Hmono3, Hmono2|].
  eexists [_; _]. rewrite <- app_assoc. split; [reflexivity|].
  intros e [-> | [-> | Hnil]%elem_of_cons]%elem_of_cons;
    [| |by apply elem_of_nil in Hnil]; cbn [structural_edge e_from e_to]; split.
  - by apply Hmono3.
  - by apply Hmono3, Hmono2.
  - by apply Hmono3, Hmono2.
  - exact Hc3.
Qed.

Lemma add_benchmark_nodes_grow (st : Assembly) (b : Benchmark) (x : string) :
  x ∈ map n_id (nodes st) -> x ∈ map n_id (nodes (add_benchmark st b)).
Proof.
  destruct (add_benchmark_nodes st b) as (extra & -> & _).
  rewrite map_app, elem_of_app. by left.
Qed.

Lemma add_benchmarks_nodes_grow (benchmarks : list Benchmark) (st : Assembly) (x : string) :
  x ∈ map n_id (nodes st) -> x ∈ map n_id (nodes (fold_left add_benchmark benchmarks st)).
Proof.
  revert st. induction benchmarks as [|b benchmarks IH]; intros st Hx; [exact Hx|].
  cbn [fold_left]. by apply IH, add_benchmark_nodes_grow.
Qed.

Lemma add_benchmarks_edges (benchmarks : list Benchmark) (st : Assembly) :
  existing_are_nodes st ->
  (forall b, b ∈ benchmarks -> PyDict.mem (b_id b) SYMBOL_MAP = true ->
     b_id b ∈ map n_id (nodes (fold_left add_benchmark benchmarks st)))
  /\ exists es,
       edges (fold_left add_benchmark benchmarks st) = edges st ++ es
       /\ forall e, e ∈ es ->
            e_from e ∈ map n_id (nodes (fold_left add_benchmark benchmarks st))
            /\ e_to e ∈ map n_id (nodes (fold_left add_benchmark benchmarks st)).
Proof.
  revert st. induction benchmarks as [|b benchmarks IH]; intros st Hinv.
  - split; [by intros b ?%elem_of_nil|]. exists []. rewrite app_nil_r.
    split; [reflexivity|]. by intros e ?%elem_of_nil.
  - cbn [fold_left].
    destruct (add_benchmark_edges st b Hinv) as (Hinv' & Hb & es1 & Hes1 & Hends1).
    destruct (IH _ Hinv') as (Hbs & es2 & Hes2 & Hends2). split.
    + intros b' [-> | Hb']%elem_of_cons Hlisted; [|by apply Hbs].
      by apply add_benchmarks_nodes_grow, Hb.
    + exists (es1 ++ es2). rewrite Hes2, Hes1, <- app_assoc. split; [reflexivity|].
      intros e [He | He]%elem_of_app; [|by apply Hends2].
      destruct (Hends1 e He). split; by apply add_benchmarks_nodes_grow.
Qed.

(** In the graph: a structural edge has both ends among the nodes; a
    benchmark of [SYMBOL_MAP] and a port that a link targets are nodes. *)
Lemma build_knowledge_graph_ends (ports : list Port) (benchmarks : list Benchmark)
    (currencies : list Currency) (dynamic_links : list Edge) :
  (forall e,
     e ∈ g_edges (build_knowledge_graph ports benchmarks currencies dynamic_links) ->
     e ∈ dynamic_links
     \/ (e_from e ∈ node_ids (build_knowledge_graph ports benchmarks currencies dynamic_links)
         /\ e_to e ∈ node_ids (build_knowledge_graph ports benchmarks currencies dynamic_links)))
  /\ (forall b, b ∈ benchmarks -> PyDict.mem (b_id b) SYMBOL_MAP = true ->
        b_id b ∈ node_ids (build_knowledge_graph ports benchmarks currencies dynamic_links))
  /\ (forall p, p ∈ ports -> link_target dynamic_links (p_id p) ->
        p_id p ∈ node_ids (build_knowledge_graph ports benchmarks currencies dynamic_links)).
Proof.
  unfold build_knowledge_graph, node_ids. cbn [g_nodes g_edges].
  set (st0 := {| nodes := []; edges := [] ++ dynamic_links; existing_nodes := ∅ |}).
  assert (Hinv : existing_are_nodes st0) by (intros x Hx; by apply not_elem_of_empty in Hx).
  destruct (add_benchmarks_edges benchmarks st0 Hinv) as (Hbs & es & Hes & Hends).
  rewrite add_port_fold, Hes. split_and!.
  - intros e [He | He]%elem_of_app; [by left|right].
    destruct (Hends e He). rewrite !map_app, !elem_of_app. by split; left.
  - intros b Hb Hlisted. rewrite map_app, elem_of_app. left. by apply Hbs.
  - intros p Hp Hlink. rewrite map_app, elem_of_app. right.
    apply elem_of_map. exists (port_node p). split; [reflexivity|].
    apply elem_of_map. exists p. split; [reflexivity|].
    apply list_elem_of_filter. split; [by apply linked_port_ids_spec|exact Hp].
Qed.

Section CombinedRunEnds.

Variable scorer : string -> string -> Q.

(** Every link the resolver returns goes from a benchmark of the list to
    a port of the list. *)
Lemma resolve_links_ends (benchmarks : list Benchmark) (ports : list Port)
    (links : list Edge) :
  resolve_logistics_links scorer benchmarks ports = Ok links ->
  forall l, l ∈ links ->
    (exists b, b ∈ benchmarks /\ e_from l = b_id b)
    /\ (exists p, p ∈ ports /\ e_to l = p_id p).
Proof.
  destruct (resolve_loop_emission scorer ports benchmarks []) as (emitted & He & Hall).
  unfold resolve_logistics_links. rewrite He. intros [= <-] l Hl. cbn in Hl.
  apply list_elem_of_omap in Hl as (o & Ho & Hsome). cbn in Hsome. subst o.
  apply list_elem_of_lookup in Ho as [i Hi].
  destruct (Forall2_lookup_r _ _ _ _ _ Hall Hi) as (b & Hb & _ & _ & Hlink).
  destruct (Hlink l eq_refl) as (Hfrom & p & [Hp _] & Hto & _).
  split; [exists b|exists p]; (split; [|done]).
  - apply list_elem_of_lookup. eauto.
  - exact Hp.
Qed.

(** In the combined run the ['to'] of every edge is a node, and so is the
    ['from'] unless the edge is a link from a benchmark outside
    [SYMBOL_MAP]. *)
Lemma combined_run_ends (ports : list Port) (benchmarks : list Benchmark)
    (currencies : list Currency) (g : Graph) :
  resolve_then_build scorer ports benchmarks currencies = Ok g ->
  forall e, e ∈ g_edges g ->
    e_to e ∈ node_ids g
    /\ (e_from e ∈ node_ids g
        \/ exists b, b ∈ benchmarks /\ e_from e = b_id b
                     /\ PyDict.mem (b_id b) SYMBOL_MAP = false).
Proof.
  unfold resolve_then_build.
  destruct (resolve_logistics_links scorer benchmarks ports) as [links|] eqn:Hr;
    [|discriminate].
  intros [= <-] e He.
  destruct (build_knowledge_graph_ends ports benchmarks currencies links)
    as (Hedges & Hbench & Hport).
  destruct (Hedges e He) as [Hl | [Hfrom Hto]]; [|by split; [|left]].
  destruct (resolve_links_ends _ _ _ Hr e Hl) as [(b & Hb & Hfrom) (p & Hp & Hto)].
  split.
  - rewrite Hto. apply Hport; [exact Hp|]. exists e. by split.
  - destruct (PyDict.mem (b_id b) SYMBOL_MAP) eqn:Hlisted.
    + left. rewrite Hfrom. by apply Hbench.
    + right. exists b. by split_and!.
Qed.

(** When every benchmark is in [SYMBOL_MAP] no edge dangles. *)
Lemma combined_run_no_dangling (ports : list Port) (benchmarks : list Benchmark)
    (currencies : list Currency) (g : Graph) :
  Forall (fun b => PyDict.mem (b_id b) SYMBOL_MAP = true) benchmarks ->
  resolve_then_build scorer ports benchmarks currencies = Ok g ->
  no_dangling g.
Proof.
  intros Hall Hg e He. destruct (combined_run_ends _ _ _ _ Hg e He) as [Hto Hfrom].
  split; [|exact Hto]. destruct Hfrom as [Hfrom | (b & Hb & _ & Hout)]; [exact Hfrom|].
  rewrite Forall_forall in Hall. rewrite (Hall b Hb) in Hout. discriminate.
Qed.

End CombinedRunEnds.

(** ** Where the identifiers of the nodes are distinct *)

Lemma add_if_new_NoDup (x : string) (n : Node) (ns ns' : list Node) (ex ex' : gset string) :
  n_id n = x ->
  add_if_new x n (ns, ex) = (ns', ex') ->
  ids_tracked ns ex ->
  ids_tracked ns' ex'
  /\ forall y, y ∈ map n_id ns' -> y ∈ map n_id ns \/ y = x.
Proof.
  intros Hid Heq [Hnd Hex]. unfold add_if_new in Heq. cbn [fst snd] in Heq.
  destruct (decide (x ∈ ex)) as [Hin|Hnot]; injection Heq as <- <-.
  - split; [by split|]. intros y Hy. by left.
  - split; [split|].
    + rewrite map_app. apply NoDup_app. split_and!; [exact Hnd| |].
      * intros y Hy [Hy' | Hy']%elem_of_cons; [|by apply elem_of_nil in Hy'].
        apply Hnot, Hex. congruence.
      * cbn [map]. apply NoDup_singleton.
    + intros y. rewrite elem_of_union, elem_of_singleton, map_app, elem_of_app, Hex.
      cbn [map]. rewrite list_elem_of_singleton, Hid. tauto.
    + intros y. rewrite map_app, elem_of_app. cbn [map].
      rewrite list_elem_of_singleton, Hid. tauto.
Qed.

(** A turn of the benchmark loop on a benchmark whose identifier is not
    yet the identifier of a node. *)
Lemma add_benchmark_NoDup (st : Assembly) (b : Benchmark) :
  ids_tracked (nodes st) (existing_nodes st) ->
  (PyDict.mem (b_id b) SYMBOL_MAP = true -> b_id b ∉ map n_id (nodes st)) ->
  ids_tracked (nodes (add_benchmark st b)) (existing_nodes (add_benchmark st b))
  /\ forall y, y ∈ map n_id (nodes (add_benchmark st b)) ->
       y ∈ map n_id (nodes st)
       \/ (PyDict.mem (b_id b) SYMBOL_MAP = true
           /\ (y = b_id b \/ y = b_commodity b \/ y = b_currency b)).
Proof.
  intros [Hnd Hex] Hfresh. unfold add_benchmark.
  destruct (PyDict.mem (b_id b) SYMBOL_MAP); [|split; [by split|by left]].
  cbv zeta.
  destruct (add_if_new (b_commodity b) _ _) as [ns2 ex2] eqn:H2.
  destruct (add_if_new (b_currency b) _ _) as [ns3 ex3] eqn:H3.
  cbn [nodes existing_nodes].
  assert (H1 : ids_tracked (nodes st ++ [benchmark_node b]) (existing_nodes st ∪ {[b_id b]})).
  { split.
    - rewrite map_app. apply NoDup_app. split_and!; [exact Hnd| |apply NoDup_singleton].
      intros y Hy [Hy' | Hy']%elem_of_cons; [|by apply elem_of_nil in Hy'].
      apply (Hfresh eq_refl). cbn in Hy'. congruence.
    - intros y. rewrite elem_of_union, elem_of_singleton, map_app, elem_of_app, Hex.
      cbn [map]. rewrite list_elem_of_singleton. tauto. }
  destruct (add_if_new_NoDup (b_commodity b) (commodity_node (b_commodity b))
              _ _ _ _ eq_refl H2 H1) as (Ht2 & Hfrom2).
  destruct (add_if_new_NoDup (b_currency b) (currency_node (b_currency b))
              _ _ _ _ eq_refl H3 Ht2) as (Ht3 & Hfrom3).
  split; [exact Ht3|]. intros y Hy.
  destruct (Hfrom3 y Hy) as [Hy2 | ->]; [|right; tauto].
  destruct (Hfrom2 y Hy2) as [Hy1 | ->]; [|right; tauto].
  rewrite map_app, elem_of_app in Hy1. destruct Hy1 as [Hy1 | Hy1]; [by left|].
  cbn [map] in Hy1. apply list_elem_of_singleton in Hy1. right. tauto.
Qed.

Lemma add_benchmarks_NoDup (benchmarks : list Benchmark) (st : Assembly) :
  ids_tracked (nodes st) (existing_nodes st) ->
  NoDup (map b_id (filter listed benchmarks)) ->
  (forall b, b ∈ filter listed benchmarks -> b_id b ∉ map n_id (nodes st)) ->
  (forall b b', b ∈ filter listed benchmarks -> b' ∈ filter listed benchmarks ->
     b_id b <> b_commodity b' /\ b_id b <> b_currency b') ->
  NoDup (map n_id (nodes (fold_left add_benchmark benchmarks st)))
  /\ forall y, y ∈ map n_id (nodes (fold_left add_benchmark benchmarks st)) ->
       y ∈ map n_id (nodes st)
       \/ exists b, b ∈ filter listed benchmarks
                    /\ (y = b_id b \/ y = b_commodity b \/ y = b_currency b).
Proof.
  revert st. induction benchmarks as [|b benchmarks IH]; intros st Ht Hnd Hfresh Hcross.
  - cbn [fold_left]. split; [apply Ht|]. intros y Hy. by left.
  - cbn [fold_left]. rewrite filter_cons in Hnd, Hfresh, Hcross |- *.
    destruct (decide (listed b)) as [Hb|Hb].
    + destruct (add_benchmark_NoDup st b Ht) as (Ht' & Hfrom).
      { intros _. apply Hfresh, elem_of_cons. by left. }
      cbn [map] in Hnd. apply NoDup_cons in Hnd as [Hnotin Hnd].
      destruct (IH (add_benchmark st b) Ht' Hnd) as (Hfinal & Hfrom').
      * intros b' Hb' Hy. destruct (Hfrom _ Hy) as [Hy0 | [_ Hy0]].
        -- apply (Hfresh b'); [apply elem_of_cons; by right|exact Hy0].
        -- destruct (Hcross b' b) as [Hc1 Hc2];
             [apply elem_of_cons; by right|apply elem_of_cons; by left|].
           destruct Hy0 as [Hy0 | [Hy0 | Hy0]]; [|done|done].
           apply Hnotin. rewrite <- Hy0. apply elem_of_map. eauto.
      * intros b1 b2 H1 H2. apply Hcross; apply elem_of_cons; by right.
      * split; [exact Hfinal|]. intros y Hy.
        destruct (Hfrom' y Hy) as [Hy0 | (b' & Hb' & Hy0)].
        -- destruct (Hfrom _ Hy0) as [Hy1 | [_ Hy1]]; [by left|].
           right. exists b. split; [apply elem_of_cons; by left|exact Hy1].
        -- right. exists b'. split; [apply elem_of_cons; by right|exact Hy0].
    + assert (Hskip : add_benchmark st b = st).
      { unfold add_benchmark, listed in *.
        by destruct (PyDict.mem (b_id b) SYMBOL_MAP). }
      rewrite Hskip. by apply IH.
Qed.

(** The identifiers of the nodes are pairwise distinct when the rows that
    give nodes do not repeat an identifier: the benchmarks of
    [SYMBOL_MAP] have distinct identifiers that are no commodity and no
    currency of such a benchmark, and the ports that a link targets have
    distinct identifiers that are no identifier, commodity or currency of
    such a benchmark. *)
Lemma node_ids_NoDup (ports : list Port) (benchmarks : list Benchmark)
    (currencies : list Currency) (dynamic_links : list Edge) :
  NoDup (map b_id (filter listed benchmarks)) ->
  (forall b b', b ∈ filter listed benchmarks -> b' ∈ filter listed benchmarks ->
     b_id b <> b_commodity b' /\ b_id b <> b_currency b') ->
  NoDup (map p_id (filter (fun p => p_id p ∈ map e_to dynamic_links) ports)) ->
  (forall p b, p ∈ ports -> p_id p ∈ map e_to dynamic_links ->
     b ∈ filter listed benchmarks ->
     p_id p <> b_id b /\ p_id p <> b_commodity b /\ p_id p <> b_currency b) ->
  NoDup (node_ids (build_knowledge_graph ports benchmarks currencies dynamic_links)).
Proof.
  intros Hbs Hcross Hps Hdisj.
  unfold build_knowledge_graph, node_ids. cbn [g_nodes].
  set (st0 := {| nodes := []; edges := [] ++ dynamic_links; existing_nodes := ∅ |}).
  destruct (add_benchmarks_NoDup benchmarks st0) as (Hinner & Hfrom);
    [split; [constructor|] | exact Hbs | | exact Hcross |].
  { intros y. cbn. rewrite elem_of_nil. split; [by intros ?%not_elem_of_empty|tauto]. }
  { intros b _ Hb. cbn in Hb. by apply elem_of_nil in Hb. }
  rewrite add_port_fold, map_app. apply NoDup_app. split_and!; [exact Hinner| |].
  - intros y Hy Hport. destruct (Hfrom y Hy) as [Hy0 | (b & Hb & Hy0)].
    { cbn in Hy0. by apply elem_of_nil in Hy0. }
    apply elem_of_map in Hport as (n & -> & Hn).
    apply elem_of_map in Hn as (p & -> & Hp).
    apply list_elem_of_filter in Hp as [Hlinked Hp].
    apply elem_of_list_to_set in Hlinked.
    destruct (Hdisj p b Hp Hlinked Hb) as (H1 & H2 & H3). cbn [port_node n_id] in Hy0.
    destruct Hy0 as [Hy0 | [Hy0 | Hy0]]; congruence.
  - rewrite map_map. cbn [port_node n_id].
    erewrite (list_filter_iff _ (fun p => p_id p ∈ map e_to dynamic_links)); [exact Hps|].
    intros p. apply elem_of_list_to_set.
Qed.

(** ** Resolver and assembler together *)

Section CombinedRun.

Variable scorer : string -> string -> Q.

(** One benchmark, one port, a score above 80: one link. *)
Lemma resolve_one_port (b : Benchmark) (p : Port) :
  (80 < score_of scorer b p)%Q ->
  resolve_logistics_links scorer [b] [p]
  = Ok [make_link (b_id b) (b_description b) (p_id p) (clean_text (p_name p))].
Proof.
  intros H%exceeds_true. unfold score_of in H.
  unfold resolve_logistics_links, port_lookup_of.
  cbn [fold_left PyDict.set PyDict.keys map fst for_each].
  unfold resolve_body, match_benchmark, extractOne.
  cbn [imap fold_left extract_step]. rewrite H.
  unfold PyDict.getitem. cbn [PyDict.get]. rewrite decide_True by reflexivity.
  reflexivity.
Qed.

(** C2: a benchmark outside [SYMBOL_MAP] that matches a port gets a link
    and no node, so the link's ['from'] names no node of the graph. *)
Theorem link_from_unlisted_benchmark_dangles :
  (80 < scorer "Gasoil  Singapore" "Singapore")%Q ->
  exists g e,
    resolve_then_build scorer [Sample.sin] [Sample.gasoil_sin] [] = Ok g
    /\ e ∈ g_edges g /\ e_from e = "B1" /\ ("B1" ∉ node_ids g)
    /\ ~ no_dangling g.
Proof.
  intros H. unfold resolve_then_build.
  rewrite (resolve_one_port Sample.gasoil_sin Sample.sin H). cbn [mbind pyres_bind].
  eexists _, (make_link "B1" "Gasoil FOB Singapore Cargo" "SIN" "Singapore").
  split; [reflexivity|].
  assert (Hin : make_link "B1" "Gasoil FOB Singapore Cargo" "SIN" "Singapore"
                ∈ [make_link "B1" "Gasoil FOB Singapore Cargo" "SIN" "Singapore"])
    by (apply elem_of_cons; by left).
  assert (Hno : "B1" ∉ ["SIN"]).
  { intros [Heq|Habs]%elem_of_cons; [discriminate Heq|by apply elem_of_nil in Habs]. }
  split_and!; [exact Hin|reflexivity|exact Hno|].
  intros Hnd. destruct (Hnd _ Hin) as [Hfrom _]. exact (Hno Hfrom).
Qed.

End CombinedRun.

Lemma link_from_unlisted_benchmark_dangles_witness :
  (80 < substring_scorer "Gasoil  Singapore" "Singapore")%Q
  /\ exists g e,
       resolve_then_build substring_scorer [Sample.sin] [Sample.gasoil_sin] [] = Ok g
       /\ e ∈ g_edges g /\ e_from e = "B1" /\ ("B1" ∉ node_ids g)
       /\ ~ no_dangling g.
Proof.
  assert (H : (80 < substring_scorer "Gasoil  Singapore" "Singapore")%Q) by reflexivity.
  split; [exact H|].
  exact (link_from_unlisted_benchmark_dangles substring_scorer H).
Defined.

(** ** Final payload *)

Section PayloadClaims.

Variable scorer : string -> string -> Q.
Variable Timestamp : Type.
Variable strftime : Timestamp -> string.
Variable yf_download : list string -> pyres (DataFrame Timestamp).
Variable round_finite : Q -> option Q.

Lemma final_payload_ok (ports : list Port) (benchmarks : list Benchmark)
    (currencies : list Currency) :
  exists dynamic_links,
    resolve_logistics_links scorer benchmarks ports = Ok dynamic_links
    /\ final_payload scorer Timestamp strftime yf_download round_finite ports benchmarks currencies
       = Ok {| pl_ports := ports;
               pl_benchmarks :=
                 filter (fun b => PyDict.mem (b_id b) SYMBOL_MAP = true) benchmarks;
               pl_market_data := fetch_market_data Timestamp strftime yf_download round_finite;
               pl_graph :=
                 build_knowledge_graph ports benchmarks currencies dynamic_links |}.
Proof.
  destruct (resolve_loop_emission scorer ports benchmarks []) as (emitted & He & _).
  exists (omap id emitted). unfold final_payload, resolve_logistics_links.
  rewrite He. split; reflexivity.
Qed.

(** C7: the payload is produced, and a benchmark is in its
    ['benchmarks'] list exactly when it is in the benchmark list and its
    identifier is a key of [SYMBOL_MAP]; a benchmark outside the map can
    still be in the graph part, here as the ['from'] of a link. *)
Theorem payload_benchmarks_are_the_listed_ones :
  (forall ports benchmarks currencies,
     exists payload,
       final_payload scorer Timestamp strftime yf_download round_finite ports benchmarks currencies
       = Ok payload
       /\ forall b, b ∈ pl_benchmarks payload
                    <-> b ∈ benchmarks /\ b_id b ∈ PyDict.keys SYMBOL_MAP)
  /\ ((80 < scorer "Gasoil  Singapore" "Singapore")%Q ->
      exists payload e,
        final_payload scorer Timestamp strftime yf_download round_finite
          [Sample.sin] [Sample.gasoil_sin] [] = Ok payload
        /\ (b_id Sample.gasoil_sin ∉ PyDict.keys SYMBOL_MAP)
        /\ (Sample.gasoil_sin ∉ pl_benchmarks payload)
        /\ e ∈ g_edges (pl_graph payload)
        /\ e_from e = b_id Sample.gasoil_sin).
Proof.
  split.
  - intros ports benchmarks currencies.
    destruct (final_payload_ok ports benchmarks currencies) as (links & _ & ->).
    eexists. split; [reflexivity|]. intros b. cbn [pl_benchmarks].
    rewrite list_elem_of_filter, PyDictFacts.mem_true. tauto.
  - intros H. unfold final_payload.
    rewrite (resolve_one_port scorer Sample.gasoil_sin Sample.sin H).
    cbn [mbind pyres_bind].
    eexists _, (make_link "B1" "Gasoil FOB Singapore Cargo" "SIN" "Singapore").
    split; [reflexivity|]. cbn [pl_benchmarks pl_graph]. split_and!.
    + vm_compute. intros Hin. repeat (apply elem_of_cons in Hin as [Hin|Hin];
        [discriminate Hin|]). by apply elem_of_nil in Hin.
    + vm_compute. intros Hin. by apply elem_of_nil in Hin.
    + apply elem_of_cons. by left.
    + reflexivity.
Qed.

End PayloadClaims.

Lemma payload_benchmarks_are_the_listed_ones_witness :
  (80 < substring_scorer "Gasoil  Singapore" "Singapore")%Q
  /\ exists payload e,
       final_payload substring_scorer string (fun t => t)
         (fun _ => Raise (OtherException "ConnectionError" "offline"))
         round_finite_exact
         [Sample.sin] [Sample.gasoil_sin] [] = Ok payload
       /\ (b_id Sample.gasoil_sin ∉ PyDict.keys SYMBOL_MAP)
       /\ (Sample.gasoil_sin ∉ pl_benchmarks payload)
       /\ e ∈ g_edges (pl_graph payload)
       /\ e_from e = b_id Sample.gasoil_sin.
Proof.
  assert (H : (80 < substring_scorer "Gasoil  Singapore" "Singapore")%Q) by reflexivity.
  split; [exact H|].
  exact (proj2 (payload_benchmarks_are_the_listed_ones substring_scorer string
                  (fun t => t)
                  (fun _ => Raise (OtherException "ConnectionError" "offline"))
         round_finite_exact) H).
Defined.

(** ** Market history fetcher *)


Lemma ffill_from_inf_free (last : option pyfloat) (values : list pyfloat) :
  (forall v, last = Some v -> isinf v = false) ->
  inf_free values -> inf_free (ffill_from last values).
Proof.
  unfold inf_free. intros Hlast Hvalues. revert last Hlast.
  induction Hvalues as [|x values Hx _ IH]; intros last Hlast; [constructor|].
  cbn [ffill_from]. destruct (isnan x).
  - destruct last as [v|]; constructor; eauto.
  - constructor; [exact Hx|]. apply IH. by intros v [= <-].
Qed.


Section MarketDataClaims.

Variable Timestamp : Type.
Variable strftime : Timestamp -> string.
Variable yf_download : list string -> pyres (DataFrame Timestamp).
Variable round_finite : Q -> option Q.



(** The rounding keeps an infinity. *)
Lemma round2_of_inf (x : pyfloat) : isinf x = true -> round2 round_finite x = x.
Proof. by destruct x. Qed.



(** C8: when the download raises, the result is the empty history. *)
Theorem fetch_failure_gives_empty_history (e : pyexn) :
  yf_download (PyDict.values SYMBOL_MAP) = Raise e ->
  fetch_market_data Timestamp strftime yf_download round_finite
  = {| dates := []; datasets := [] |}.
Proof. intros H. unfold fetch_market_data. rewrite H. reflexivity. Qed.


End MarketDataClaims.

(** An infinity in a column is carried forward into the gaps after it. *)
Example ffill_carries_infinity :
  map (round2 round_finite_exact)
    (fillna0 (ffill [NaN; Finite (7123 # 100); NaN; PosInf; NaN]))
  = [Finite (0 # 100); Finite (7123 # 100); Finite (7123 # 100); PosInf; PosInf].
Proof. reflexivity. Qed.

(** Where the product overflows the rounding gives an infinity of the
    sign of the value. *)
Example round2_overflow :
  map (round2 (fun _ => None)) [Finite 5; Finite (-5); NaN; NegInf]
  = [PosInf; NegInf; NaN; NegInf].
Proof. reflexivity. Qed.

Lemma fetch_failure_gives_empty_history_witness :
  SampleData.offline (PyDict.values SYMBOL_MAP)
  = Raise (OtherException "ConnectionError" "offline")
  /\ fetch_market_data string (fun t => t) SampleData.offline round_finite_exact
     = {| dates := []; datasets := [] |}.
Proof.
  split; [reflexivity|].
  exact (fetch_failure_gives_empty_history string (fun t => t) SampleData.offline
           round_finite_exact (OtherException "ConnectionError" "offline") eq_refl).
Defined.

Example fetch_with_gaps :
  fetch_market_data string (fun t => t) (fun _ => Ok SampleData.frame_with_gaps)
    round_finite_exact
  = {| dates := ["Jan 02"; "Jan 03"; "Jan 04"];
       datasets :=
         [("AAGZU00", [Finite (0 # 100); Finite (7123 # 100); Finite (7123 # 100)]);
          ("SP500", [Finite (470012 # 100); Finite (470012 # 100); Finite (471000 # 100)])] |}.
Proof. reflexivity. Qed.



(** ** The files between the stages *)

Section HandOff.

Variable scorer : string -> string -> Q.
Variable Timestamp : Type.
Variable strftime : Timestamp -> string.
Variable yf_download : list string -> pyres (DataFrame Timestamp).
Variable round_finite : Q -> option Q.
Variable render : Json -> string.

Lemma enrich_main_ok (fs fs' : gmap string File) :
  enrich_main scorer Timestamp strftime yf_download round_finite fs = Ok fs' ->
  exists payload,
    fs' = <[path_join ENRICH_DIR "dashboard_payload.json" := JsonFile (JPayload payload)]> fs.
Proof.
  unfold enrich_main.
  destruct (load_json fs (path_join PROC_DIR "ports.json") ≫= as_ports)
    as [ports|]; [|discriminate].
  destruct (load_json fs (path_join PROC_DIR "benchmarks.json") ≫= as_benchmarks)
    as [benchmarks|]; [|discriminate].
  destruct (load_json fs (path_join PROC_DIR "currencies.json") ≫= as_currencies)
    as [currencies|]; [|discriminate].
  cbn [mbind pyres_bind].
  destruct (final_payload _ _ _ _ _ _ _ _) as [payload|]; [|discriminate].
  intros [= <-]. by exists payload.
Qed.

(** C10: the enrichment stage writes its payload to
    [data/enriched/dashboard_payload.json]; [generate] loads
    [data/processed/dashboard_data.json], a file the enrichment stage
    leaves as it found it; where that file does not exist, [generate]
    raises after a successful enrichment. *)
Theorem generate_does_not_load_the_enrichment_output (fs fs' : gmap string File) :
  enrich_main scorer Timestamp strftime yf_download round_finite fs = Ok fs' ->
  (exists payload,
     fs' !! path_join ENRICH_DIR "dashboard_payload.json"
     = Some (JsonFile (JPayload payload)))
  /\ load_json fs' (path_join PROC_DIR "dashboard_data.json")
     = load_json fs (path_join PROC_DIR "dashboard_data.json")
  /\ (fs !! path_join PROC_DIR "dashboard_data.json" = None ->
      generate render fs'
      = Raise (FileNotFoundError "data/processed/dashboard_data.json")).
Proof.
  intros (payload & ->)%enrich_main_ok.
  assert (Hpath : path_join ENRICH_DIR "dashboard_payload.json"
                  <> path_join PROC_DIR "dashboard_data.json") by discriminate.
  assert (Hload : load_json
                    (<[path_join ENRICH_DIR "dashboard_payload.json"
                       := JsonFile (JPayload payload)]> fs)
                    (path_join PROC_DIR "dashboard_data.json")
                  = load_json fs (path_join PROC_DIR "dashboard_data.json")).
  { unfold load_json. by rewrite lookup_insert_ne. }
  split_and!.
  - exists payload. by rewrite lookup_insert_eq.
  - exact Hload.
  - intros Hnone. unfold generate. rewrite Hload. unfold load_json.
    rewrite Hnone. reflexivity.
Qed.

End HandOff.

Lemma generate_does_not_load_the_enrichment_output_witness :
  enrich_main substring_scorer string (fun t => t) SampleData.offline round_finite_exact
    SampleData.processed = Ok SampleData.enriched
  /\ ((exists payload,
         SampleData.enriched !! path_join ENRICH_DIR "dashboard_payload.json"
         = Some (JsonFile (JPayload payload)))
      /\ load_json SampleData.enriched (path_join PROC_DIR "dashboard_data.json")
         = load_json SampleData.processed (path_join PROC_DIR "dashboard_data.json")
      /\ (SampleData.processed !! path_join PROC_DIR "dashboard_data.json" = None ->
          generate (fun _ => "<html></html>") SampleData.enriched
          = Raise (FileNotFoundError "data/processed/dashboard_data.json"))).
Proof.
  assert (H : enrich_main substring_scorer string (fun t => t) SampleData.offline round_finite_exact
                SampleData.processed = Ok SampleData.enriched)
    by (vm_compute; reflexivity).
  split; [exact H|].
  exact (generate_does_not_load_the_enrichment_output substring_scorer string
           (fun t => t) SampleData.offline round_finite_exact (fun _ => "<html></html>")
           SampleData.processed SampleData.enriched H).
Defined.

Example generate_after_enrichment_raises :
  enrich_main substring_scorer string (fun t => t) SampleData.offline round_finite_exact
    SampleData.processed ≫= generate (fun _ => "<html></html>")
  = Raise (FileNotFoundError "data/processed/dashboard_data.json").
Proof. vm_compute. reflexivity. Qed.

(** * Further properties *)

(** ** Record normaliser: identifiers *)

Module IngestFacts.
Import Ingest.

Lemma prefix_char (a c : ascii) (s : string) :
  String.prefix (String a EmptyString) (String c s) = bool_decide (c = a).
Proof.
  change (String.prefix (String a EmptyString) (String c s))
    with (if ascii_dec a c then String.prefix EmptyString s else false).
  destruct (ascii_dec a c) as [<-|Hne].
  - rewrite bool_decide_eq_true_2 by reflexivity. by destruct s.
  - rewrite bool_decide_eq_false_2; [reflexivity|congruence].
Qed.

Lemma split_nonempty (sep : ascii) (s : string) : split sep s <> [].
Proof.
  destruct s as [|c s]; cbn [split]; [discriminate|].
  destruct (decide (c = sep)); [discriminate|]. by destruct (split sep s).
Qed.

(** Splitting a string joined at a separator gives the parts of both
    sides. *)
Lemma split_app (sep : ascii) (a b : string) :
  split sep (a +:+ String sep b) = split sep a ++ split sep b.
Proof.
  induction a as [|c a IH].
  - change (EmptyString +:+ String sep b) with (String sep b). cbn [split].
    rewrite decide_True by reflexivity. reflexivity.
  - change (String c a +:+ String sep b) with (String c (a +:+ String sep b)).
    cbn [split]. destruct (decide (c = sep)); [by rewrite IH|]. rewrite IH.
    pose proof (split_nonempty sep a) as Hne. by destruct (split sep a).
Qed.

(** A string without the separator is its only part. *)
Lemma split_no_sep (sep : ascii) (x : string) :
  PyStr.occurs (String sep EmptyString) x = false -> split sep x = [x].
Proof.
  induction x as [|c x IH]; [reflexivity|].
  rewrite PyStrFacts.occurs_cons, prefix_char. intros [Hc Hx]%orb_false_iff.
  apply bool_decide_eq_false in Hc. cbn [split]. rewrite decide_False by exact Hc.
  by rewrite (IH Hx).
Qed.

Lemma last_cons_nonempty {A : Type} (x : A) (l : list A) :
  l <> [] -> last (x :: l) = last l.
Proof. by destruct l. Qed.

(** The last part holds no separator, and the string is that part or
    ends with a separator and that part. *)
Lemma last_split (sep : ascii) (s : string) :
  exists seg,
    last (split sep s) = Some seg
    /\ PyStr.occurs (String sep EmptyString) seg = false
    /\ (s = seg \/ exists pre, s = pre +:+ String sep seg).
Proof.
  induction s as [|c s (seg & Hlast & Hno & Hshape)].
  - exists EmptyString. split_and!; [reflexivity|reflexivity|by left].
  - cbn [split]. destruct (decide (c = sep)) as [->|Hc].
    + exists seg. rewrite last_cons_nonempty by apply split_nonempty.
      split_and!; [exact Hlast|exact Hno|right].
      destruct Hshape as [->|[pre ->]]; [by exists EmptyString|by exists (String sep pre)].
    + destruct (split sep s) as [|seg0 rest] eqn:Hsplit;
        [by destruct (split_nonempty sep s)|].
      destruct rest as [|seg1 rest].
      * cbn in Hlast. injection Hlast as <-. exists (String c seg0).
        split_and!; [reflexivity| |left].
        -- rewrite PyStrFacts.occurs_cons, prefix_char, Hno, orb_false_r.
           by apply bool_decide_eq_false.
        -- destruct Hshape as [->|[pre ->]]; [reflexivity|].
           rewrite split_app in Hsplit.
           pose proof (split_nonempty sep pre) as H1.
           pose proof (split_nonempty sep seg0) as H2.
           destruct (split sep pre) as [|? [|]], (split sep seg0); by simplify_eq/=.
      * exists seg. split_and!; [exact Hlast|exact Hno|right].
        destruct Hshape as [->|[pre ->]]; [|by exists (String c pre)].
        rewrite (split_no_sep _ _ Hno) in Hsplit. discriminate.
Qed.

Lemma clean_dunl_id_str (s : string) :
  exists seg,
    clean_dunl_id (PyStr s) = Ok seg
    /\ PyStr.occurs "/" seg = false
    /\ (s = seg \/ exists pre, s = pre +:+ "/" +:+ seg).
Proof.
  destruct (last_split "/" s) as (seg & Hlast & Hno & Hshape).
  exists seg. unfold clean_dunl_id, last_item. cbn [isna].
  rewrite Hlast. split_and!; [reflexivity|exact Hno|exact Hshape].
Qed.

Lemma clean_dunl_id_ok_iff (v : pyval) :
  (exists r, clean_dunl_id v = Ok r) <-> isna v = true \/ exists s, v = PyStr s.
Proof.
  split.
  - intros [r Hr]. destruct v as [s|[q| | |]|z|b|]; cbn in Hr; try discriminate Hr.
    + right. by exists s.
    + by left.
    + by left.
  - intros [Hna | [s ->]].
    + exists "". unfold clean_dunl_id. by rewrite Hna.
    + destruct (clean_dunl_id_str s) as (seg & Hseg & _). by exists seg.
Qed.

End IngestFacts.

(** X1: on a string [clean_dunl_id] returns a text without slash; the
    string is that text, or ends with a slash and that text. *)
Theorem clean_dunl_id_last_segment (s : string) :
  exists seg,
    Ingest.clean_dunl_id (PyStr s) = Ok seg
    /\ PyStr.occurs "/" seg = false
    /\ (s = seg \/ exists pre, s = pre +:+ "/" +:+ seg).
Proof. apply IngestFacts.clean_dunl_id_str. Qed.

(** X2: an identifier without slash put after a base and a slash is
    found again. *)
Theorem clean_dunl_id_of_uri (base x : string) :
  PyStr.occurs "/" x = false ->
  Ingest.clean_dunl_id (PyStr (base +:+ "/" +:+ x)) = Ok x.
Proof.
  intros Hx. unfold Ingest.clean_dunl_id, Ingest.last_item. cbn [Ingest.isna].
  change (base +:+ "/" +:+ x) with (base +:+ String "/" x).
  rewrite IngestFacts.split_app, (IngestFacts.split_no_sep _ _ Hx), last_snoc.
  reflexivity.
Qed.

Lemma clean_dunl_id_of_uri_witness :
  PyStr.occurs "/" "SIN" = false
  /\ Ingest.clean_dunl_id (PyStr ("https://dunl.org/port" +:+ "/" +:+ "SIN")) = Ok "SIN".
Proof.
  assert (H : PyStr.occurs "/" "SIN" = false) by reflexivity.
  split; [exact H|]. exact (clean_dunl_id_of_uri "https://dunl.org/port" "SIN" H).
Defined.

(** X3: [clean_dunl_id] returns exactly on a missing value, where it
    gives the empty string, and on a string; on a number or a boolean it
    raises. *)
Theorem clean_dunl_id_returns_iff (v : pyval) :
  ((exists r, Ingest.clean_dunl_id v = Ok r)
   <-> Ingest.isna v = true \/ exists s, v = PyStr s)
  /\ (Ingest.isna v = true -> Ingest.clean_dunl_id v = Ok "")
  /\ ((forall r, Ingest.clean_dunl_id v <> Ok r)
      -> Ingest.clean_dunl_id v = Raise (AttributeError "split")).
Proof.
  split; [apply IngestFacts.clean_dunl_id_ok_iff|split].
  - intros Hna. unfold Ingest.clean_dunl_id. by rewrite Hna.
  - intros Hnot. destruct v as [s|[q| | |]|z|b|]; try reflexivity.
    + destruct (IngestFacts.clean_dunl_id_str s) as (seg & Hseg & _).
      by destruct (Hnot seg).
    + by destruct (Hnot "").
    + by destruct (Hnot "").
Qed.

(** ** Record normaliser: the three loops *)

Module IngestLoops.
Import Ingest.

Lemma getitem_Ok {V : Type} (k : string) (d : PyDict.t V) (v : V) :
  PyDict.getitem k d = Ok v <-> PyDict.get k d = Some v.
Proof.
  unfold PyDict.getitem. destruct (PyDict.get k d); split; intros [= ->]; reflexivity.
Qed.

Lemma row_id_ok_iff (row : Row) :
  (exists pid, row_id row = Ok pid) <-> id_readable row.
Proof.
  unfold row_id, id_readable.
  destruct (PyDict.getitem "ID" row) as [v|e] eqn:Hv; cbn [mbind pyres_bind].
  - apply getitem_Ok in Hv. rewrite IngestFacts.clean_dunl_id_ok_iff, Hv. split.
    + intros H. by exists v.
    + by intros (v' & [= <-] & H).
  - split; [by intros [? [=]]|]. intros (v & Hget & _).
    apply getitem_Ok in Hget. congruence.
Qed.

(** One turn of the port loop: the row is dropped, or its record is
    appended. *)
Lemma ports_body_spec (ports res : list PortRecord) (row : Row) :
  ports_body ports row = Ok res ->
  exists pid,
    row_id row = Ok pid
    /\ (((pid ∉ PyDict.keys PORT_COORDINATES) /\ res = ports)
        \/ (pid ∈ PyDict.keys PORT_COORDINATES
            /\ exists r, res = ports ++ [r] /\ pr_id r = pid /\ port_of_row row r)).
Proof.
  unfold ports_body, row_id.
  destruct (PyDict.getitem "ID" row) as [v|] eqn:Hv; cbn [mbind pyres_bind];
    [|discriminate].
  destruct (clean_dunl_id v) as [pid|] eqn:Hpid; cbn [mbind pyres_bind];
    [|discriminate].
  destruct (PyDict.mem pid PORT_COORDINATES) eqn:Hmem.
  - apply PyDictFacts.mem_true in Hmem.
    destruct (PyDict.getitem pid PORT_COORDINATES) as [[la lo]|] eqn:Hc;
      cbn [mbind pyres_bind]; [|discriminate].
    apply getitem_Ok in Hc. intros [= <-]. exists pid. split; [reflexivity|right].
    split; [exact Hmem|]. eexists. split; [reflexivity|]. split; [reflexivity|].
    unfold port_of_row, row_id. cbn [pr_id pr_name pr_region pr_lat pr_lng pr_dunl_uri
                                     fst snd].
    rewrite Hv. cbn [mbind pyres_bind]. apply getitem_Ok in Hv. by split_and!.
  - intros [= <-]. exists pid. split; [reflexivity|left]. split; [|reflexivity].
    intros Hin%PyDictFacts.mem_true. congruence.
Qed.

Lemma ports_loop_spec (rows : list Row) (ports res : list PortRecord) :
  for_each ports_body rows ports = Ok res ->
  exists ids kept,
    Forall2 (fun row pid => row_id row = Ok pid) rows ids
    /\ res = ports ++ kept
    /\ map pr_id kept = filter (fun pid => pid ∈ PyDict.keys PORT_COORDINATES) ids
    /\ Forall (fun r => exists row, row ∈ rows /\ port_of_row row r) kept.
Proof.
  revert ports. induction rows as [|row rows IH]; intros ports.
  - intros [= <-]. exists [], []. rewrite app_nil_r. by split_and!; constructor.
  - cbn [for_each]. destruct (ports_body ports row) as [ports'|] eqn:Hrow; [|discriminate].
    cbn. intros (ids & kept & Hids & -> & Hkept & Hrec)%IH.
    destruct (ports_body_spec _ _ _ Hrow)
      as (pid & Hpid & [[Hout ->] | (Hin & r & -> & Hr & Hof)]).
    + exists (pid :: ids), kept. split_and!; [by constructor|reflexivity| |].
      * by rewrite filter_cons, decide_False.
      * eapply Forall_impl; [exact Hrec|]. intros r (row' & Hrow' & H).
        exists row'. split; [apply elem_of_cons; by right|exact H].
    + exists (pid :: ids), (r :: kept). split_and!; [by constructor| | |].
      * by rewrite <- app_assoc.
      * rewrite filter_cons, decide_True by exact Hin. cbn [map]. by rewrite Hr, Hkept.
      * constructor; [exists row; split; [apply elem_of_cons; by left|exact Hof]|].
        eapply Forall_impl; [exact Hrec|]. intros r' (row' & Hrow' & H).
        exists row'. split; [apply elem_of_cons; by right|exact H].
Qed.

(** The port loop appends, row by row, the records of the located rows. *)
Lemma ports_loop_exact (rows : list Row) (ports res : list PortRecord) :
  for_each ports_body rows ports = Ok res ->
  Forall (fun row => exists pid, row_id row = Ok pid) rows
  /\ exists kept,
       res = ports ++ kept /\ Forall2 port_of_row (filter located rows) kept.
Proof.
  revert ports. induction rows as [|row rows IH]; intros ports.
  - intros [= <-]. split; [constructor|]. exists []. rewrite app_nil_r.
    split; [reflexivity|constructor].
  - cbn [for_each]. destruct (ports_body ports row) as [ports'|] eqn:Hrow; [|discriminate].
    cbn [mbind pyres_bind]. intros (Hids & kept & -> & Hkept)%IH.
    destruct (ports_body_spec _ _ _ Hrow)
      as (pid & Hpid & [[Hout ->] | (Hin & r & -> & Hr & Hof)]).
    + split; [constructor; eauto|]. exists kept. split; [reflexivity|].
      rewrite filter_cons, decide_False; [exact Hkept|].
      unfold located. by rewrite Hpid.
    + split; [constructor; eauto|]. exists (r :: kept). split; [by rewrite <- app_assoc|].
      rewrite filter_cons, decide_True; [by constructor|].
      unfold located. by rewrite Hpid.
Qed.

(** A row has one record at most. *)
Lemma port_of_row_functional (row : Row) (r r' : PortRecord) :
  port_of_row row r -> port_of_row row r' -> r = r'.
Proof.
  destruct r as [i n g la lo u], r' as [i' n' g' la' lo' u'].
  unfold port_of_row. cbn [pr_id pr_name pr_region pr_lat pr_lng pr_dunl_uri].
  intros (Hi & Hc & -> & -> & Hu) (Hi' & Hc' & -> & -> & Hu').
  assert (i = i') as <- by congruence. congruence.
Qed.

Lemma benchmarks_body_spec (benchmarks res : list BenchmarkRecord) (row : Row) :
  benchmarks_body benchmarks row = Ok res ->
  exists r, res = benchmarks ++ [r] /\ benchmark_of_row row r.
Proof.
  unfold benchmarks_body.
  destruct (PyDict.getitem "ID" row) as [v|] eqn:Hv; cbn [mbind pyres_bind];
    [|discriminate].
  destruct (clean_dunl_id v) as [bid|] eqn:Hbid; cbn [mbind pyres_bind];
    [|discriminate].
  intros [= <-]. eexists. split; [reflexivity|].
  unfold benchmark_of_row, row_id.
  cbn [br_id br_symbol br_description br_commodity br_currency br_uom br_dunl_uri].
  rewrite Hv. cbn [mbind pyres_bind]. apply getitem_Ok in Hv. by split_and!.
Qed.

Lemma benchmarks_loop_spec (rows : list Row) (benchmarks res : list BenchmarkRecord) :
  for_each benchmarks_body rows benchmarks = Ok res ->
  exists new, res = benchmarks ++ new /\ Forall2 benchmark_of_row rows new.
Proof.
  revert benchmarks. induction rows as [|row rows IH]; intros benchmarks.
  - intros [= <-]. exists []. rewrite app_nil_r. split; [reflexivity|constructor].
  - cbn [for_each].
    destruct (benchmarks_body benchmarks row) as [acc|] eqn:Hrow; [|discriminate].
    cbn. intros (new & -> & Hnew)%IH.
    destruct (benchmarks_body_spec _ _ _ Hrow) as (r & -> & Hr).
    exists (r :: new). rewrite <- app_assoc. split; [reflexivity|by constructor].
Qed.

Lemma ports_loop_ok_iff (rows : list Row) :
  (exists res, for_each ports_body rows [] = Ok res) <-> Forall id_readable rows.
Proof.
  split.
  - intros [res Hres]. refine (for_each_ok_inv _ _ _ _ _ _ Hres).
    intros acc row acc' (pid & Hpid & _)%ports_body_spec.
    apply row_id_ok_iff. eauto.
  - apply for_each_ok. intros acc row (v & Hv & Hid).
    apply IngestFacts.clean_dunl_id_ok_iff in Hid as [pid Hpid].
    apply getitem_Ok in Hv. unfold ports_body. rewrite Hv. cbn [mbind pyres_bind].
    rewrite Hpid. cbn [mbind pyres_bind].
    destruct (PyDict.mem pid PORT_COORDINATES) eqn:Hmem; [|eauto].
    apply PyDictFacts.mem_true, PyDictFacts.get_is_Some in Hmem as [c Hc].
    apply getitem_Ok in Hc. rewrite Hc. cbn [mbind pyres_bind]. eauto.
Qed.

Lemma benchmarks_loop_ok_iff (rows : list Row) :
  (exists res, for_each benchmarks_body rows [] = Ok res) <-> Forall id_readable rows.
Proof.
  split.
  - intros [res Hres]. refine (for_each_ok_inv _ _ _ _ _ _ Hres).
    intros acc row acc' (r & _ & Hid & _)%benchmarks_body_spec.
    apply row_id_ok_iff. eauto.
  - apply for_each_ok. intros acc row (v & Hv & Hid).
    apply IngestFacts.clean_dunl_id_ok_iff in Hid as [bid Hbid].
    apply getitem_Ok in Hv. unfold benchmarks_body. rewrite Hv. cbn [mbind pyres_bind].
    rewrite Hbid. cbn [mbind pyres_bind]. eauto.
Qed.

Lemma currencies_loop_ok_iff (rows : list Row) :
  (exists res, for_each currencies_body rows [] = Ok res)
  <-> Forall (fun row => is_Some (PyDict.get "ID" row)) rows.
Proof.
  split.
  - intros [res Hres]. refine (for_each_ok_inv _ _ _ _ _ _ Hres).
    intros acc row acc'. unfold currencies_body.
    destruct (PyDict.getitem "ID" row) as [v|] eqn:Hv; cbn [mbind pyres_bind];
      [|discriminate].
    apply getitem_Ok in Hv. eauto.
  - apply for_each_ok. intros acc row [v Hv]. apply getitem_Ok in Hv.
    unfold currencies_body. rewrite Hv. cbn [mbind pyres_bind]. eauto.
Qed.

End IngestLoops.

(** X4: the port loop has cleaned the identifier of every row, and
    the records it returns are, one for one and in the order of the
    rows, those of the rows whose cleaned identifier is a key of
    [PORT_COORDINATES]: the record of such a row has that identifier,
    the coordinates of the table under it, the name and region cells of
    the row (the defaults where the row has no such column) and the ID
    cell as it is, which leaves one record only. *)
Theorem ingest_ports_keeps_located_rows
    (rows : list Ingest.Row) (ports : list Ingest.PortRecord) :
  for_each Ingest.ports_body rows [] = Ok ports ->
  Forall (fun row => exists pid, row_id row = Ok pid) rows
  /\ Forall2 port_of_row (filter located rows) ports
  /\ forall row r r', port_of_row row r -> port_of_row row r' -> r = r'.
Proof.
  intros (Hids & kept & -> & Hkept)%IngestLoops.ports_loop_exact.
  split_and!; [exact Hids|exact Hkept|exact IngestLoops.port_of_row_functional].
Qed.

Lemma ingest_ports_keeps_located_rows_witness :
  for_each Ingest.ports_body SampleRows.ports [] = Ok SampleRows.port_records
  /\ Forall (fun row => exists pid, row_id row = Ok pid) SampleRows.ports
  /\ Forall2 port_of_row (filter located SampleRows.ports) SampleRows.port_records
  /\ forall row r r', port_of_row row r -> port_of_row row r' -> r = r'.
Proof.
  assert (H : for_each Ingest.ports_body SampleRows.ports [] = Ok SampleRows.port_records)
    by reflexivity.
  split; [exact H|].
  exact (ingest_ports_keeps_located_rows SampleRows.ports SampleRows.port_records H).
Defined.

Example located_sample_rows :
  filter located SampleRows.ports
  = [[("ID", PyStr "https://dunl.org/port/SIN"); ("port", PyStr "Singapore");
      ("region", PyStr "Asia")];
     [("ID", PyStr "ROT"); ("port", PyFloat NaN)]].
Proof. reflexivity. Qed.

(** X5: the benchmark loop drops no row: it returns one record for every
    row, in the order of the rows, with the cleaned identifier, the ID
    cell as it is, and every other cell of its row as it is, the default
    where the row has no such column. *)
Theorem ingest_benchmarks_one_record_per_row
    (rows : list Ingest.Row) (benchmarks : list Ingest.BenchmarkRecord) :
  for_each Ingest.benchmarks_body rows [] = Ok benchmarks ->
  Forall2 benchmark_of_row rows benchmarks.
Proof. by intros (new & -> & Hnew)%IngestLoops.benchmarks_loop_spec. Qed.

Lemma ingest_benchmarks_one_record_per_row_witness :
  for_each Ingest.benchmarks_body SampleRows.benchmarks [] = Ok SampleRows.benchmark_records
  /\ Forall2 benchmark_of_row SampleRows.benchmarks SampleRows.benchmark_records.
Proof.
  assert (H : for_each Ingest.benchmarks_body SampleRows.benchmarks []
              = Ok SampleRows.benchmark_records) by reflexivity.
  split; [exact H|].
  exact (ingest_benchmarks_one_record_per_row _ _ H).
Defined.

(** X6: the port loop and the benchmark loop return exactly when every
    row has an ID cell that is a string or is missing, the currency loop
    exactly when every row has an ID cell; otherwise they raise and
    return no record, also where the offending row would have been
    dropped. *)
Theorem ingest_loops_return_iff (rows : list Ingest.Row) :
  ((exists res, for_each Ingest.ports_body rows [] = Ok res)
   <-> Forall id_readable rows)
  /\ ((exists res, for_each Ingest.benchmarks_body rows [] = Ok res)
      <-> Forall id_readable rows)
  /\ ((exists res, for_each Ingest.currencies_body rows [] = Ok res)
      <-> Forall (fun row => is_Some (PyDict.get "ID" row)) rows).
Proof.
  split_and!; [apply IngestLoops.ports_loop_ok_iff
              |apply IngestLoops.benchmarks_loop_ok_iff
              |apply IngestLoops.currencies_loop_ok_iff].
Qed.

Example ingest_ports_raises_on_numeric_id :
  for_each Ingest.ports_body
    [[("ID", PyInt 7); ("port", PyStr "Singapore")]] []
  = Raise (AttributeError "split").
Proof. reflexivity. Qed.

Example ingest_currencies_raises_without_id :
  for_each Ingest.currencies_body [[("currencyCode", PyStr "USD")]] []
  = Raise (KeyError "ID").
Proof. reflexivity. Qed.

(** ** Record normaliser and resolver together *)

Lemma Forall2_Forall_iff {A B : Type} (R : A -> B -> Prop) (P : A -> Prop) (Q : B -> Prop)
    (l : list A) (k : list B) :
  (forall x y, R x y -> (P x <-> Q y)) ->
  Forall2 R l k -> (Forall P l <-> Forall Q k).
Proof.
  intros HR. induction 1 as [|x y l k Hxy _ IH]; [split; constructor|].
  rewrite !Forall_cons, IH, (HR x y Hxy). reflexivity.
Qed.

Lemma Forall2_compose {A B C : Type} (R : A -> B -> Prop) (S : B -> C -> Prop)
    (l : list A) (k : list B) (m : list C) :
  Forall2 R l k -> Forall2 S k m -> Forall2 (fun x z => exists y, R x y /\ S y z) l m.
Proof.
  intros H. revert m. induction H as [|x y l k Hxy _ IH]; intros m Hm.
  - inversion Hm. constructor.
  - inversion Hm as [|? z ? m' Hyz Hrest]; subst. constructor; [eauto|by apply IH].
Qed.

Section IngestThenResolve.

Variable scorer : string -> string -> Q.

Lemma raw_resolve_ok_iff (benchmarks : list Raw.Benchmark) (ports : list Raw.Port) :
  (exists links, Raw.resolve_logistics_links scorer benchmarks ports = Ok links)
  <-> Forall (fun p => text_field (Raw.name p)) ports
      /\ Forall (fun b => text_field (Raw.description b)) benchmarks.
Proof.
  unfold Raw.resolve_logistics_links. split.
  - intros [links Hl]. destruct (Raw.port_lookup_of ports) as [d|e] eqn:Hd;
      [|discriminate].
    split; [apply raw_lookup_ok_iff; eauto|]. cbn in Hl.
    apply (raw_loop_ok_iff scorer d benchmarks []). eauto.
  - intros [(d & Hd)%raw_lookup_ok_iff Hb]. rewrite Hd. cbn.
    apply raw_loop_ok_iff, Hb.
Qed.

(** X7: when the benchmark loop has returned its records and the port
    names are strings, the resolver completes on these records exactly
    when every row's description cell, where the row has the column, is a
    string: the default stands in for an absent column only, and a
    missing cell of a present column reaches [clean_text] as NaN. *)
Theorem descriptions_of_rows_decide_the_pass
    (rows : list Ingest.Row) (records : list Ingest.BenchmarkRecord)
    (benchmarks : list Raw.Benchmark) (ports : list Raw.Port) :
  for_each Ingest.benchmarks_body rows [] = Ok records ->
  Forall2 read_as records benchmarks ->
  Forall (fun p => text_field (Raw.name p)) ports ->
  (exists links, Raw.resolve_logistics_links scorer benchmarks ports = Ok links)
  <-> Forall (text_or_absent "description") rows.
Proof.
  intros (new & -> & Hrows)%IngestLoops.benchmarks_loop_spec Hread Hports.
  rewrite raw_resolve_ok_iff. cbn [app] in Hread.
  pose proof (Forall2_compose _ _ _ _ _ Hrows Hread) as Hboth.
  assert (Hiff : Forall (text_or_absent "description") rows
                 <-> Forall (fun b => text_field (Raw.description b)) benchmarks).
  { eapply Forall2_Forall_iff; [|exact Hboth].
    intros row b (r & (_ & _ & Hdesc & _) & (_ & Hb)).
    rewrite Hb, Hdesc. unfold text_or_absent, text_field, Ingest.row_get.
    destruct (PyDict.get "description" row) as [v|].
    - split.
      + intros H. destruct (H v eq_refl) as [s ->]. by exists s.
      + intros [s [= ->]] v' [= <-]. by exists s.
    - split; [by exists ""|]. by intros _ v' [=]. }
  rewrite Hiff. tauto.
Qed.

End IngestThenResolve.

Lemma descriptions_of_rows_decide_the_pass_witness :
  for_each Ingest.benchmarks_body SampleRows.benchmarks [] = Ok SampleRows.benchmark_records
  /\ Forall2 read_as SampleRows.benchmark_records
       [Raw.mkBenchmark "AAGZU00" "CRUDE-SIN" (Some (PyStr "Crude CIF Singapore"));
        Raw.mkBenchmark "B2" "GO-ROT" (Some (PyFloat NaN))]
  /\ Forall (fun p => text_field (Raw.name p)) [Raw.mkPort "SIN" (Some (PyStr "Singapore"))]
  /\ ((exists links,
         Raw.resolve_logistics_links substring_scorer
           [Raw.mkBenchmark "AAGZU00" "CRUDE-SIN" (Some (PyStr "Crude CIF Singapore"));
            Raw.mkBenchmark "B2" "GO-ROT" (Some (PyFloat NaN))]
           [Raw.mkPort "SIN" (Some (PyStr "Singapore"))] = Ok links)
      <-> Forall (text_or_absent "description") SampleRows.benchmarks).
Proof.
  assert (H1 : for_each Ingest.benchmarks_body SampleRows.benchmarks []
               = Ok SampleRows.benchmark_records) by reflexivity.
  assert (H2 : Forall2 read_as SampleRows.benchmark_records
                 [Raw.mkBenchmark "AAGZU00" "CRUDE-SIN" (Some (PyStr "Crude CIF Singapore"));
                  Raw.mkBenchmark "B2" "GO-ROT" (Some (PyFloat NaN))]).
  { repeat constructor. }
  assert (H3 : Forall (fun p => text_field (Raw.name p))
                 [Raw.mkPort "SIN" (Some (PyStr "Singapore"))]).
  { repeat constructor. by exists "Singapore". }
  split_and!; [exact H1|exact H2|exact H3|].
  exact (descriptions_of_rows_decide_the_pass substring_scorer _ _ _ _ H1 H2 H3).
Defined.

Example resolve_raises_on_ingested_nan_description :
  Raw.resolve_logistics_links substring_scorer
    [Raw.mkBenchmark "AAGZU00" "CRUDE-SIN" (Some (PyStr "Crude CIF Singapore"));
     Raw.mkBenchmark "B2" "GO-ROT" (Some (PyFloat NaN))]
    [Raw.mkPort "SIN" (Some (PyStr "Singapore"))]
  = Raise (AttributeError "replace").
Proof. reflexivity. Qed.

(** ** Record normaliser: the script *)

Section IngestMain.

Variable read_csv : string -> pyres (list Ingest.Row).

(** X8: the ingestion script never ends with [FileNotFoundError]; an
    exception of another class raised by the first stage ends the script
    and leaves the files as they were. *)
Theorem ingest_main_catches_file_not_found_only (fs : gmap string Ingest.Doc) :
  (forall path, (Ingest.main read_csv fs).2 <> Some (FileNotFoundError path))
  /\ (forall e,
        Ingest.ingest_ports read_csv fs = Raise e ->
        (forall path, e <> FileNotFoundError path) ->
        Ingest.main read_csv fs = (fs, Some e)).
Proof.
  split.
  - intros path. unfold Ingest.main.
    destruct (Ingest.ingest_ports read_csv fs) as [fs1|e1]; [|by destruct e1].
    destruct (Ingest.ingest_benchmarks read_csv fs1) as [fs2|e2]; [|by destruct e2].
    destruct (Ingest.ingest_currencies read_csv fs2) as [fs3|e3]; [done|by destruct e3].
  - intros e He Hclass. unfold Ingest.main. rewrite He.
    destruct e; try reflexivity. by destruct (Hclass path).
Qed.

(** X9: when the ports file is read and the benchmarks file does not
    exist, the script ends without exception, [ports.json] is written
    and no other file is touched. *)
Theorem ingest_main_keeps_ports_without_benchmarks
    (fs : gmap string Ingest.Doc) (rows : list Ingest.Row)
    (ports : list Ingest.PortRecord) (path : string) :
  read_csv "data/raw/port_Port Charges Location Data.csv" = Ok rows ->
  for_each Ingest.ports_body rows [] = Ok ports ->
  read_csv "data/raw/symbols _Platts Benchmarks.csv" = Raise (FileNotFoundError path) ->
  Ingest.main read_csv fs
  = (<["data/processed/ports.json" := Ingest.DPorts ports]> fs, None).
Proof.
  intros Hcsv Hports Hmissing.
  unfold Ingest.main, Ingest.ingest_ports, Ingest.ingest_benchmarks.
  change (path_join Ingest.RAW_DIR "port_Port Charges Location Data.csv")
    with "data/raw/port_Port Charges Location Data.csv".
  change (path_join Ingest.RAW_DIR "symbols _Platts Benchmarks.csv")
    with "data/raw/symbols _Platts Benchmarks.csv".
  rewrite Hcsv. cbn [mbind pyres_bind]. rewrite Hports. cbn [mbind pyres_bind].
  rewrite Hmissing. reflexivity.
Qed.

End IngestMain.

Lemma ingest_main_keeps_ports_without_benchmarks_witness :
  SampleRows.only_ports "data/raw/port_Port Charges Location Data.csv"
  = Ok SampleRows.ports
  /\ for_each Ingest.ports_body SampleRows.ports [] = Ok SampleRows.port_records
  /\ SampleRows.only_ports "data/raw/symbols _Platts Benchmarks.csv"
     = Raise (FileNotFoundError "data/raw/symbols _Platts Benchmarks.csv")
  /\ Ingest.main SampleRows.only_ports ∅
     = (<["data/processed/ports.json" := Ingest.DPorts SampleRows.port_records]> ∅, None).
Proof.
  assert (H1 : SampleRows.only_ports "data/raw/port_Port Charges Location Data.csv"
               = Ok SampleRows.ports) by reflexivity.
  assert (H2 : for_each Ingest.ports_body SampleRows.ports [] = Ok SampleRows.port_records)
    by reflexivity.
  assert (H3 : SampleRows.only_ports "data/raw/symbols _Platts Benchmarks.csv"
               = Raise (FileNotFoundError "data/raw/symbols _Platts Benchmarks.csv"))
    by reflexivity.
  split_and!; [exact H1|exact H2|exact H3|].
  exact (ingest_main_keeps_ports_without_benchmarks SampleRows.only_ports ∅ _ _ _ H1 H2 H3).
Defined.

(** ** Text normaliser: what it keeps *)

Module CleanTextFacts.
Import PyStr.

Lemma remove_scan_sublist (old : string) (k : nat) (s : string) :
  sublist (list_ascii_of_string (remove_scan old k s)) (list_ascii_of_string s).
Proof.
  revert k. induction s as [|c s IH]; intros k; [constructor|].
  cbn [remove_scan list_ascii_of_string]. destruct k as [|k].
  - destruct (String.prefix old (String c s)).
    + apply sublist_cons, IH.
    + cbn [list_ascii_of_string]. apply sublist_skip, IH.
  - apply sublist_cons, IH.
Qed.

Lemma lstrip_sublist (s : string) :
  sublist (list_ascii_of_string (lstrip s)) (list_ascii_of_string s).
Proof.
  induction s as [|c s IH]; [constructor|]. cbn [lstrip].
  destruct (isspace c); [|reflexivity]. cbn [list_ascii_of_string].
  apply sublist_cons, IH.
Qed.

Lemma rstrip_sublist (s : string) :
  sublist (list_ascii_of_string (rstrip s)) (list_ascii_of_string s).
Proof.
  induction s as [|c s IH]; [constructor|]. cbn [rstrip list_ascii_of_string].
  destruct (rstrip s) as [|d r].
  - destruct (isspace c).
    + apply sublist_cons, IH.
    + cbn [list_ascii_of_string]. apply sublist_skip, IH.
  - cbn [list_ascii_of_string] in *. apply sublist_skip, IH.
Qed.

Lemma remove_words_sublist (words : list string) (t : string) :
  sublist
    (list_ascii_of_string (fold_left (fun t word => remove word t) words t))
    (list_ascii_of_string t).
Proof.
  revert t. induction words as [|w words IH]; intros t; [reflexivity|].
  cbn [fold_left]. etransitivity; [apply IH|apply remove_scan_sublist].
Qed.

End CleanTextFacts.

(** X10: [clean_text] only deletes: the characters of its result are
    characters of the text, in the order of the text. *)
Theorem clean_text_only_deletes (s : string) :
  sublist (list_ascii_of_string (clean_text s)) (list_ascii_of_string s).
Proof.
  unfold clean_text, PyStr.strip.
  etransitivity; [apply CleanTextFacts.rstrip_sublist|].
  etransitivity; [apply CleanTextFacts.lstrip_sublist|].
  etransitivity; [apply CleanTextFacts.remove_words_sublist|].
  apply CleanTextFacts.remove_scan_sublist.
Qed.

(** X11: a text without period and without noise word is only stripped. *)
Theorem clean_text_of_clean_text_is_strip (s : string) :
  PyStr.occurs "." s = false ->
  Forall (fun w => PyStr.occurs w s = false) noise_words ->
  clean_text s = PyStr.strip s.
Proof.
  intros Hdot Hwords. unfold clean_text.
  rewrite (PyStrFacts.remove_absent "." s Hdot).
  by rewrite (remove_words_absent noise_words s Hwords).
Qed.

Lemma clean_text_of_clean_text_is_strip_witness :
  PyStr.occurs "." "  Port of Rotterdam " = false
  /\ Forall (fun w => PyStr.occurs w "  Port of Rotterdam " = false) noise_words
  /\ clean_text "  Port of Rotterdam " = PyStr.strip "  Port of Rotterdam ".
Proof.
  assert (H1 : PyStr.occurs "." "  Port of Rotterdam " = false) by reflexivity.
  assert (H2 : Forall (fun w => PyStr.occurs w "  Port of Rotterdam " = false) noise_words).
  { repeat constructor. }
  split_and!; [exact H1|exact H2|].
  exact (clean_text_of_clean_text_is_strip "  Port of Rotterdam " H1 H2).
Defined.

(** ** Entity resolver: the lookup and the links *)

Lemma keys_set_cases {V : Type} (k : string) (v : V) (d : PyDict.t V) :
  PyDict.keys (PyDict.set k v d)
  = if decide (k ∈ PyDict.keys d) then PyDict.keys d else PyDict.keys d ++ [k].
Proof.
  unfold PyDict.keys. induction d as [|[k0 v0] d IH]; cbn [PyDict.set map fst].
  - rewrite decide_False; [reflexivity|]. by intros ?%elem_of_nil.
  - destruct (decide (k0 = k)) as [->|Hne]; cbn [map fst].
    + rewrite decide_True; [reflexivity|]. apply elem_of_cons. by left.
    + rewrite IH. destruct (decide (k ∈ map fst d)) as [Hin|Hout].
      * rewrite decide_True; [reflexivity|]. apply elem_of_cons. by right.
      * rewrite decide_False; [reflexivity|].
        intros [Heq|Hin]%elem_of_cons; [congruence|done].
Qed.

Lemma port_lookup_keys_NoDup (ports : list Port) :
  NoDup (PyDict.keys (port_lookup_of ports)).
Proof.
  induction ports as [|p ports IH] using rev_ind; [constructor|].
  rewrite port_lookup_snoc, keys_set_cases. case_decide as Hin; [exact IH|].
  apply NoDup_app. split_and!; [exact IH| |apply NoDup_singleton].
  intros n Hn ->%list_elem_of_singleton. exact (Hin Hn).
Qed.

Lemma port_lookup_app (before after : list Port) :
  port_lookup_of (before ++ after)
  = fold_left (fun d p => PyDict.set (clean_text (p_name p)) (p_id p) d) after
      (port_lookup_of before).
Proof. unfold port_lookup_of. apply fold_left_app. Qed.

Lemma port_lookup_untouched (after : list Port) (d : PyDict.t string) (n : string) :
  Forall (fun q => clean_text (p_name q) <> n) after ->
  PyDict.get n (fold_left (fun d p => PyDict.set (clean_text (p_name p)) (p_id p) d) after d)
  = PyDict.get n d.
Proof.
  intros Hafter. revert d. induction Hafter as [|q after Hq _ IH]; intros d; [reflexivity|].
  cbn [fold_left]. rewrite IH, PyDictFacts.get_set. by rewrite decide_False.
Qed.

(** X12: the port names given to the fuzzy match are the cleaned names
    of the ports, each once; under a name the lookup holds the identifier
    of the last port with that cleaned name. *)
Theorem port_lookup_last_port_wins (ports : list Port) :
  NoDup (PyDict.keys (port_lookup_of ports))
  /\ (forall n, n ∈ PyDict.keys (port_lookup_of ports)
                <-> exists p, p ∈ ports /\ clean_text (p_name p) = n)
  /\ (forall before p after,
        ports = before ++ p :: after ->
        Forall (fun q => clean_text (p_name q) <> clean_text (p_name p)) after ->
        PyDict.get (clean_text (p_name p)) (port_lookup_of ports) = Some (p_id p)).
Proof.
  split_and!; [apply port_lookup_keys_NoDup|exact (port_lookup_keys (const_scorer 0) ports)|].
  intros before p after -> Hafter.
  change (before ++ p :: after) with (before ++ [p] ++ after).
  rewrite app_assoc, port_lookup_app, (port_lookup_untouched _ _ _ Hafter).
  apply port_lookup_last_wins.
Qed.

Example port_lookup_collision :
  port_lookup_of [Sample.sin; Sample.rot; Sample.sin_again]
  = [("Singapore", "SIN"); ("Rotterdam", "ROT")].
Proof. reflexivity. Qed.

Section ResolverLinks.

Variable scorer : string -> string -> Q.



(** One turn of the loop appends nothing or the link of the benchmark
    and a port of the list. *)
Lemma resolve_body_link (ports : list Port) (links res : list Edge) (b : Benchmark) :
  resolve_body scorer (port_lookup_of ports)
    (PyDict.keys (port_lookup_of ports)) links b = Ok res ->
  res = links
  \/ exists p, p ∈ ports
       /\ res = links ++ [make_link (b_id b) (b_description b) (p_id p)
                            (clean_text (p_name p))].
Proof.
  unfold resolve_body, match_benchmark.
  destruct (extractOne scorer _ _) as [[[n s] i]|]; [|intros [= <-]; by left].
  destruct (exceeds s 80); [|intros [= <-]; by left].
  unfold PyDict.getitem.
  destruct (PyDict.get n (port_lookup_of ports)) as [pid|] eqn:Hpid; [|discriminate].
  cbn. intros [= <-]. right.
  destruct (port_lookup_get _ _ _ Hpid) as (p & Hp & <- & <-). by exists p.
Qed.

Lemma resolve_loop_links (ports : list Port) (benchmarks : list Benchmark)
    (links res : list Edge) :
  for_each (resolve_body scorer (port_lookup_of ports)
              (PyDict.keys (port_lookup_of ports))) benchmarks links = Ok res ->
  exists new,
    res = links ++ new
    /\ Forall (fun l => exists b p, b ∈ benchmarks /\ p ∈ ports
                 /\ l = make_link (b_id b) (b_description b) (p_id p)
                          (clean_text (p_name p))) new.
Proof.
  revert links. induction benchmarks as [|b benchmarks IH]; intros links.
  - intros [= <-]. exists []. rewrite app_nil_r. split; [reflexivity|constructor].
  - cbn [for_each].
    destruct (resolve_body scorer _ _ links b) as [links'|] eqn:Hb; [|discriminate].
    cbn. intros (new & -> & Hnew)%IH.
    assert (Hnew' : Forall (fun l => exists b0 p, b0 ∈ b :: benchmarks /\ p ∈ ports
                              /\ l = make_link (b_id b0) (b_description b0) (p_id p)
                                       (clean_text (p_name p))) new).
    { eapply Forall_impl; [exact Hnew|]. intros l (b0 & p & Hb0 & Hp & Hl).
      exists b0, p. split_and!; [apply elem_of_cons; by right|exact Hp|exact Hl]. }
    destruct (resolve_body_link _ _ _ _ Hb) as [-> | (p & Hp & ->)].
    + by exists new.
    + eexists (_ :: new). rewrite <- app_assoc. split; [reflexivity|].
      constructor; [|exact Hnew']. exists b, p.
      split_and!; [apply elem_of_cons; by left|exact Hp|reflexivity].
Qed.

(** X14: every link returned is the link of a benchmark of the list and
    a port of the list: it has the fixed label, arrows, colour and
    dashes, and its title quotes the cleaned port name and the
    description as it was given. *)
Theorem resolve_links_are_made_of_inputs (benchmarks : list Benchmark)
    (ports : list Port) (links : list Edge) :
  resolve_logistics_links scorer benchmarks ports = Ok links ->
  Forall (fun l => exists b p, b ∈ benchmarks /\ p ∈ ports
            /\ l = make_link (b_id b) (b_description b) (p_id p)
                     (clean_text (p_name p))) links.
Proof.
  unfold resolve_logistics_links. by intros (new & -> & Hnew)%resolve_loop_links.
Qed.

End ResolverLinks.

Lemma resolve_links_are_made_of_inputs_witness :
  resolve_logistics_links substring_scorer [Sample.crude_sin] [Sample.sin; Sample.rot]
  = Ok [make_link "AAGZU00" "Crude CIF Singapore" "SIN" "Singapore"]
  /\ Forall (fun l => exists b p, b ∈ [Sample.crude_sin] /\ p ∈ [Sample.sin; Sample.rot]
               /\ l = make_link (b_id b) (b_description b) (p_id p)
                        (clean_text (p_name p)))
       [make_link "AAGZU00" "Crude CIF Singapore" "SIN" "Singapore"].
Proof.
  assert (H : resolve_logistics_links substring_scorer [Sample.crude_sin]
                [Sample.sin; Sample.rot]
              = Ok [make_link "AAGZU00" "Crude CIF Singapore" "SIN" "Singapore"])
    by reflexivity.
  split; [exact H|].
  exact (resolve_links_are_made_of_inputs substring_scorer _ _ _ H).
Defined.

(** ** Graph assembler: edges and nodes *)

Lemma add_benchmark_edges_exact (st : Assembly) (b : Benchmark) :
  edges (add_benchmark st b)
  = edges st ++ (if decide (listed b) then structural_edges b else []).
Proof.
  unfold add_benchmark, structural_edges.
  destruct (decide (listed b)) as [Hl|Hl]; unfold listed in Hl.
  - rewrite Hl. cbv zeta.
    destruct (add_if_new (b_commodity b) _ _) as [ns2 ex2].
    destruct (add_if_new (b_currency b) _ _) as [ns3 ex3].
    cbn [edges]. by rewrite <- app_assoc.
  - destruct (PyDict.mem (b_id b) SYMBOL_MAP); [done|]. by rewrite app_nil_r.
Qed.

Lemma add_benchmarks_edges_exact (benchmarks : list Benchmark) (st : Assembly) :
  edges (fold_left add_benchmark benchmarks st)
  = edges st ++ concat (map structural_edges (filter listed benchmarks)).
Proof.
  revert st. induction benchmarks as [|b benchmarks IH]; intros st.
  - cbn. by rewrite app_nil_r.
  - cbn [fold_left]. rewrite IH, add_benchmark_edges_exact, filter_cons.
    destruct (decide (listed b)); [|by rewrite app_nil_r].
    cbn [map concat]. by rewrite <- app_assoc.
Qed.

(** X15: the edges of the graph are the dynamic links, then, for every
    benchmark of [SYMBOL_MAP] in the order of the list, the edge from its
    commodity to it and the edge from it to its currency; a benchmark
    outside [SYMBOL_MAP] gives no structural edge. *)
Theorem build_knowledge_graph_edges (ports : list Port) (benchmarks : list Benchmark)
    (currencies : list Currency) (dynamic_links : list Edge) :
  g_edges (build_knowledge_graph ports benchmarks currencies dynamic_links)
  = dynamic_links ++ concat (map structural_edges (filter listed benchmarks)).
Proof.
  unfold build_knowledge_graph. cbn [g_edges]. apply add_benchmarks_edges_exact.
Qed.

Lemma add_benchmark_nodes_from (st : Assembly) (b : Benchmark) :
  exists extra,
    nodes (add_benchmark st b) = nodes st ++ extra
    /\ Forall (fun n => listed b /\ benchmark_part b n) extra.
Proof.
  unfold add_benchmark, add_if_new, listed, benchmark_part.
  destruct (PyDict.mem (b_id b) SYMBOL_MAP);
    [|exists []; by rewrite app_nil_r].
  cbn [fst snd]. repeat case_decide; cbn [fst snd nodes]; rewrite <- ?app_assoc;
    eexists; (split; [reflexivity|]); repeat constructor; tauto.
Qed.

Lemma add_benchmarks_nodes_from (benchmarks : list Benchmark) (st : Assembly) :
  exists extra,
    nodes (fold_left add_benchmark benchmarks st) = nodes st ++ extra
    /\ Forall (fun n => exists b, b ∈ benchmarks /\ listed b /\ benchmark_part b n) extra.
Proof.
  revert st. induction benchmarks as [|b benchmarks IH]; intros st.
  - exists []. by rewrite app_nil_r.
  - cbn [fold_left]. destruct (IH (add_benchmark st b)) as (extra2 & -> & H2).
    destruct (add_benchmark_nodes_from st b) as (extra1 & -> & H1).
    exists (extra1 ++ extra2). rewrite <- app_assoc. split; [reflexivity|].
    apply Forall_app. split.
    + eapply Forall_impl; [exact H1|]. intros n [Hl Hn]. exists b.
      split_and!; [apply elem_of_cons; by left|exact Hl|exact Hn].
    + eapply Forall_impl; [exact H2|]. intros n (b' & Hb' & Hl & Hn). exists b'.
      split_and!; [apply elem_of_cons; by right|exact Hl|exact Hn].
Qed.

(** X16: every node of the graph is the benchmark node, the commodity
    node or the currency node of a benchmark of [SYMBOL_MAP], or the port
    node of a port that a dynamic link targets; a benchmark outside
    [SYMBOL_MAP] and a port without link give no node.  The value of a
    node is 25, 40, 15 or 20 by its group. *)
Theorem build_knowledge_graph_node_sources (ports : list Port)
    (benchmarks : list Benchmark) (currencies : list Currency)
    (dynamic_links : list Edge) (n : Node) :
  n ∈ g_nodes (build_knowledge_graph ports benchmarks currencies dynamic_links) ->
  ((exists b, b ∈ benchmarks /\ listed b /\ benchmark_part b n)
   \/ (exists p, p ∈ ports /\ link_target dynamic_links (p_id p) /\ n = port_node p))
  /\ n_value n = group_value (n_group n).
Proof.
  unfold build_knowledge_graph. cbn [g_nodes]. rewrite add_port_fold.
  destruct (add_benchmarks_nodes_from benchmarks
              {| nodes := []; edges := [] ++ dynamic_links; existing_nodes := ∅ |})
    as (extra & -> & Hextra).
  cbn [nodes app]. intros [Hn | Hn]%elem_of_app.
  - rewrite Forall_forall in Hextra. destruct (Hextra n Hn) as (b & Hb & Hl & Hpart).
    split; [left; by exists b|]. by destruct Hpart as [-> | [-> | ->]].
  - apply elem_of_map in Hn as (p & -> & Hp).
    apply list_elem_of_filter in Hp as [Hlinked Hp].
    apply linked_port_ids_spec in Hlinked. split; [right; by exists p|reflexivity].
Qed.

Lemma build_knowledge_graph_node_sources_witness :
  port_node Sample.sin
    ∈ g_nodes (build_knowledge_graph [Sample.sin; Sample.rot]
                 [Sample.gasoil_sin; Sample.crude_sin] []
                 [make_link "AAGZU00" "Crude CIF Singapore" "SIN" "Singapore"])
  /\ ((exists b, b ∈ [Sample.gasoil_sin; Sample.crude_sin] /\ listed b
                 /\ benchmark_part b (port_node Sample.sin))
      \/ (exists p, p ∈ [Sample.sin; Sample.rot]
            /\ link_target [make_link "AAGZU00" "Crude CIF Singapore" "SIN" "Singapore"]
                 (p_id p)
            /\ port_node Sample.sin = port_node p))
  /\ n_value (port_node Sample.sin) = group_value (n_group (port_node Sample.sin)).
Proof.
  assert (H : port_node Sample.sin
                ∈ g_nodes (build_knowledge_graph [Sample.sin; Sample.rot]
                             [Sample.gasoil_sin; Sample.crude_sin] []
                             [make_link "AAGZU00" "Crude CIF Singapore" "SIN" "Singapore"])).
  { vm_compute. do 3 (apply elem_of_cons; right). apply elem_of_cons. by left. }
  split; [exact H|].
  exact (build_knowledge_graph_node_sources _ _ _ _ _ H).
Defined.

(** ** Graph assembler: where identifiers are deduplicated *)

Lemma kept_once_snoc (ns : list Node) (m : Node) :
  kept_once ns ->
  (deduplicated m -> n_id m ∉ map n_id ns) ->
  kept_once (ns ++ [m]).
Proof.
  intros Hns Hm i n Hi Hn. destruct (decide (i < length ns)%nat) as [Hlt|Hge].
  - rewrite lookup_app_l in Hi by exact Hlt.
    rewrite take_app_le by lia. by apply (Hns i n).
  - rewrite lookup_app_r in Hi by lia.
    destruct (i - length ns)%nat as [|k] eqn:Hk; [|by destruct k].
    injection Hi as <-. assert (i = length ns) as -> by lia.
    rewrite take_app_length. by apply Hm.
Qed.

Lemma kept_once_app (ns ms : list Node) :
  kept_once ns -> Forall (fun m => ~ deduplicated m) ms -> kept_once (ns ++ ms).
Proof.
  intros Hns Hms. induction ms as [|m ms IH] using rev_ind; [by rewrite app_nil_r|].
  apply Forall_app in Hms as [Hms Hm]. apply Forall_inv in Hm.
  rewrite app_assoc. apply kept_once_snoc; [by apply IH|].
  intros Hd. by destruct (Hm Hd).
Qed.

Lemma add_if_new_kept_once (x : string) (n : Node) (ns ns' : list Node)
    (ex ex' : gset string) :
  n_id n = x ->
  add_if_new x n (ns, ex) = (ns', ex') ->
  (forall y, y ∈ map n_id ns -> y ∈ ex) -> kept_once ns ->
  (forall y, y ∈ map n_id ns' -> y ∈ ex') /\ kept_once ns'.
Proof.
  intros Hid Heq Hsub Hns. unfold add_if_new in Heq. cbn [fst snd] in Heq.
  destruct (decide (x ∈ ex)) as [Hin|Hnot]; injection Heq as <- <-; [by split|].
  split.
  - intros y. rewrite map_app, elem_of_app, elem_of_union, elem_of_singleton.
    cbn [map]. rewrite list_elem_of_singleton, Hid. intros [Hy | ->]; [left|right]; auto.
  - apply kept_once_snoc; [exact Hns|]. intros _ Hx. apply Hnot, Hsub. by rewrite <- Hid.
Qed.

Lemma add_benchmark_kept_once (st : Assembly) (b : Benchmark) :
  (forall y, y ∈ map n_id (nodes st) -> y ∈ existing_nodes st) ->
  kept_once (nodes st) ->
  (forall y, y ∈ map n_id (nodes (add_benchmark st b))
             -> y ∈ existing_nodes (add_benchmark st b))
  /\ kept_once (nodes (add_benchmark st b)).
Proof.
  intros Hsub Hns. unfold add_benchmark.
  destruct (PyDict.mem (b_id b) SYMBOL_MAP); [|by split]. cbv zeta.
  destruct (add_if_new (b_commodity b) _ _) as [ns2 ex2] eqn:H2.
  destruct (add_if_new (b_currency b) _ _) as [ns3 ex3] eqn:H3.
  cbn [nodes existing_nodes].
  assert (Hsub1 : forall y, y ∈ map n_id (nodes st ++ [benchmark_node b])
                            -> y ∈ existing_nodes st ∪ {[b_id b]}).
  { intros y. rewrite map_app, elem_of_app, elem_of_union, elem_of_singleton.
    cbn [map]. rewrite list_elem_of_singleton. intros [Hy | ->]; [left|right]; auto. }
  assert (Hns1 : kept_once (nodes st ++ [benchmark_node b])).
  { apply kept_once_snoc; [exact Hns|]. by intros [? | ?]. }
  destruct (add_if_new_kept_once (b_commodity b) (commodity_node (b_commodity b))
              _ _ _ _ eq_refl H2 Hsub1 Hns1) as [Hsub2 Hns2].
  exact (add_if_new_kept_once (b_currency b) (currency_node (b_currency b))
           _ _ _ _ eq_refl H3 Hsub2 Hns2).
Qed.

Lemma add_benchmarks_kept_once (benchmarks : list Benchmark) (st : Assembly) :
  (forall y, y ∈ map n_id (nodes st) -> y ∈ existing_nodes st) ->
  kept_once (nodes st) ->
  kept_once (nodes (fold_left add_benchmark benchmarks st)).
Proof.
  revert st. induction benchmarks as [|b benchmarks IH]; intros st Hsub Hns; [exact Hns|].
  cbn [fold_left]. destruct (add_benchmark_kept_once st b Hsub Hns). by apply IH.
Qed.

(** X17: a commodity node or a currency node never repeats the
    identifier of a node before it in the node list: what
    [existing_nodes] guards is added once, whatever the input. *)
Theorem commodity_and_currency_nodes_are_new (ports : list Port)
    (benchmarks : list Benchmark) (currencies : list Currency)
    (dynamic_links : list Edge) :
  kept_once (g_nodes (build_knowledge_graph ports benchmarks currencies dynamic_links)).
Proof.
  unfold build_knowledge_graph. cbn [g_nodes]. rewrite add_port_fold.
  apply kept_once_app.
  - apply add_benchmarks_kept_once; [by intros y ?%elem_of_nil|].
    intros i n Hi. cbn [nodes] in Hi. by rewrite lookup_nil in Hi.
  - apply Forall_forall. intros m (p & -> & _)%elem_of_map. by intros [? | ?].
Qed.

(** ** Graph assembler with the resolver *)

Section GraphOfResolvedLinks.

Variable scorer : string -> string -> Q.

(** X18: in the graph of a combined run the ['to'] of every edge is the
    identifier of a node, and the ['from'] of every edge is one too
    unless the edge is a link whose benchmark is outside [SYMBOL_MAP]. *)
Theorem edges_dangle_only_at_unlisted_benchmarks (ports : list Port)
    (benchmarks : list Benchmark) (currencies : list Currency) (g : Graph) :
  resolve_then_build scorer ports benchmarks currencies = Ok g ->
  forall e, e ∈ g_edges g ->
    e_to e ∈ node_ids g
    /\ (e_from e ∈ node_ids g
        \/ exists b, b ∈ benchmarks /\ e_from e = b_id b
                     /\ PyDict.mem (b_id b) SYMBOL_MAP = false).
Proof. apply combined_run_ends. Qed.

End GraphOfResolvedLinks.

Lemma edges_dangle_only_at_unlisted_benchmarks_witness :
  resolve_then_build substring_scorer [Sample.sin] [Sample.crude_sin] []
  = Ok (pl_graph SampleData.payload)
  /\ forall e, e ∈ g_edges (pl_graph SampleData.payload) ->
       e_to e ∈ node_ids (pl_graph SampleData.payload)
       /\ (e_from e ∈ node_ids (pl_graph SampleData.payload)
           \/ exists b, b ∈ [Sample.crude_sin] /\ e_from e = b_id b
                        /\ PyDict.mem (b_id b) SYMBOL_MAP = false).
Proof.
  assert (H : resolve_then_build substring_scorer [Sample.sin] [Sample.crude_sin] []
              = Ok (pl_graph SampleData.payload)) by (vm_compute; reflexivity).
  split; [exact H|].
  exact (edges_dangle_only_at_unlisted_benchmarks substring_scorer _ _ _ _ H).
Defined.

(** X19: the identifiers of the nodes are pairwise distinct when the
    rows that give nodes repeat nothing: the benchmarks of [SYMBOL_MAP]
    have distinct identifiers that are no commodity and no currency of
    such a benchmark, and the ports that a link targets have distinct
    identifiers that are no identifier, commodity or currency of such a
    benchmark. *)
Theorem node_ids_distinct_without_repeated_rows (ports : list Port)
    (benchmarks : list Benchmark) (currencies : list Currency)
    (dynamic_links : list Edge) :
  NoDup (map b_id (filter listed benchmarks)) ->
  (forall b b', b ∈ filter listed benchmarks -> b' ∈ filter listed benchmarks ->
     b_id b <> b_commodity b' /\ b_id b <> b_currency b') ->
  NoDup (map p_id (filter (fun p => p_id p ∈ map e_to dynamic_links) ports)) ->
  (forall p b, p ∈ ports -> p_id p ∈ map e_to dynamic_links ->
     b ∈ filter listed benchmarks ->
     p_id p <> b_id b /\ p_id p <> b_commodity b /\ p_id p <> b_currency b) ->
  NoDup (node_ids (build_knowledge_graph ports benchmarks currencies dynamic_links)).
Proof. apply node_ids_NoDup. Qed.

Lemma node_ids_distinct_without_repeated_rows_witness :
  NoDup (map b_id (filter listed [Sample.gasoil_sin; Sample.crude_sin; Sample.sp500]))
  /\ NoDup (map p_id
             (filter (fun p => p_id p
                        ∈ map e_to [make_link "AAGZU00" "Crude CIF Singapore" "SIN"
                                      "Singapore"])
                [Sample.sin; Sample.rot]))
  /\ NoDup (node_ids
             (build_knowledge_graph [Sample.sin; Sample.rot]
                [Sample.gasoil_sin; Sample.crude_sin; Sample.sp500] []
                [make_link "AAGZU00" "Crude CIF Singapore" "SIN" "Singapore"])).
Proof.
  assert (H1 : NoDup (map b_id (filter listed
                        [Sample.gasoil_sin; Sample.crude_sin; Sample.sp500]))).
  { apply (bool_decide_unpack _). vm_compute. exact I. }
  assert (H2 : forall b b',
             b ∈ filter listed [Sample.gasoil_sin; Sample.crude_sin; Sample.sp500] ->
             b' ∈ filter listed [Sample.gasoil_sin; Sample.crude_sin; Sample.sp500] ->
             b_id b <> b_commodity b' /\ b_id b <> b_currency b').
  { change (filter listed [Sample.gasoil_sin; Sample.crude_sin; Sample.sp500])
      with [Sample.crude_sin; Sample.sp500].
    intros b b' Hb Hb'.
    repeat (apply elem_of_cons in Hb as [-> | Hb]); [| |by apply elem_of_nil in Hb];
      repeat (apply elem_of_cons in Hb' as [-> | Hb']);
      try (by apply elem_of_nil in Hb'); split; discriminate. }
  assert (H3 : NoDup (map p_id
                  (filter (fun p => p_id p
                             ∈ map e_to [make_link "AAGZU00" "Crude CIF Singapore" "SIN"
                                           "Singapore"])
                     [Sample.sin; Sample.rot]))).
  { apply (bool_decide_unpack _). vm_compute. exact I. }
  assert (H4 : forall p b,
             p ∈ [Sample.sin; Sample.rot] ->
             p_id p ∈ map e_to [make_link "AAGZU00" "Crude CIF Singapore" "SIN"
                                  "Singapore"] ->
             b ∈ filter listed [Sample.gasoil_sin; Sample.crude_sin; Sample.sp500] ->
             p_id p <> b_id b /\ p_id p <> b_commodity b /\ p_id p <> b_currency b).
  { change (filter listed [Sample.gasoil_sin; Sample.crude_sin; Sample.sp500])
      with [Sample.crude_sin; Sample.sp500].
    intros p b Hp _ Hb.
    repeat (apply elem_of_cons in Hp as [-> | Hp]); [| |by apply elem_of_nil in Hp];
      repeat (apply elem_of_cons in Hb as [-> | Hb]);
      try (by apply elem_of_nil in Hb); split_and!; discriminate. }
  split_and!; [exact H1|exact H3|].
  exact (node_ids_distinct_without_repeated_rows _ _ _ _ H1 H2 H3 H4).
Defined.

(** ** Market history fetcher: the two fills *)

Lemma last_observed_cons (x : pyfloat) (values : list pyfloat) :
  last_observed (x :: values)
  = match last_observed values with
    | Some v => Some v
    | None => if isnan x then None else Some x
    end.
Proof.
  unfold last_observed. rewrite filter_cons. destruct (isnan x) eqn:Hx.
  - rewrite decide_False by discriminate. by destruct (last _).
  - rewrite decide_True by reflexivity. apply last_cons.
Qed.

Lemma last_observed_not_nan (values : list pyfloat) (v : pyfloat) :
  last_observed values = Some v -> isnan v = false.
Proof.
  unfold last_observed. intros Hv%last_Some_elem_of.
  by apply list_elem_of_filter in Hv as [Hv _].
Qed.

(** After the forward fill a position holds the last value observed up
    to it, or what was carried in, or NaN. *)
Lemma ffill_from_lookup (carried : option pyfloat) (values : list pyfloat) (i : nat) :
  (i < length values)%nat ->
  ffill_from carried values !! i
  = Some (match last_observed (take (S i) values) with
          | Some v => v
          | None => default NaN carried
          end).
Proof.
  revert carried i. induction values as [|x values IH]; intros carried i Hi;
    [cbn in Hi; lia|].
  cbn [take]. rewrite last_observed_cons. cbn [ffill_from].
  destruct i as [|i].
  - rewrite take_0. cbn [last_observed]. unfold last_observed. cbn.
    destruct (isnan x) eqn:Hx; [|reflexivity].
    destruct x; try discriminate Hx. by destruct carried.
  - cbn [length] in Hi. assert (Hi' : (i < length values)%nat) by lia.
    destruct (isnan x) eqn:Hx.
    + destruct carried as [v|]; cbn [lookup list_lookup]; rewrite (IH _ i Hi');
        by destruct (last_observed _).
    + cbn [lookup list_lookup]. rewrite (IH _ i Hi').
      by destruct (last_observed _).
Qed.

(** After the two fills and the rounding a position holds the rounded
    last observation up to it, and the rounded 0 where there is none. *)
Lemma clean_data_lookup (round_finite : Q -> option Q) (values : list pyfloat)
    (i : nat) :
  (i < length values)%nat ->
  map (round2 round_finite) (fillna0 (ffill values)) !! i
  = Some (round2 round_finite
            (default (Finite 0) (last_observed (take (S i) values)))).
Proof.
  intros Hi. unfold fillna0, ffill.
  change (map (round2 round_finite)
            (map (fun x => if isnan x then Finite 0 else x) (ffill_from None values)))
    with (round2 round_finite <$> ((fun x => if isnan x then Finite 0 else x)
                                     <$> ffill_from None values)).
  rewrite !list_lookup_fmap, (ffill_from_lookup None values i Hi).
  cbn [fmap option_fmap option_map].
  destruct (last_observed (take (S i) values)) as [v|] eqn:Hv; [|reflexivity].
  by rewrite (last_observed_not_nan _ _ Hv).
Qed.

(** ** Market history fetcher: the history of a frame *)

Lemma dict_set_fresh {V : Type} (k : string) (v : V) (d : PyDict.t V) :
  k ∉ PyDict.keys d -> PyDict.set k v d = d ++ [(k, v)].
Proof.
  unfold PyDict.keys. induction d as [|[k0 v0] d IH]; [reflexivity|].
  cbn [map fst PyDict.set app]. intros Hk.
  rewrite decide_False by (intros ->; apply Hk, elem_of_cons; by left).
  rewrite IH; [reflexivity|]. intros Hin. apply Hk, elem_of_cons. by right.
Qed.

Section HistoryOfFrame.

Variable Timestamp : Type.
Variable strftime : Timestamp -> string.
Variable yf_download : list string -> pyres (DataFrame Timestamp).
Variable round_finite : Q -> option Q.

Lemma add_datasets_exact (data : DataFrame Timestamp) (items : list (string * string))
    (h : MarketHistory) :
  NoDup (map fst items) ->
  (forall k, k ∈ map fst items -> k ∉ PyDict.keys (datasets h)) ->
  fold_left (add_dataset Timestamp round_finite data) items h
  = {| dates := dates h;
       datasets := datasets h ++ map (dataset_of Timestamp round_finite data)
                                   (filter (downloaded Timestamp data) items) |}.
Proof.
  revert h. induction items as [|[k t] items IH]; intros [ds sets] Hnd Hfresh.
  - cbn. by rewrite app_nil_r.
  - cbn [fold_left map fst] in *. apply NoDup_cons in Hnd as [Hk Hnd].
    rewrite filter_cons. unfold add_dataset at 2, downloaded at 1. cbn [snd dates datasets].
    case_bool_decide as Hcol.
    + rewrite decide_True by exact Hcol.
      rewrite dict_set_fresh by (apply Hfresh, elem_of_cons; by left).
      rewrite IH; [| exact Hnd |].
      * cbn [dates datasets map]. by rewrite <- app_assoc.
      * intros k' Hk'. cbn [datasets]. unfold PyDict.keys.
        rewrite map_app, elem_of_app. cbn [map fst].
        intros [Hin | ->%list_elem_of_singleton]; [|done].
        apply (Hfresh k'); [apply elem_of_cons; by right|exact Hin].
    + rewrite decide_False by exact Hcol. apply IH; [exact Hnd|].
      intros k' Hk'. apply Hfresh, elem_of_cons. by right.
Qed.

(** The history of a downloaded frame. *)
Lemma fetch_market_data_frame (data : DataFrame Timestamp) :
  yf_download (PyDict.values SYMBOL_MAP) = Ok data ->
  fetch_market_data Timestamp strftime yf_download round_finite
  = {| dates := map (fun row => strftime row.1) (df_rows Timestamp data);
       datasets := map (dataset_of Timestamp round_finite data)
                     (filter (downloaded Timestamp data) SYMBOL_MAP) |}.
Proof.
  intros Hdata. unfold fetch_market_data. rewrite Hdata.
  cbn [mbind pyres_bind try_except]. rewrite add_datasets_exact; [reflexivity| |].
  - apply (bool_decide_unpack _). vm_compute. exact I.
  - intros k _ Hk. cbn in Hk. by apply elem_of_nil in Hk.
Qed.

(** X20: when the download returns a frame, the dates are the formatted
    index entries in the order of the frame, and the datasets are, in the
    order of [SYMBOL_MAP], those of the symbols whose ticker is a column
    of the frame, each one the column of its ticker, forward-filled,
    zero-filled and rounded by numpy's rounding; a symbol whose ticker is
    no column gets no dataset, and no error. *)
Theorem fetch_market_data_of_frame (data : DataFrame Timestamp) :
  yf_download (PyDict.values SYMBOL_MAP) = Ok data ->
  fetch_market_data Timestamp strftime yf_download round_finite
  = {| dates := map (fun row => strftime row.1) (df_rows Timestamp data);
       datasets := map (dataset_of Timestamp round_finite data)
                     (filter (downloaded Timestamp data) SYMBOL_MAP) |}.
Proof. exact (fetch_market_data_frame data). Qed.

(** X21: in the history of a downloaded frame, a dataset is the one of
    a symbol of [SYMBOL_MAP] whose ticker is a column of the frame, and
    at every date it holds the rounding of the last closing price of
    that ticker observed up to the date (the last one that is not NaN),
    and the rounding of 0 where none was observed yet. *)
Theorem cleaned_value_is_last_observation (data : DataFrame Timestamp)
    (k : string) (ds : list pyfloat) (i : nat) :
  yf_download (PyDict.values SYMBOL_MAP) = Ok data ->
  (k, ds) ∈ datasets (fetch_market_data Timestamp strftime yf_download round_finite) ->
  (i < length (df_rows Timestamp data))%nat ->
  exists ticker,
    (k, ticker) ∈ SYMBOL_MAP
    /\ ticker ∈ df_columns Timestamp data
    /\ ds !! i
       = Some (round2 round_finite
                 (default (Finite 0)
                    (last_observed (take (S i) (df_column Timestamp data ticker))))).
Proof.
  intros Hdata Hds Hi. rewrite (fetch_market_data_frame data Hdata) in Hds.
  cbn [datasets] in Hds. apply list_elem_of_fmap in Hds as ([k' ticker] & Heq & Hitem).
  apply list_elem_of_filter in Hitem as [Hcol Hitem].
  unfold dataset_of in Heq. cbn [fst snd] in Heq. injection Heq as -> ->.
  exists ticker. split_and!; [exact Hitem|exact Hcol|].
  apply clean_data_lookup. unfold df_column. by rewrite length_map.
Qed.

End HistoryOfFrame.

Lemma fetch_market_data_of_frame_witness :
  Ok SampleData.frame_with_gaps = Ok SampleData.frame_with_gaps
  /\ fetch_market_data string (fun t => t) (fun _ => Ok SampleData.frame_with_gaps)
       round_finite_exact
     = {| dates := map (fun row => row.1) (df_rows string SampleData.frame_with_gaps);
          datasets := map (dataset_of string round_finite_exact SampleData.frame_with_gaps)
                        (filter (downloaded string SampleData.frame_with_gaps)
                           SYMBOL_MAP) |}.
Proof.
  split; [reflexivity|].
  exact (fetch_market_data_of_frame string (fun t => t)
           (fun _ => Ok SampleData.frame_with_gaps) round_finite_exact
           SampleData.frame_with_gaps eq_refl).
Defined.

Lemma cleaned_value_is_last_observation_witness :
  Ok SampleData.frame_with_gaps = Ok SampleData.frame_with_gaps
  /\ ("AAGZU00", [Finite (0 # 100); Finite (7123 # 100); Finite (7123 # 100)])
       ∈ datasets (fetch_market_data string (fun t => t)
                     (fun _ => Ok SampleData.frame_with_gaps) round_finite_exact)
  /\ (2 < length (df_rows string SampleData.frame_with_gaps))%nat
  /\ exists ticker,
       ("AAGZU00", ticker) ∈ SYMBOL_MAP
       /\ ticker ∈ df_columns string SampleData.frame_with_gaps
       /\ [Finite (0 # 100); Finite (7123 # 100); Finite (7123 # 100)] !! 2%nat
          = Some (round2 round_finite_exact
                    (default (Finite 0)
                       (last_observed
                          (take 3 (df_column string SampleData.frame_with_gaps ticker))))).
Proof.
  assert (H : ("AAGZU00", [Finite (0 # 100); Finite (7123 # 100); Finite (7123 # 100)])
                ∈ datasets (fetch_market_data string (fun t => t)
                              (fun _ => Ok SampleData.frame_with_gaps)
                              round_finite_exact)).
  { vm_compute. apply elem_of_cons. by left. }
  assert (Hi : (2 < length (df_rows string SampleData.frame_with_gaps))%nat)
    by (cbn; lia).
  split_and!; [reflexivity|exact H|exact Hi|].
  exact (cleaned_value_is_last_observation string (fun t => t)
           (fun _ => Ok SampleData.frame_with_gaps) round_finite_exact
           SampleData.frame_with_gaps _ _ 2 eq_refl H Hi).
Defined.

(** ** The files between the stages: what a run changes *)

Lemma load_json_insert_ne (fs : gmap string File) (out path : string) (f : File) :
  out <> path -> load_json (<[out := f]> fs) path = load_json fs path.
Proof. intros Hne. unfold load_json. by rewrite lookup_insert_ne. Qed.

Section Reruns.

Variable scorer : string -> string -> Q.
Variable Timestamp : Type.
Variable strftime : Timestamp -> string.
Variable yf_download : list string -> pyres (DataFrame Timestamp).
Variable round_finite : Q -> option Q.
Variable render : Json -> string.

(** X22: a run of the enrichment script that returns has written
    [data/enriched/dashboard_payload.json] and changed no other file,
    and a second run on the files it leaves returns the same files: the
    script reads none of what it writes. *)
Theorem enrich_main_rerun (fs fs' : gmap string File) :
  enrich_main scorer Timestamp strftime yf_download round_finite fs = Ok fs' ->
  (forall path, path <> "data/enriched/dashboard_payload.json" ->
                fs' !! path = fs !! path)
  /\ enrich_main scorer Timestamp strftime yf_download round_finite fs' = Ok fs'.
Proof.
  unfold enrich_main.
  destruct (load_json fs (path_join PROC_DIR "ports.json") ≫= as_ports)
    as [ports|] eqn:Hp; [|discriminate].
  destruct (load_json fs (path_join PROC_DIR "benchmarks.json") ≫= as_benchmarks)
    as [benchmarks|] eqn:Hb; [|discriminate].
  destruct (load_json fs (path_join PROC_DIR "currencies.json") ≫= as_currencies)
    as [currencies|] eqn:Hc; [|discriminate].
  cbn [mbind pyres_bind].
  destruct (final_payload _ _ _ _ _ _ _ _) as [payload|] eqn:Hpl; [|discriminate].
  intros [= <-]. split.
  - intros path Hpath. apply lookup_insert_ne. intros <-. by apply Hpath.
  - rewrite !load_json_insert_ne by discriminate. rewrite Hp, Hb, Hc.
    cbn [mbind pyres_bind]. rewrite Hpl. cbn [mbind pyres_bind].
    by rewrite insert_insert_eq.
Qed.

(** X23: a run of [generate] that returns has found a JSON document at
    [data/processed/dashboard_data.json], has written its rendering to
    [index.html] and changed no other file; a second run returns the
    same files. *)
Theorem generate_rerun (fs fs' : gmap string File) :
  generate render fs = Ok fs' ->
  (exists doc,
     fs !! "data/processed/dashboard_data.json" = Some (JsonFile doc)
     /\ fs' = <["index.html" := TextFile (render doc)]> fs)
  /\ generate render fs' = Ok fs'.
Proof.
  unfold generate.
  destruct (load_json fs (path_join PROC_DIR "dashboard_data.json")) as [doc|] eqn:Hdoc;
    [|discriminate].
  cbn [mbind pyres_bind]. intros [= <-]. split.
  - exists doc. split; [|reflexivity]. unfold load_json in Hdoc.
    change (path_join PROC_DIR "dashboard_data.json")
      with "data/processed/dashboard_data.json" in Hdoc.
    destruct (fs !! "data/processed/dashboard_data.json") as [[d|t]|];
      [by injection Hdoc as ->|discriminate|discriminate].
  - rewrite load_json_insert_ne by discriminate. rewrite Hdoc.
    cbn [mbind pyres_bind]. by rewrite insert_insert_eq.
Qed.

(** X24: the enrichment script raises [FileNotFoundError] for the first
    of [ports.json], [benchmarks.json] and [currencies.json] that does
    not exist, and writes nothing. *)
Theorem enrich_main_needs_the_three_files (fs : gmap string File) :
  (fs !! "data/processed/ports.json" = None ->
   enrich_main scorer Timestamp strftime yf_download round_finite fs
   = Raise (FileNotFoundError "data/processed/ports.json"))
  /\ (forall ports,
        fs !! "data/processed/ports.json" = Some (JsonFile (JPorts ports)) ->
        fs !! "data/processed/benchmarks.json" = None ->
        enrich_main scorer Timestamp strftime yf_download round_finite fs
        = Raise (FileNotFoundError "data/processed/benchmarks.json"))
  /\ (forall ports benchmarks,
        fs !! "data/processed/ports.json" = Some (JsonFile (JPorts ports)) ->
        fs !! "data/processed/benchmarks.json"
        = Some (JsonFile (JBenchmarks benchmarks)) ->
        fs !! "data/processed/currencies.json" = None ->
        enrich_main scorer Timestamp strftime yf_download round_finite fs
        = Raise (FileNotFoundError "data/processed/currencies.json")).
Proof.
  unfold enrich_main, load_json.
  change (path_join PROC_DIR "ports.json") with "data/processed/ports.json".
  change (path_join PROC_DIR "benchmarks.json") with "data/processed/benchmarks.json".
  change (path_join PROC_DIR "currencies.json") with "data/processed/currencies.json".
  split_and!.
  - by intros ->.
  - by intros ports -> ->.
  - by intros ports benchmarks -> -> ->.
Qed.

End Reruns.

Lemma enrich_main_rerun_witness :
  enrich_main substring_scorer string (fun t => t) SampleData.offline round_finite_exact
    SampleData.processed = Ok SampleData.enriched
  /\ (forall path, path <> "data/enriched/dashboard_payload.json" ->
                   SampleData.enriched !! path = SampleData.processed !! path)
  /\ enrich_main substring_scorer string (fun t => t) SampleData.offline round_finite_exact
       SampleData.enriched = Ok SampleData.enriched.
Proof.
  assert (H : enrich_main substring_scorer string (fun t => t) SampleData.offline round_finite_exact
                SampleData.processed = Ok SampleData.enriched)
    by (vm_compute; reflexivity).
  split; [exact H|].
  exact (enrich_main_rerun substring_scorer string (fun t => t) SampleData.offline round_finite_exact
           SampleData.processed SampleData.enriched H).
Defined.

Lemma generate_rerun_witness :
  generate (fun _ => "<html></html>") SampleFiles.with_dashboard_data
  = Ok SampleFiles.rendered
  /\ (exists doc,
        SampleFiles.with_dashboard_data !! "data/processed/dashboard_data.json"
        = Some (JsonFile doc)
        /\ SampleFiles.rendered
           = <["index.html" := TextFile "<html></html>"]> SampleFiles.with_dashboard_data)
  /\ generate (fun _ => "<html></html>") SampleFiles.rendered = Ok SampleFiles.rendered.
Proof.
  assert (H : generate (fun _ => "<html></html>") SampleFiles.with_dashboard_data
              = Ok SampleFiles.rendered) by (vm_compute; reflexivity).
  split; [exact H|].
  exact (generate_rerun (fun _ => "<html></html>") _ _ H).
Defined.
